(** * Medicine reminder application (app.py): a shallow embedding

    The program is a Streamlit script: every user interaction re-runs the
    whole module top to bottom against the widget values of that run, the
    per-session dictionary [st.session_state], the process environment and
    the stores behind [db].  One run is modelled as a computation in a
    state-and-exception monad over a [World]; every call that leaves the
    script (rendering, database, language model, similarity index, speech
    engine, clock) is recorded in a log, and the answers of the external
    collaborators come from an [Env] of oracles that may depend on the
    whole history so far.

    Calls are modelled as fallible where the script or its specification
    speaks about their failure (document ingestion, the reminder
    evaluator, speech input, dictionary lookups, [next]); rendering calls
    and the store calls are total. *)

From Stdlib Require Import String Ascii List Arith Bool Lia.
From stdpp Require Import gmap strings.
Import ListNotations.
Open Scope string_scope.
Open Scope nat_scope.

(** ** Python values and exceptions *)

(** The exception classes the script can meet; all derive from
    [Exception], so [except Exception] catches every one of them. *)
Inductive ExcClass :=
| TypeError | StopIteration | IndexError | KeyError | AttributeError
| ValueError | OSError | RuntimeError
| UnknownValueError | RequestError | WaitTimeoutError
| StreamlitAPIException.

Record exn := Exc { exc_class : ExcClass; exc_msg : string }.

(** ** Small string helpers *)

Definition nl : string := String (ascii_of_nat 10) EmptyString.
Definition dquote : string := String (ascii_of_nat 34) EmptyString.

(** [sep.join(xs)] *)
Fixpoint join (sep : string) (xs : list string) : string :=
  match xs with
  | [] => ""
  | [x] => x
  | x :: rest => x ++ sep ++ join sep rest
  end.

(** Truthiness of a Python [str]. *)
Definition str_truthy (s : string) : bool := negb (String.eqb s "").

Definition lower_ascii (c : ascii) : ascii :=
  let n := nat_of_ascii c in
  if (65 <=? n) && (n <=? 90) then ascii_of_nat (n + 32) else c.

(** [s.lower()] on the ASCII range. *)
Fixpoint lower (s : string) : string :=
  match s with
  | EmptyString => EmptyString
  | String c rest => String (lower_ascii c) (lower rest)
  end.

(** [needle in hay] for strings. *)
Fixpoint contains (needle hay : string) : bool :=
  String.prefix needle hay ||
  match hay with
  | EmptyString => false
  | String _ rest => contains needle rest
  end.

Definition digit (d : nat) : ascii := ascii_of_nat (48 + d).

(** [%02d] for a value below one hundred. *)
Definition two_digits (n : nat) : string :=
  String (digit (n / 10)) (String (digit (n mod 10)) EmptyString).

(** [str(n)] for the counters shown in the dashboard. *)
Fixpoint nat_to_string_aux (fuel n : nat) (acc : string) : string :=
  match fuel with
  | 0 => acc
  | S f =>
      let acc' := String (digit (n mod 10)) acc in
      if n / 10 =? 0 then acc' else nat_to_string_aux f (n / 10) acc'
  end.

Definition nat_to_string (n : nat) : string := nat_to_string_aux (S n) n "".

(** ** Wall-clock time *)

(** [datetime.time] restricted to the fields the script formats. *)
Record Time := mkTime { hour : nat; minute : nat }.

(** [t.strftime("%I:%M %p")]: twelve-hour clock, zero padded, AM/PM. *)
Definition strftime_I_M_p (t : Time) : string :=
  let h12 := if hour t mod 12 =? 0 then 12 else hour t mod 12 in
  two_digits h12 ++ ":" ++ two_digits (minute t) ++ " "
  ++ (if hour t <? 12 then "AM" else "PM").

(** [t.strftime("%H:%M")] *)
Definition strftime_H_M (t : Time) : string :=
  two_digits (hour t) ++ ":" ++ two_digits (minute t).

Definition digit_val (c : ascii) : option nat :=
  let n := nat_of_ascii c in
  if (48 <=? n) && (n <=? 57) then Some (n - 48) else None.

(** The hour directive [%H] accepts [2[0-3]], [[0-1]\d] or a single digit,
    tried in that order, and must be followed here by the colon. *)
Definition parse_hour (s : string) : option (nat * string) :=
  match s with
  | String a (String b (String ":" rest)) =>
      match digit_val a, digit_val b with
      | Some x, Some y =>
          if ((x =? 2) && (y <=? 3)) || (x <=? 1) then Some (10 * x + y, rest) else None
      | _, _ => None
      end
  | String a (String ":" rest) =>
      match digit_val a with Some x => Some (x, rest) | None => None end
  | _ => None
  end.

(** The minute directive [%M] accepts [[0-5]\d] or a single digit; nothing
    may remain after it. *)
Definition parse_minute (s : string) : option nat :=
  match s with
  | String a (String b EmptyString) =>
      match digit_val a, digit_val b with
      | Some x, Some y => if x <=? 5 then Some (10 * x + y) else None
      | _, _ => None
      end
  | String a EmptyString => digit_val a
  | _ => None
  end.

(** [datetime.datetime.strptime(s, "%H:%M").time()] *)
Definition strptime_H_M (s : string) : exn + Time :=
  match parse_hour s with
  | Some (h, rest) =>
      match parse_minute rest with
      | Some m => inr (mkTime h m)
      | None => inl (Exc ValueError "time data does not match format '%H:%M'")
      end
  | None => inl (Exc ValueError "time data does not match format '%H:%M'")
  end.

(** ** Values kept in [st.session_state] *)

(** A FAISS similarity index over text chunks, and the documents a
    retriever hands back. *)
Record Index := mkIndex { index_chunks : list string }.
Record Document := mkDocument { page_content : string }.

Inductive SVal :=
| VNone
| VBool (b : bool)
| VStr (s : string)
| VIndex (i : Index).

#[global] Instance Index_eq_dec : EqDecision Index.
Proof. solve_decision. Defined.
#[global] Instance SVal_eq_dec : EqDecision SVal.
Proof. solve_decision. Defined.

(** Python truthiness of the values above (an index object defines
    neither [__bool__] nor [__len__]). *)
Definition truthy (v : SVal) : bool :=
  match v with
  | VNone => false
  | VBool b => b
  | VStr s => str_truthy s
  | VIndex _ => true
  end.

(** ** The stores behind [db] *)

Module Db.

(** A row of the credential table as the script reads it: [user[1]] is the
    user name. *)
Record UserRow := mkUser { user_id : nat; username : string; password : string }.

Record MedicineScheduleEntry := mkEntry {
  medicine_name : string;
  morning : bool;
  afternoon : bool;
  night : bool;
  dosage : string
}.

Record ScheduleRow := mkScheduleRow {
  schedule_owner : SVal;
  schedule_entry : MedicineScheduleEntry
}.

(** A reminder tuple: [r[0]] id, [r[1]] owner, [r[2]] medicine, [r[3]]
    time as HH:MM, [r[4]] dosage. *)
Record ReminderRow := mkReminder {
  reminder_id : nat;
  reminder_owner : SVal;
  reminder_medicine : string;
  reminder_time : string;
  reminder_dosage : string
}.

Record t := mk {
  users : gmap string (nat * string);
  schedules : list ScheduleRow;
  reminders : list ReminderRow;
  next_reminder_id : nat
}.

Definition empty : t := mk ∅ [] [] 1.

(** Modelled from the spec: [db.init_auth_db] is not under src/ and the
    spec does not describe it; the tables exist in every [t], so it
    leaves the records as they are. *)
Definition init_auth_db (d : t) : t := d.

(** Modelled from the spec: [db.register_user] is not under src/.
    "register(username, password) -> bool: succeeds and persists the pair
    unless username already exists, in which case it fails". *)
Definition register_user (u p : string) (d : t) : bool * t :=
  match users d !! u with
  | Some _ => (false, d)
  | None =>
      (true, mk (<[u := (S (size (users d)), p)]> (users d))
                (schedules d) (reminders d) (next_reminder_id d))
  end.

(** Modelled from the spec: [db.login_user] is not under src/.
    "login(username, password) -> UserRecord | absent: succeeds only on
    exact match of both fields; returns nothing on mismatch". *)
Definition login_user (u p : string) (d : t) : option UserRow :=
  match users d !! u with
  | Some (i, stored) => if String.eqb stored p then Some (mkUser i u stored) else None
  | None => None
  end.

Definition owns (owner : SVal) (name : string) (r : ScheduleRow) : bool :=
  bool_decide (schedule_owner r = owner)
  && String.eqb (medicine_name (schedule_entry r)) name.

(** Modelled from the spec: the schedule operations of [db] are not under
    src/.  "addSchedule(owner, entry)": entries are appended, with no
    uniqueness constraint on the medicine name. *)
Definition store_medicine_schedule (owner : SVal) (e : MedicineScheduleEntry) (d : t) : t :=
  mk (users d) (schedules d ++ [mkScheduleRow owner e]) (reminders d) (next_reminder_id d).

(** Modelled from the spec: "listSchedule(owner) -> ordered sequence". *)
Definition get_medicine_schedule (owner : SVal) (d : t) : list MedicineScheduleEntry :=
  map schedule_entry
      (List.filter (fun r => bool_decide (schedule_owner r = owner)) (schedules d)).

(** Modelled from the spec: "updateSchedule(owner, name, newEntry)", keyed
    on the medicine name. *)
Definition update_medicine_schedule (owner : SVal) (name : string)
    (e : MedicineScheduleEntry) (d : t) : t :=
  mk (users d)
     (map (fun r => if owns owner name r then mkScheduleRow owner e else r) (schedules d))
     (reminders d) (next_reminder_id d).

(** Modelled from the spec: "deleteSchedule(owner, name)" removes all the
    owner's entries with that name. *)
Definition delete_medicine_schedule (owner : SVal) (name : string) (d : t) : t :=
  mk (users d)
     (List.filter (fun r => negb (owns owner name r)) (schedules d))
     (reminders d) (next_reminder_id d).

Definition reminds (owner : SVal) (name : string) (r : ReminderRow) : bool :=
  bool_decide (reminder_owner r = owner) && String.eqb (reminder_medicine r) name.

(** Modelled from the spec: "addReminder(owner, medicineName, time,
    dosage)". *)
Definition store_reminder (owner : SVal) (name time dose : string) (d : t) : t :=
  mk (users d) (schedules d)
     (reminders d ++ [mkReminder (next_reminder_id d) owner name time dose])
     (S (next_reminder_id d)).

(** Modelled from the spec: "listReminders(owner)". *)
Definition get_reminders (owner : SVal) (d : t) : list ReminderRow :=
  List.filter (fun r => bool_decide (reminder_owner r = owner)) (reminders d).

(** Modelled from the spec: "updateReminder(owner, medicineName, newTime,
    newDosage)". *)
Definition update_reminder (owner : SVal) (name time dose : string) (d : t) : t :=
  mk (users d) (schedules d)
     (map (fun r => if reminds owner name r
                    then mkReminder (reminder_id r) owner name time dose else r)
          (reminders d))
     (next_reminder_id d).

(** Modelled from the spec: "deleteReminder(owner, medicineName)". *)
Definition delete_reminder (owner : SVal) (name : string) (d : t) : t :=
  mk (users d) (schedules d)
     (List.filter (fun r => negb (reminds owner name r)) (reminders d))
     (next_reminder_id d).

(** The calls the script makes into [db], as they appear in the log. *)
Inductive Call :=
| InitAuthDb
| RegisterUser (u p : string)
| LoginUser (u p : string)
| StoreMedicineSchedule (owner : SVal) (e : MedicineScheduleEntry)
| GetMedicineSchedule (owner : SVal)
| UpdateMedicineSchedule (owner : SVal) (name : string) (e : MedicineScheduleEntry)
| DeleteMedicineSchedule (owner : SVal) (name : string)
| StoreReminder (owner : SVal) (name time dose : string)
| GetReminders (owner : SVal)
| UpdateReminder (owner : SVal) (name time dose : string)
| DeleteReminder (owner : SVal) (name : string).

End Db.

(** ** Events, oracles and the world of one run *)

Record UploadedFile := mkUpload { file_name : string; file_bytes : string }.

(** A page of a parsed PDF: what [page.extract_text()] gives. *)
Record PdfPage := mkPage { extract_text : exn + string }.

Record AudioData := mkAudio { audio_frames : list nat }.

Inductive Widget :=
| StMarkdown | StHeader | StSubheader | StWrite
| StWarning | StError | StInfo | StSuccess
| StTextInput | StButton | StCheckbox | StForm | StFormSubmitButton
| StExpander | StSelectbox | StTimeInput | StFileUploader
| StSpinner | StColumns | StOptionMenu.

(** Everything a run does outside its own local variables. *)
Inductive Event :=
| EUi (w : Widget) (text : string)
| EChart (rows : list (string * string * string))
| EDb (c : Db.Call)
| ENow (t : Time)
| ELlmInit (model : string) (temperature max_output_tokens : nat)
| ERetrieve (vs : Index) (query : string)
| ELlm (prompt : string)
| EEngineInit
| EIsBusy (b : bool)
| ESay (text : string)
| ERunAndWait
| ESleep (seconds : nat)
| EPdfReader (f : UploadedFile)
| EFromTexts (texts : list string)
| EMicrophone
| EAdjustForAmbientNoise
| EListen (timeout : nat)
| ERecognizeGoogle (a : AudioData)
| EFileWrite (path text : string).

(** The external collaborators.  Each answer may depend on the history,
    newest event first. *)
Record Env := mkEnv {
  env_load_dotenv : gmap string string -> gmap string string;
  env_now : list Event -> Time;
  env_llm_init : list Event -> exn + unit;
  env_retrieve : list Event -> Index -> string -> exn + list Document;
  env_llm : list Event -> string -> exn + string;
  env_is_busy : list Event -> bool;
  env_pdf_reader : list Event -> UploadedFile -> exn + list PdfPage;
  env_split_text : nat -> nat -> string -> list string;
  env_from_texts : list Event -> list string -> exn + Index;
  env_microphone : list Event -> exn + unit;
  env_listen : list Event -> exn + AudioData;
  env_recognize_google : list Event -> AudioData -> exn + string
}.

Record World := mkWorld {
  environ : gmap string string;
  session : gmap string SVal;
  db : Db.t;
  log : list Event
}.

(** The log in the order things happened. *)
Definition history (w : World) : list Event := rev (log w).

(** ** The monad of a run *)

(** [Running]: the run is still inside its loop when the fuel runs out. *)
Inductive Outcome (A : Type) :=
| Done (a : A)
| Raised (e : exn)
| Running.
Arguments Done {A} a.
Arguments Raised {A} e.
Arguments Running {A}.

Definition M (A : Type) : Type := World -> Outcome A * World.

Definition ret {A} (a : A) : M A := fun w => (Done a, w).

Definition bind {A B} (m : M A) (k : A -> M B) : M B :=
  fun w =>
    match m w with
    | (Done a, w') => k a w'
    | (Raised e, w') => (Raised e, w')
    | (Running, w') => (Running, w')
    end.

Declare Scope run_scope.
Delimit Scope run_scope with run.
Notation "x <- m ;; k" := (bind m (fun x => k))
  (at level 100, m at next level, right associativity) : run_scope.
Notation "m ;; k" := (bind m (fun _ => k))
  (at level 100, right associativity) : run_scope.
Open Scope run_scope.

Definition raise {A} (e : exn) : M A := fun w => (Raised e, w).

Definition running {A} : M A := fun w => (Running, w).

(** [try: m except ... as e: h e]; a handler that does not match the
    exception raises it again. *)
Definition try_except {A} (m : M A) (h : exn -> M A) : M A :=
  fun w =>
    match m w with
    | (Raised e, w') => h e w'
    | r => r
    end.

Definition emit (e : Event) : M unit :=
  fun w => (Done tt, mkWorld (environ w) (session w) (db w) (e :: log w)).

(** A call to a fallible collaborator: the call is logged, then answered. *)
Definition external {A} (e : Event) (oracle : list Event -> exn + A) : M A :=
  fun w =>
    let w' := mkWorld (environ w) (session w) (db w) (e :: log w) in
    match oracle (log w') with
    | inl x => (Raised x, w')
    | inr a => (Done a, w')
    end.

(** A query whose answer is part of what is logged. *)
Definition observe {A} (oracle : list Event -> A) (e : A -> Event) : M A :=
  fun w =>
    let a := oracle (log w) in
    (Done a, mkWorld (environ w) (session w) (db w) (e a :: log w)).

(** [for x in xs: body x] *)
Fixpoint for_each {A} (xs : list A) (body : A -> M unit) : M unit :=
  match xs with
  | [] => ret tt
  | x :: rest => body x ;; for_each rest body
  end.

(** A call into [db]: logged, applied to the store. *)
Definition db_call {A} (c : Db.Call) (f : Db.t -> A * Db.t) : M A :=
  fun w =>
    let (a, d) := f (db w) in
    (Done a, mkWorld (environ w) (session w) d (EDb c :: log w)).

Definition db_update (c : Db.Call) (f : Db.t -> Db.t) : M unit :=
  db_call c (fun d => (tt, f d)).

Definition db_query {A} (c : Db.Call) (f : Db.t -> A) : M A :=
  db_call c (fun d => (f d, d)).

(** [st.session_state[key]] *)
Definition session_get (key : string) : M SVal :=
  fun w =>
    match session w !! key with
    | Some v => (Done v, w)
    | None => (Raised (Exc KeyError key), w)
    end.

(** [st.session_state.key] *)
Definition session_attr (key : string) : M SVal :=
  fun w =>
    match session w !! key with
    | Some v => (Done v, w)
    | None => (Raised (Exc AttributeError key), w)
    end.

(** [key in st.session_state] *)
Definition session_has (key : string) : M bool :=
  fun w => (Done (bool_decide (is_Some (session w !! key))), w).

(** [st.session_state[key] = v] *)
Definition session_set (key : string) (v : SVal) : M unit :=
  fun w => (Done tt, mkWorld (environ w) (<[key := v]> (session w)) (db w) (log w)).

(** ** Widget values of one run *)

Inductive MenuOption :=
| MenuHome | MenuRegister | MenuLogin | MenuDashboard
| MenuSchedule | MenuUpload | MenuVoice.

(** The labels handed to [option_menu], one of which it returns. *)
Definition menu_label (o : MenuOption) : string :=
  match o with
  | MenuHome => "Home"
  | MenuRegister => "Register"
  | MenuLogin => "Login"
  | MenuDashboard => "Dashboard"
  | MenuSchedule => "Schedule & Reminders"
  | MenuUpload => "Upload"
  | MenuVoice => "Voice Recognition"
  end.

Record MedicineForm := mkMedicineForm {
  mf_medicine_name : string;
  mf_morning : bool;
  mf_afternoon : bool;
  mf_night : bool;
  mf_dosage : string;
  mf_submitted : bool
}.

Record EditForm := mkEditForm {
  ef_medicine_name : string;
  ef_morning : bool;
  ef_afternoon : bool;
  ef_night : bool;
  ef_dosage : string;
  ef_update_submitted : bool;
  ef_delete_submitted : bool
}.

Record ReminderForm := mkReminderForm {
  rf_choice : nat;
  rf_time : Time;
  rf_submitted : bool
}.

Record ReminderEdit := mkReminderEdit {
  re_time : Time;
  re_dosage : string;
  re_update_submitted : bool;
  re_delete_submitted : bool
}.

Record Inputs := mkInputs {
  in_menu : MenuOption;
  in_login_username : string;
  in_login_password : string;
  in_login_button : bool;
  in_username : string;
  in_password : string;
  in_confirm_password : string;
  in_register_button : bool;
  in_medicine_form : MedicineForm;
  in_edit_form : string -> EditForm;
  in_reminder_form : ReminderForm;
  in_reminder_edit : nat -> ReminderEdit;
  in_pdf : option UploadedFile;
  in_check_button : bool;
  in_auto_check : bool;
  in_start_recording : bool;
  in_set_reminder_button : bool
}.

(** What the module-level name [page] is bound to: a menu label, or, once
    the upload loop [for page in pdf_reader.pages] has run, a PDF page. *)
Inductive PageVar :=
| PageName (s : string)
| PageOfPdf (p : PdfPage).

(** [st.selectbox(label, options)]: the chosen option, [None] when there
    is none to choose from. *)
Definition selectbox (options : list string) (choice : nat) : option string :=
  match nth_error options choice with
  | Some s => Some s
  | None => head options
  end.

(** How a selection prints in an f-string and reaches the store; a [None]
    selection never gets that far (see the reminder form). *)
Definition selected_name (s : option string) : string :=
  match s with Some n => n | None => "None" end.

Definition yes_no (b : bool) : string := if b then "Yes" else "No".

Definition nonempty {A} (l : list A) : bool :=
  match l with [] => false | _ => true end.

(** ** Fixed texts of the script.  The style sheets and decorative markup
    are abridged to their first element; every message is verbatim. *)

Definition app_css : string := "<style>/* dark theme */</style>".
Definition home_header : string :=
  "<div class='main-header'>Welcome to Your Medicine Reminder App!</div>".
Definition home_overview : string :=
  "The **Medicine Reminder App** helps manage your medication schedules effectively.".
Definition home_css : string := "<style>/* sections */</style>".
Definition home_features : string := "<div class='section-container'>features</div>".
Definition home_benefits : string := "<div class='section-container'>benefits</div>".
Definition dashboard_header : string :=
  "<div class='main-header' style='margin-bottom:50px'>Welcome to Your Medicine Reminder Dashboard!</div>".
Definition dashboard_css : string := "<style>/* metrics */</style>".
Definition metric_value (n : nat) (icon : string) : string :=
  "<div class='metric-value'>" ++ nat_to_string n ++ "<img src='" ++ icon
  ++ "' class='metric-icon'/></div>".
Definition no_schedule_yet : string :=
  "No medication schedule available yet. Add some medications to see insights.".
Definition no_medicines_now : string := "No medicines scheduled for now.".
Definition not_callable : string := "'_Environ' object is not callable".

(** ** The script *)

Section Script.

Variable env : Env.
Variable inp : Inputs.

(** A rendering call of the UI framework. *)
Definition st (w : Widget) (text : string) : M unit := emit (EUi w text).

(** The keys of the forms created so far in this run of the script:
    those logged since module initialisation started the engine. *)
Fixpoint forms_this_run (l : list Event) : list string :=
  match l with
  | [] => []
  | EEngineInit :: _ => []
  | EUi StForm key :: rest => key :: forms_this_run rest
  | _ :: rest => forms_this_run rest
  end.

(** What the framework says of a form key used twice. *)
Definition duplicate_form_message (key : string) : string :=
  nl ++ "There are multiple identical forms with `key='" ++ key ++ "'`." ++ nl ++ nl
  ++ "To fix this, please make sure that the `key` argument is unique for" ++ nl
  ++ "each `st.form` you create." ++ nl.

(** [st.form(key)]: the framework refuses a second form with a key
    already used in the run, raising its API exception before anything
    of the form is rendered. *)
Definition st_form (key : string) : M unit :=
  fun w =>
    if existsb (String.eqb key) (forms_this_run (log w))
    then (Raised (Exc StreamlitAPIException (duplicate_form_message key)), w)
    else emit (EUi StForm key) w.

Definition lift {A} (r : exn + A) : M A :=
  match r with inl e => raise e | inr a => ret a end.

(** [datetime.datetime.now()] *)
Definition datetime_now : M Time := observe (env_now env) ENow.

(** *** Calls into [db] *)

Definition init_auth_db : M unit :=
  db_update Db.InitAuthDb Db.init_auth_db.
Definition register_user (u p : string) : M bool :=
  db_call (Db.RegisterUser u p) (Db.register_user u p).
Definition login_user (u p : string) : M (option Db.UserRow) :=
  db_query (Db.LoginUser u p) (Db.login_user u p).
Definition store_medicine_schedule (owner : SVal) (e : Db.MedicineScheduleEntry) : M unit :=
  db_update (Db.StoreMedicineSchedule owner e) (Db.store_medicine_schedule owner e).
Definition get_medicine_schedule (owner : SVal) : M (list Db.MedicineScheduleEntry) :=
  db_query (Db.GetMedicineSchedule owner) (Db.get_medicine_schedule owner).
Definition update_medicine_schedule (owner : SVal) (name : string)
    (e : Db.MedicineScheduleEntry) : M unit :=
  db_update (Db.UpdateMedicineSchedule owner name e) (Db.update_medicine_schedule owner name e).
Definition delete_medicine_schedule (owner : SVal) (name : string) : M unit :=
  db_update (Db.DeleteMedicineSchedule owner name) (Db.delete_medicine_schedule owner name).
Definition store_reminder (owner : SVal) (name time dose : string) : M unit :=
  db_update (Db.StoreReminder owner name time dose) (Db.store_reminder owner name time dose).
Definition get_reminders (owner : SVal) : M (list Db.ReminderRow) :=
  db_query (Db.GetReminders owner) (Db.get_reminders owner).
Definition update_reminder (owner : SVal) (name time dose : string) : M unit :=
  db_update (Db.UpdateReminder owner name time dose) (Db.update_reminder owner name time dose).
Definition delete_reminder (owner : SVal) (name : string) : M unit :=
  db_update (Db.DeleteReminder owner name) (Db.delete_reminder owner name).

(** *** The reminder evaluator (lines 35-84) *)

Definition format_docs (docs : list Document) : string :=
  join (nl ++ nl) (map page_content docs).

(** A LangChain runnable: [r.invoke(x)]. *)
Definition Runnable (A B : Type) : Type := A -> M B.

(** [f | g] *)
Definition pipe {A B C} (f : Runnable A B) (g : Runnable B C) : Runnable A C :=
  fun x => y <- f x ;; g y.

(** A plain function used as a step of a chain. *)
Definition step {A B} (f : A -> B) : Runnable A B := fun x => ret (f x).

(** [RunnablePassthrough()] *)
Definition passthrough {A} : Runnable A A := fun x => ret x.

Record PromptInput := mkPromptInput { context : string; current_time : string }.

(** The dict [{"context": c, "current_time": t}] used as a step: both
    entries are invoked on the one input of the chain. *)
Definition parallel {A} (c t : Runnable A string) : Runnable A PromptInput :=
  fun x => cv <- c x ;; tv <- t x ;; ret (mkPromptInput cv tv).

(** The retriever of a vector store: a similarity search for the query. *)
Definition retriever (vs : Index) : Runnable string (list Document) :=
  fun query => external (ERetrieve vs query) (fun h => env_retrieve env h vs query).

(** [vectorstore.as_retriever()] *)
Definition as_retriever (vectorstore : SVal) : M (Runnable string (list Document)) :=
  match vectorstore with
  | VIndex vs => ret (retriever vs)
  | _ => raise (Exc AttributeError "as_retriever")
  end.

(** The template of [ChatPromptTemplate.from_template], formatted. *)
Definition prompt_text (d : PromptInput) : string :=
  nl ++ "    Check if any medicine needs to be taken at " ++ current_time d ++ "." ++ nl
  ++ "    If yes, create a reminder message. If no, respond with "
  ++ dquote ++ no_medicines_now ++ dquote ++ nl
  ++ "    " ++ nl
  ++ "    Context: " ++ context d ++ nl
  ++ "    ".

Definition prompt : Runnable PromptInput string := step prompt_text.

(** [ChatGoogleGenerativeAI(model=..., temperature=0, max_output_tokens=2048)] *)
Definition chat_model : M (Runnable string string) :=
  external (ELlmInit "gemini-1.5-pro" 0 2048) (env_llm_init env) ;;
  ret (fun p => external (ELlm p) (fun h => env_llm env h p)).

(** [StrOutputParser()] *)
Definition str_output_parser : Runnable string string := passthrough.

Definition check_medicine_time (vectorstore : SVal) : M string :=
  now <- datetime_now ;;
  let current_time := strftime_I_M_p now in
  llm <- chat_model ;;
  retriever <- as_retriever vectorstore ;;
  let chain :=
    pipe (parallel (pipe retriever (step format_docs)) passthrough)
         (pipe prompt (pipe llm str_output_parser)) in
  chain current_time.

(** *** Module initialisation (lines 23-32, 96-102) *)

(** [load_dotenv()] *)
Definition load_dotenv : M unit :=
  fun w => (Done tt, mkWorld (env_load_dotenv env (environ w)) (session w) (db w) (log w)).

(** [key in os.environ] *)
Definition environ_has (key : string) : M bool :=
  fun w => (Done (bool_decide (is_Some (environ w !! key))), w).

(** [os.environ(key)]: the mapping is not callable. *)
Definition environ_call (key : string) : M string :=
  raise (Exc TypeError not_callable).

(** [os.environ[key] = v] *)
Definition environ_set (key v : string) : M unit :=
  fun w => (Done tt, mkWorld (<[key := v]> (environ w)) (session w) (db w) (log w)).

Definition startup : M unit :=
  load_dotenv ;;
  has_key <- environ_has "GOOGLE_API_KEY" ;;
  (if negb has_key
   then v <- environ_call "GOOGLE_API_KEY" ;; environ_set "GOOGLE_API_KEY" v
   else ret tt) ;;
  emit EEngineInit ;;
  init_auth_db ;;
  has_flag <- session_has "logged_in" ;;
  (if negb has_flag
   then session_set "logged_in" (VBool false) ;; session_set "user" VNone
   else ret tt).

(** *** Home (lines 281-345) *)

Definition home_page : M PageVar :=
  st StMarkdown home_header ;;
  st StSubheader "Project Overview" ;;
  st StWrite home_overview ;;
  st StMarkdown home_css ;;
  st StSubheader "Key Features" ;;
  st StMarkdown home_features ;;
  st StSubheader "Benefits of Using This App" ;;
  st StMarkdown home_benefits ;;
  ret (PageName "Home").

(** *** Dashboard (lines 347-495) *)

(** The rows appended to the chart's data, item by item. *)
Definition chart_rows (schedule : list Db.MedicineScheduleEntry)
    : list (string * string * string) :=
  flat_map (fun item =>
      ((if Db.morning item then [(Db.medicine_name item, "Morning", Db.dosage item)] else [])
       ++ (if Db.afternoon item then [(Db.medicine_name item, "Afternoon", Db.dosage item)] else [])
       ++ (if Db.night item then [(Db.medicine_name item, "Night", Db.dosage item)] else []))%list)
    schedule.

Definition dashboard_page : M PageVar :=
  logged_in <- session_get "logged_in" ;;
  if negb (truthy logged_in) then
    st StWarning "You need to log in to access the Home page." ;;
    ret (PageName "Login")
  else
    st StMarkdown dashboard_header ;;
    st StSubheader "Quick Overview" ;;
    st StMarkdown dashboard_css ;;
    user <- session_get "user" ;;
    schedule <- get_medicine_schedule user ;;
    let total_medicines := length schedule in
    user <- session_get "user" ;;
    reminders <- get_reminders user ;;
    let active_reminders := length reminders in
    st StColumns "2" ;;
    st StMarkdown (metric_value total_medicines "https://img.icons8.com/ios-filled/50/FFEB3B/pill.png") ;;
    st StMarkdown "<div class='metric-label'>Total Medicines</div>" ;;
    st StMarkdown "</div>" ;;
    st StMarkdown (metric_value active_reminders "https://img.icons8.com/ios-filled/50/FF5722/alarm.png") ;;
    st StMarkdown "<div class='metric-label'>Active Reminders</div>" ;;
    st StMarkdown "</div>" ;;
    st StSubheader "Medication Schedule Overview" ;;
    user <- session_get "user" ;;
    schedule <- get_medicine_schedule user ;;
    (if nonempty schedule
     then emit (EChart (chart_rows schedule))
     else st StInfo no_schedule_yet) ;;
    st StWrite "**Explore your reminders and medication schedule to stay on top of your health!**" ;;
    (if negb (nonempty schedule) then st StInfo no_schedule_yet
     else
       st StSubheader "Your Medication Schedule" ;;
       st StWrite "Here's your current medication schedule:" ;;
       for_each schedule (fun item =>
         (* no entry carries a 'frequency' key *)
         let dosage_info := Db.dosage item ++ " units" in
         st StWrite ("- **" ++ Db.medicine_name item ++ "**: " ++ dosage_info)) ;;
       st StSubheader "Missed Reminders" ;;
       st StWrite "This feature is yet to be implemented." ;;
       st StSubheader "Emergency Contact Information" ;;
       st StWrite "This feature is yet to be implemented.") ;;
    ret (PageName "Dashboard").

(** *** Login (lines 497-512) *)

Definition login_page : M PageVar :=
  st StHeader "User Login" ;;
  st StTextInput "Username" ;;
  let login_username := in_login_username inp in
  st StTextInput "Password" ;;
  let login_password := in_login_password inp in
  st StButton "Login" ;;
  if in_login_button inp then
    user <- login_user login_username login_password ;;
    match user with
    | Some row =>
        session_set "logged_in" (VBool true) ;;
        session_set "user" (VStr (Db.username row)) ;;
        st StSuccess ("Welcome " ++ login_username ++ "!") ;;
        ret (PageName "Home")
    | None =>
        st StError "Invalid username or password" ;;
        ret (PageName "Login")
    end
  else ret (PageName "Login").

(** *** Register (lines 514-526) *)

Definition register_page : M PageVar :=
  st StHeader "User Registration" ;;
  st StTextInput "Enter a username" ;;
  let username := in_username inp in
  st StTextInput "Enter a password" ;;
  let password := in_password inp in
  st StTextInput "Confirm password" ;;
  let confirm_password := in_confirm_password inp in
  st StButton "Register" ;;
  (if in_register_button inp then
     if negb (String.eqb password confirm_password) then
       st StError "Passwords do not match!"
     else
       ok <- register_user username password ;;
       if ok then st StSuccess ("User " ++ username ++ " registered successfully!")
       else st StError "Username already exists!"
   else ret tt) ;;
  ret (PageName "Register").

(** *** Schedule & Reminders (lines 528-657) *)

(** [next(g)] on a generator whose remaining items are [items]. *)
Definition next {A} (items : list A) : M A :=
  match items with
  | [] => raise (Exc StopIteration "")
  | x :: _ => ret x
  end.

(** [item['medicine_name'] == reminder_medicine_name] *)
Definition name_is (selected : option string) (item : Db.MedicineScheduleEntry) : bool :=
  match selected with
  | Some n => String.eqb (Db.medicine_name item) n
  | None => false
  end.

(** The body of [for item in schedule] (lines 563-602). *)
Definition schedule_item (item : Db.MedicineScheduleEntry) : M unit :=
  let name := Db.medicine_name item in
  let form := in_edit_form inp name in
  st StExpander ("Medicine: " ++ name) ;;
  st StWrite ("Morning: " ++ yes_no (Db.morning item)) ;;
  st StWrite ("Afternoon: " ++ yes_no (Db.afternoon item)) ;;
  st StWrite ("Night: " ++ yes_no (Db.night item)) ;;
  st StWrite ("Dosage: " ++ Db.dosage item) ;;
  st_form ("edit_form_" ++ name) ;;
  st StTextInput "Edit Medicine Name" ;;
  st StCheckbox "Edit Morning Dose" ;;
  st StCheckbox "Edit Afternoon Dose" ;;
  st StCheckbox "Edit Night Dose" ;;
  st StTextInput "Edit Dosage" ;;
  st StFormSubmitButton "Update" ;;
  (if ef_update_submitted form then
     let updated_schedule :=
       Db.mkEntry (ef_medicine_name form) (ef_morning form) (ef_afternoon form)
                  (ef_night form) (ef_dosage form) in
     user <- session_get "user" ;;
     update_medicine_schedule user name updated_schedule ;;
     st StSuccess ("Medicine '" ++ name ++ "' updated successfully!")
   else ret tt) ;;
  st_form ("delete_form_" ++ name) ;;
  st StFormSubmitButton "Delete" ;;
  (if ef_delete_submitted form then
     user <- session_get "user" ;;
     delete_medicine_schedule user name ;;
     st StSuccess ("Medicine '" ++ name ++ "' deleted successfully!")
   else ret tt).

(** The body of [for reminder in reminders] (lines 625-655). *)
Definition reminder_item (reminder : Db.ReminderRow) : M unit :=
  let id := nat_to_string (Db.reminder_id reminder) in
  let name := Db.reminder_medicine reminder in
  let form := in_reminder_edit inp (Db.reminder_id reminder) in
  reminder_time <- lift (strptime_H_M (Db.reminder_time reminder)) ;;
  let dosage := Db.reminder_dosage reminder in
  st StExpander ("Reminder: " ++ name ++ " at " ++ Db.reminder_time reminder
                 ++ " (Dosage: " ++ dosage ++ ")") ;;
  st_form ("edit_reminder_form_" ++ id) ;;
  st StTimeInput "Edit Reminder Time" ;;
  let edit_reminder_time := re_time form in
  st StTextInput "Edit Dosage" ;;
  let edit_dosage := re_dosage form in
  st StFormSubmitButton "Update" ;;
  (if re_update_submitted form then
     user <- session_get "user" ;;
     update_reminder user name (strftime_H_M edit_reminder_time) edit_dosage ;;
     st StSuccess ("Reminder for '" ++ name ++ "' updated successfully!")
   else ret tt) ;;
  st_form ("delete_reminder_form_" ++ id) ;;
  st StFormSubmitButton "Delete" ;;
  (if re_delete_submitted form then
     user <- session_get "user" ;;
     delete_reminder user name ;;
     st StSuccess ("Reminder for '" ++ name ++ "' deleted successfully!")
   else ret tt).

Definition schedule_page : M PageVar :=
  logged_in <- session_get "logged_in" ;;
  if negb (truthy logged_in) then
    st StWarning "You need to log in to access this page." ;;
    ret (PageName "Login")
  else
    st StHeader "Manage Medication Schedule and Reminders" ;;
    st StSubheader "Add Medication Schedule" ;;
    st_form "medicine_form" ;;
    st StTextInput "Enter the medicine name" ;;
    let medicine_name := mf_medicine_name (in_medicine_form inp) in
    st StCheckbox "Morning" ;;
    let morning_dose := mf_morning (in_medicine_form inp) in
    st StCheckbox "Afternoon" ;;
    let afternoon_dose := mf_afternoon (in_medicine_form inp) in
    st StCheckbox "Night" ;;
    let night_dose := mf_night (in_medicine_form inp) in
    st StTextInput "Enter dosage (e.g. 1 tablet)" ;;
    let dosage := mf_dosage (in_medicine_form inp) in
    st StFormSubmitButton "Add Medicine" ;;
    let submitted := mf_submitted (in_medicine_form inp) in
    (if submitted then
       if str_truthy medicine_name && str_truthy dosage then
         let medicine_schedule :=
           Db.mkEntry medicine_name morning_dose afternoon_dose night_dose dosage in
         user <- session_get "user" ;;
         store_medicine_schedule user medicine_schedule ;;
         st StSuccess ("Medicine '" ++ medicine_name ++ "' schedule added successfully!")
       else st StError "Please enter a valid medicine name and dosage."
     else ret tt) ;;
    st StSubheader "Your Medication Schedule" ;;
    user <- session_get "user" ;;
    schedule <- get_medicine_schedule user ;;
    (if nonempty schedule then for_each schedule schedule_item else ret tt) ;;
    st StSubheader "Set Reminder for Medicines" ;;
    st_form "reminder_form" ;;
    st StSelectbox "Select medicine" ;;
    let reminder_medicine_name :=
      selectbox (map Db.medicine_name schedule) (rf_choice (in_reminder_form inp)) in
    _ <- datetime_now ;;
    st StTimeInput "Reminder Time" ;;
    let reminder_time := rf_time (in_reminder_form inp) in
    dosage <- next (map Db.dosage (List.filter (name_is reminder_medicine_name) schedule)) ;;
    st StFormSubmitButton "Set Reminder" ;;
    let reminder_submitted := rf_submitted (in_reminder_form inp) in
    (if reminder_submitted then
       user <- session_get "user" ;;
       store_reminder user (selected_name reminder_medicine_name)
                      (strftime_H_M reminder_time) dosage ;;
       st StSuccess ("Reminder for '" ++ selected_name reminder_medicine_name
                     ++ "' set for " ++ strftime_H_M reminder_time)
     else ret tt) ;;
    st StSubheader "Your Reminders" ;;
    user <- session_get "user" ;;
    reminders <- get_reminders user ;;
    (if nonempty reminders then for_each reminders reminder_item
     else st StWrite "No reminders set. Add reminders above.") ;;
    ret (PageName "Schedule & Reminders").

(** *** Upload (lines 659-716) *)

(** [for page in pdf_reader.pages: text += page.extract_text()], carrying
    the text so far and the binding of [page]. *)
Fixpoint extract_pages (pages : list PdfPage) (text : string) (page : PageVar)
    : M (string * PageVar) :=
  match pages with
  | [] => ret (text, page)
  | p :: rest =>
      s <- lift (extract_text p) ;;
      extract_pages rest (text ++ s) (PageOfPdf p)
  end.

(** [while True:] of the automatic check (lines 709-716); [fuel] bounds
    the iterations a run is followed for. *)
Fixpoint auto_check_loop (fuel : nat) : M unit :=
  match fuel with
  | 0 => running
  | S fuel' =>
      vectorstore <- session_attr "vectorstore" ;;
      reminder <- check_medicine_time vectorstore ;;
      st StWrite reminder ;;
      busy <- observe (env_is_busy env) EIsBusy ;;
      (if negb busy then emit (ESay reminder) ;; emit ERunAndWait else ret tt) ;;
      emit (ESleep 60) ;;
      auto_check_loop fuel'
  end.

(** The one-shot check under the button (lines 692-703). *)
Definition check_button : M unit :=
  st StSpinner "Checking schedule..." ;;
  try_except
    (vectorstore <- session_attr "vectorstore" ;;
     reminder <- check_medicine_time vectorstore ;;
     st StWrite reminder ;;
     if negb (String.eqb reminder no_medicines_now) then
       busy <- observe (env_is_busy env) EIsBusy ;;
       if negb busy then emit (ESay reminder) ;; emit ERunAndWait else ret tt
     else ret tt)
    (fun e => st StError ("Error: " ++ exc_msg e)).

(** Ingestion of an uploaded PDF (lines 671-684).  [env_split_text] is
    the recursive character splitter with its chunk size and overlap;
    [env_from_texts] stands for the embedding model and the building of
    the index. *)
Definition ingest (pdf : UploadedFile) (page : PageVar) : M PageVar :=
  pages <- external (EPdfReader pdf) (fun h => env_pdf_reader env h pdf) ;;
  r <- extract_pages pages "" page ;;
  let (text, page) := r : string * PageVar in
  let texts := env_split_text env 1000 200 text in
  vs <- external (EFromTexts texts) (fun h => env_from_texts env h texts) ;;
  session_set "vectorstore" (VIndex vs) ;;
  st StSuccess "PDF uploaded and processed successfully!" ;;
  ret page.

Definition upload_page (fuel : nat) : M PageVar :=
  logged_in <- session_get "logged_in" ;;
  if negb (truthy logged_in) then
    st StWarning "You need to log in to access this page." ;;
    ret (PageName "Login")
  else
    st StHeader "Upload Prescription (Experimental)" ;;
    has_index <- session_has "vectorstore" ;;
    (if negb has_index then session_set "vectorstore" VNone else ret tt) ;;
    st StFileUploader "Upload prescription PDF" ;;
    page <- match in_pdf inp with
            | Some pdf => ingest pdf (PageName "Upload")
            | None => ret (PageName "Upload")
            end ;;
    vectorstore <- session_attr "vectorstore" ;;
    (if truthy vectorstore then
       now <- datetime_now ;;
       st StSubheader ("Current Time: " ++ strftime_I_M_p now) ;;
       st StButton "Check Medicine Schedule" ;;
       (if in_check_button inp then check_button else ret tt) ;;
       st StCheckbox "Enable automatic checking (every minute)" ;;
       (if in_auto_check inp then auto_check_loop fuel else ret tt)
     else ret tt) ;;
    ret page.

(** *** Voice Recognition (lines 718-758) *)

Definition voice_page : M PageVar :=
  logged_in <- session_get "logged_in" ;;
  if negb (truthy logged_in) then
    st StWarning "You need to log in to access this page." ;;
    ret (PageName "Login")
  else
    st StHeader "Voice Recognition (Experimental)" ;;
    st StButton "Start Recording" ;;
    (if in_start_recording inp then
       external EMicrophone (env_microphone env) ;;
       st StWrite "Adjusting for ambient noise..." ;;
       emit EAdjustForAmbientNoise ;;
       st StWrite "Say something!" ;;
       audio <- external (EListen 3) (env_listen env) ;;
       try_except
         (st StWrite "Recognizing speech..." ;;
          text <- external (ERecognizeGoogle audio)
                           (fun h => env_recognize_google env h audio) ;;
          st StWrite ("You said: " ++ text) ;;
          emit (EFileWrite "recognized_speech.txt" text) ;;
          st StSuccess "Recognized text has been saved to 'recognized_speech.txt'." ;;
          if contains "medicine" (lower text) then
            st StWrite "You mentioned a medicine. Would you like to search or set a reminder?" ;;
            st StButton "Set Reminder for Mentioned Medicine" ;;
            if in_set_reminder_button inp
            then st StWrite ("Setting a reminder for " ++ text ++ "... (Demo)")
            else ret tt
          else ret tt)
         (fun e =>
            match exc_class e with
            | UnknownValueError =>
                st StError "Google Speech Recognition could not understand the audio."
            | RequestError =>
                st StError ("Could not request results from Google Speech Recognition; "
                            ++ exc_msg e)
            | _ => raise e
            end)
     else ret tt) ;;
    ret (PageName "Voice Recognition").

(** *** The whole module, top to bottom *)

(** The [if page == ... elif ...] chain of lines 281-758, in its order. *)
Definition dispatch (fuel : nat) (page : string) : M PageVar :=
  if String.eqb page "Home" then home_page
  else if String.eqb page "Dashboard" then dashboard_page
  else if String.eqb page "Login" then login_page
  else if String.eqb page "Register" then register_page
  else if String.eqb page "Schedule & Reminders" then schedule_page
  else if String.eqb page "Upload" then upload_page fuel
  else if String.eqb page "Voice Recognition" then voice_page
  else ret (PageName page).

(** One run of the script; the result is the final binding of [page]. *)
Definition main (fuel : nat) : M PageVar :=
  startup ;;
  st StMarkdown app_css ;;
  st StOptionMenu "Main Menu" ;;
  let page := menu_label (in_menu inp) in
  dispatch fuel page.

End Script.

(** ** Notions used to state the properties *)

(** The credential is in [os.environ] once [load_dotenv()] has run. *)
Definition has_api_key (env : Env) (w : World) : bool :=
  bool_decide (is_Some (env_load_dotenv env (environ w) !! "GOOGLE_API_KEY")).

(** The session's logged-in flag; a session that has no flag yet is given
    [False] by lines 100-102. *)
Definition logged_in (w : World) : bool :=
  match session w !! "logged_in" with
  | Some v => truthy v
  | None => false
  end.

(** The session after lines 100-102. *)
Definition session_defaults (s : gmap string SVal) : gmap string SVal :=
  if bool_decide (is_Some (s !! "logged_in")) then s
  else <["user" := VNone]> (<["logged_in" := VBool false]> s).

(** The world in which the page chain starts when initialisation went
    through. *)
Definition started (env : Env) (w : World) : World :=
  mkWorld (env_load_dotenv env (environ w)) (session_defaults (session w)) (db w)
          (EUi StOptionMenu "Main Menu" :: EUi StMarkdown app_css
           :: EDb Db.InitAuthDb :: EEngineInit :: log w).

(** The same world with [evs] (newest first) put on its log. *)
Definition logged (evs : list Event) (w : World) : World :=
  mkWorld (environ w) (session w) (db w) (evs ++ log w).

(** The pages behind the authentication gate, and what the gate shows. *)
Definition gated_page (o : MenuOption) : bool :=
  match o with
  | MenuDashboard | MenuSchedule | MenuUpload | MenuVoice => true
  | _ => false
  end.

Definition gate_warning (o : MenuOption) : string :=
  match o with
  | MenuDashboard => "You need to log in to access the Home page."
  | _ => "You need to log in to access this page."
  end.

(** What the registration page renders before it looks at the button. *)
Definition register_form : list Event :=
  [EUi StButton "Register"; EUi StTextInput "Confirm password";
   EUi StTextInput "Enter a password"; EUi StTextInput "Enter a username";
   EUi StHeader "User Registration"].

(** What the login page renders before it looks at the button. *)
Definition login_form : list Event :=
  [EUi StButton "Login"; EUi StTextInput "Password";
   EUi StTextInput "Username"; EUi StHeader "User Login"].

(** The query the specification attributes to the evaluator. *)
Definition generic_query : string := "what medicine context is relevant".

(** The queries sent to a retriever, in the order they were sent. *)
Definition retriever_queries (h : list Event) : list string :=
  flat_map (fun e => match e with ERetrieve _ q => [q] | _ => [] end) h.

(** The text the evaluator makes of the clock, and the history at the
    moment its retriever is asked. *)
Definition clock_text (env : Env) (w : World) : string :=
  strftime_I_M_p (env_now env (log w)).

Definition evaluator_prefix (env : Env) (w : World) : list Event :=
  ELlmInit "gemini-1.5-pro" 0 2048 :: ENow (env_now env (log w)) :: log w.

(** The evaluator's collaborators never fail. *)
Definition evaluator_total (env : Env) : Prop :=
  (forall h, env_llm_init env h = inr tt)
  /\ (forall h vs q, exists docs, env_retrieve env h vs q = inr docs)
  /\ (forall h p, exists reply, env_llm env h p = inr reply).

(** What one pass of the automatic check puts on the log (newest first):
    the evaluation, the reply shown, the busy check and the utterance it
    allows, then the sleep. *)
Definition iteration_events (vs : Index) (t : Time) (docs : list Document)
    (reply : string) (busy : bool) : list Event :=
  (ESleep 60
   :: (if busy then [] else [ERunAndWait; ESay reply])
   ++ [EIsBusy busy; EUi StWrite reply;
       ELlm (prompt_text (mkPromptInput (join (nl ++ nl) (map page_content docs))
                                         (strftime_I_M_p t)));
       ERetrieve vs (strftime_I_M_p t);
       ELlmInit "gemini-1.5-pro" 0 2048; ENow t])%list.

(** [iterations vs n l l']: the log [l'] is [l] with [n] passes on top. *)
Inductive iterations (vs : Index) : nat -> list Event -> list Event -> Prop :=
| iterations_none l : iterations vs 0 l l
| iterations_next n l l' t docs reply busy :
    iterations vs n (iteration_events vs t docs reply busy ++ l)%list l' ->
    iterations vs (S n) l l'.

(** Every [say] in the log (newest first) comes right after a busy check
    that found the engine free. *)
Fixpoint say_gated (l : list Event) : bool :=
  match l with
  | [] => true
  | ESay _ :: rest =>
      match rest with
      | EIsBusy false :: _ => say_gated rest
      | _ => false
      end
  | _ :: rest => say_gated rest
  end.

(** A computation keeps the gate: run from a log in which every [say] is
    gated, it leaves such a log, however it ends. *)
Definition gated {A} (m : M A) : Prop :=
  forall w, say_gated (log w) = true -> say_gated (log (snd (m w))) = true.

(** The events other than [say]. *)
Definition quiet (e : Event) : bool :=
  match e with ESay _ => false | _ => true end.

(** The error messages a run has put on the screen, oldest first. *)
Definition shown_errors (w : World) : list string :=
  flat_map (fun e => match e with EUi StError msg => [msg] | _ => [] end) (history w).

(** The text of a PDF as the upload loop accumulates it. *)
Fixpoint concat_pages (pages : list PdfPage) (text : string) : exn + string :=
  match pages with
  | [] => inr text
  | p :: rest =>
      match extract_text p with
      | inl e => inl e
      | inr s => concat_pages rest (text ++ s)
      end
  end.

(** The binding of [page] after the upload loop. *)
Definition last_page (pages : list PdfPage) (page : PageVar) : PageVar :=
  fold_left (fun _ p => PageOfPdf p) pages page.

(** The session after line 666-667. *)
Definition vectorstore_default (s : gmap string SVal) : gmap string SVal :=
  if bool_decide (is_Some (s !! "vectorstore")) then s
  else <["vectorstore" := VNone]> s.

(** What the upload page renders before it looks at the uploaded file. *)
Definition upload_form : list Event :=
  [EUi StFileUploader "Upload prescription PDF";
   EUi StHeader "Upload Prescription (Experimental)"].

(** What the schedule page has rendered of the reminder form when it
    looks up the dosage; [t] is the clock read for the time input. *)
Definition reminder_form_opening (t : Time) : list Event :=
  [EUi StTimeInput "Reminder Time"; ENow t; EUi StSelectbox "Select medicine";
   EUi StForm "reminder_form"; EUi StSubheader "Set Reminder for Medicines"].

(** ** Concrete runs used as instances *)

Definition sample_index : Index :=
  mkIndex ["Aspirin 1 tablet at 09:00"; "Metformin after dinner"].

(** A splitter and an index builder with the behaviour of the libraries
    on the inputs used below: no chunk for an empty text, and no index
    from no chunk. *)
Definition sample_split (size overlap : nat) (text : string) : list string :=
  if String.eqb text "" then [] else [text].

Definition sample_from_texts (texts : list string) : exn + Index :=
  match texts with
  | [] => inl (Exc IndexError "list index out of range")
  | _ => inr (mkIndex texts)
  end.

(** An environment around a given language model: the clock stands at
    09:41, the engine is free, an uploaded file parses to one page with
    no text. *)
Definition env_with_llm (llm : list Event -> string -> exn + string) : Env :=
  mkEnv (fun e => e)
        (fun _ => mkTime 9 41)
        (fun _ => inr tt)
        (fun _ vs _ => inr (map mkDocument (index_chunks vs)))
        llm
        (fun _ => false)
        (fun _ _ => inr [mkPage (inr "")])
        sample_split
        (fun _ => sample_from_texts)
        (fun _ => inr tt)
        (fun _ => inr (mkAudio []))
        (fun _ _ => inr "refill my medicine").

Definition sample_env : Env :=
  env_with_llm (fun _ _ => inr "Time to take Aspirin: 1 tablet.").

(** The hosted model is out of reach. *)
Definition outage_env (e : exn) : Env := env_with_llm (fun _ _ => inl e).

Definition quota_error : exn := Exc RuntimeError "429 quota exceeded".

Definition no_edit : EditForm := mkEditForm "" false false false "" false false.
Definition no_reminder_edit : ReminderEdit := mkReminderEdit (mkTime 0 0) "" false false.

(** Widget values of a visit to page [o] with nothing pressed, and the
    same with the login or registration fields filled in and submitted. *)
Definition visit (o : MenuOption) : Inputs :=
  mkInputs o "" "" false "" "" "" false
           (mkMedicineForm "" false false false "" false) (fun _ => no_edit)
           (mkReminderForm 0 (mkTime 8 0) false) (fun _ => no_reminder_edit)
           None false false false false.

Definition login_attempt (u p : string) : Inputs :=
  mkInputs MenuLogin u p true "" "" "" false
           (mkMedicineForm "" false false false "" false) (fun _ => no_edit)
           (mkReminderForm 0 (mkTime 8 0) false) (fun _ => no_reminder_edit)
           None false false false false.

Definition registration (u p c : string) : Inputs :=
  mkInputs MenuRegister "" "" false u p c true
           (mkMedicineForm "" false false false "" false) (fun _ => no_edit)
           (mkReminderForm 0 (mkTime 8 0) false) (fun _ => no_reminder_edit)
           None false false false false.

(** The schedule page with the add form submitted for a morning dose of
    the given medicine. *)
Definition medicine_submission (name dosage : string) : Inputs :=
  mkInputs MenuSchedule "" "" false "" "" "" false
           (mkMedicineForm name true false false dosage true) (fun _ => no_edit)
           (mkReminderForm 0 (mkTime 8 0) false) (fun _ => no_reminder_edit)
           None false false false false.

(** The upload page with a file, the check button and the automatic
    check as given. *)
Definition upload_visit (pdf : option UploadedFile) (check auto : bool) : Inputs :=
  mkInputs MenuUpload "" "" false "" "" "" false
           (mkMedicineForm "" false false false "" false) (fun _ => no_edit)
           (mkReminderForm 0 (mkTime 8 0) false) (fun _ => no_reminder_edit)
           pdf check auto false false.

(** A scanned prescription: a valid file whose page carries no text. *)
Definition sample_pdf : UploadedFile := mkUpload "scan.pdf" "%PDF-1.4".

Definition api_key : gmap string string := {[ "GOOGLE_API_KEY" := "key" ]}.

(** A process started without the credential, the [.env] file adding
    nothing. *)
Definition keyless_world : World := mkWorld ∅ ∅ Db.empty [].

(** A first visit: no session yet, empty stores. *)
Definition fresh_world : World := mkWorld api_key ∅ Db.empty [].

(** The stores once alice has registered with password pw1. *)
Definition alice_db : Db.t := snd (Db.register_user "alice" "pw1" Db.empty).

Definition visitor_world : World := mkWorld api_key ∅ alice_db [].

(** alice logged in, with and without an index in her session. *)
Definition alice_session : gmap string SVal :=
  <["user" := VStr "alice"]> (<["logged_in" := VBool true]> ∅).

Definition alice_world : World := mkWorld api_key alice_session alice_db [].

Definition indexed_world : World :=
  mkWorld api_key (<["vectorstore" := VIndex sample_index]> alice_session) alice_db [].

(** * Properties *)

(** ** The helpers on small inputs *)

Example strftime_morning : strftime_I_M_p (mkTime 9 41) = "09:41 AM".
Proof. reflexivity. Qed.

Example strftime_midnight : strftime_I_M_p (mkTime 0 5) = "12:05 AM".
Proof. reflexivity. Qed.

Example strftime_evening : strftime_I_M_p (mkTime 23 59) = "11:59 PM".
Proof. reflexivity. Qed.

Example strptime_roundtrip : strptime_H_M (strftime_H_M (mkTime 8 0)) = inr (mkTime 8 0).
Proof. reflexivity. Qed.

Example strptime_rejects_hour_24 :
  strptime_H_M "24:00" = inl (Exc ValueError "time data does not match format '%H:%M'").
Proof. reflexivity. Qed.

Example format_docs_two :
  format_docs [mkDocument "a"; mkDocument "b"] = "a" ++ nl ++ nl ++ "b".
Proof. reflexivity. Qed.

Example selectbox_no_option : selectbox [] 0 = None.
Proof. reflexivity. Qed.

Example register_twice :
  fst (Db.register_user "alice" "pw2" alice_db) = false
  /\ Db.login_user "alice" "pw1" alice_db = Some (Db.mkUser 1 "alice" "pw1").
Proof. split; vm_compute; reflexivity. Qed.

(** ** Module initialisation *)

Lemma session_defaults_flag (s : gmap string SVal) :
  session_defaults s !! "logged_in"
  = Some (match s !! "logged_in" with Some v => v | None => VBool false end).
Proof.
  unfold session_defaults.
  destruct (s !! "logged_in") as [v|] eqn:E.
  - rewrite bool_decide_eq_true_2 by eauto. exact E.
  - rewrite bool_decide_eq_false_2 by (intros [? ?]; discriminate).
    rewrite lookup_insert_ne by discriminate.
    apply lookup_insert_eq.
Qed.

Lemma started_flag env w :
  exists v, session (started env w) !! "logged_in" = Some v /\ truthy v = logged_in w.
Proof.
  unfold started, logged_in; cbn. rewrite session_defaults_flag.
  destruct (session w !! "logged_in"); eexists; split; reflexivity.
Qed.

(** With the credential present, a run is the page chain started in
    [started env w]. *)
Lemma main_started env inp fuel w :
  has_api_key env w = true ->
  main env inp fuel w = dispatch env inp fuel (menu_label (in_menu inp)) (started env w).
Proof.
  unfold has_api_key; intros H.
  unfold main, startup, bind, load_dotenv, environ_has, session_has; cbn.
  rewrite H; cbn.
  unfold started, session_defaults.
  destruct (bool_decide (is_Some (session w !! "logged_in"))); reflexivity.
Qed.

(** C9: when GOOGLE_API_KEY is not in [os.environ] at the startup check of
    lines 25-26, the run ends in the TypeError of calling [os.environ]
    before anything is initialised or rendered: the log, the session and
    the stores are as they were. *)
Theorem missing_api_key_raises_type_error env inp fuel w :
  env_load_dotenv env (environ w) !! "GOOGLE_API_KEY" = None ->
  main env inp fuel w
  = (Raised (Exc TypeError not_callable),
     mkWorld (env_load_dotenv env (environ w)) (session w) (db w) (log w)).
Proof.
  intros H.
  unfold main, startup, bind, load_dotenv, environ_has; cbn.
  rewrite H; reflexivity.
Qed.

Lemma missing_api_key_raises_type_error_instance :
  main sample_env (visit MenuHome) 0 keyless_world
  = (Raised (Exc TypeError not_callable), keyless_world).
Proof.
  exact (missing_api_key_raises_type_error sample_env (visit MenuHome) 0 keyless_world
           eq_refl).
Defined.

(** ** The authentication gate *)

(** C3 (the gate as the code has it): in a run that gets past
    initialisation, on a gated page with the logged-in flag unset, the
    page shows the gate's warning and nothing else; it touches neither
    store nor evaluator, binds [page] to the Login label, and the run ends
    without the Login form having been rendered. *)
Theorem gate_warns_without_rendering_login env inp fuel w :
  has_api_key env w = true ->
  gated_page (in_menu inp) = true ->
  logged_in w = false ->
  main env inp fuel w
  = (Done (PageName "Login"),
     logged [EUi StWarning (gate_warning (in_menu inp))] (started env w)).
Proof.
  intros Hkey Hpage Hflag.
  rewrite main_started by assumption.
  destruct (started_flag env w) as (v & Hv & Ht).
  rewrite Hflag in Ht.
  destruct (in_menu inp); try discriminate; cbn;
    unfold dashboard_page, schedule_page, upload_page, voice_page,
      bind, session_get;
    rewrite Hv, Ht; reflexivity.
Qed.

Lemma gate_warns_without_rendering_login_instance :
  main sample_env (visit MenuDashboard) 0 fresh_world
  = (Done (PageName "Login"),
     logged [EUi StWarning "You need to log in to access the Home page."]
            (started sample_env fresh_world)).
Proof.
  exact (gate_warns_without_rendering_login sample_env (visit MenuDashboard) 0
           fresh_world eq_refl eq_refl eq_refl).
Defined.

(** ** Registration and login *)

(** A registered pair is what the credential table holds afterwards. *)
Lemma register_user_stores u p d d' :
  Db.register_user u p d = (true, d') ->
  exists i, Db.users d' !! u = Some (i, p).
Proof.
  unfold Db.register_user.
  destruct (Db.users d !! u); intros H; inversion H; subst; cbn.
  eexists. apply lookup_insert_eq.
Qed.

(** C6: in a run that gets past initialisation, a registration whose
    password and confirmation differ shows the inline error and changes
    nothing: [register_user] is not called (the log gains the form and the
    error only) and the stores and the session are those the page started
    with. *)
Theorem password_mismatch_changes_nothing env inp fuel w :
  has_api_key env w = true ->
  in_menu inp = MenuRegister ->
  in_register_button inp = true ->
  in_password inp <> in_confirm_password inp ->
  main env inp fuel w
  = (Done (PageName "Register"),
     logged (EUi StError "Passwords do not match!" :: register_form) (started env w)).
Proof.
  intros Hkey Hpage Hbtn Hne.
  rewrite main_started by assumption.
  rewrite Hpage; cbn.
  unfold register_page, bind; cbn.
  rewrite Hbtn.
  apply String.eqb_neq in Hne. rewrite Hne. reflexivity.
Qed.

Lemma password_mismatch_changes_nothing_instance :
  main sample_env (registration "bob" "pw1" "pw2") 0 visitor_world
  = (Done (PageName "Register"),
     logged (EUi StError "Passwords do not match!" :: register_form)
            (started sample_env visitor_world)).
Proof.
  apply (password_mismatch_changes_nothing sample_env (registration "bob" "pw1" "pw2")
           0 visitor_world); [reflexivity | reflexivity | reflexivity | discriminate].
Defined.

(** C7: for a user name the credential table holds (see
    [register_user_stores]) and any other password than the stored one,
    [login_user] returns nothing, and the login page shows the error and
    leaves the session as it was: the flag is not set and no user is
    assigned. *)
Theorem wrong_password_never_logs_in env inp fuel w (i : nat) (p : string) :
  has_api_key env w = true ->
  in_menu inp = MenuLogin ->
  in_login_button inp = true ->
  Db.users (db w) !! in_login_username inp = Some (i, p) ->
  in_login_password inp <> p ->
  Db.login_user (in_login_username inp) (in_login_password inp) (db w) = None
  /\ main env inp fuel w
     = (Done (PageName "Login"),
        logged (EUi StError "Invalid username or password"
                :: EDb (Db.LoginUser (in_login_username inp) (in_login_password inp))
                :: login_form)
               (started env w)).
Proof.
  intros Hkey Hpage Hbtn Huser Hne.
  assert (Hlogin : Db.login_user (in_login_username inp) (in_login_password inp) (db w) = None).
  { unfold Db.login_user. rewrite Huser.
    assert (p <> in_login_password inp) as Hne' by congruence.
    apply String.eqb_neq in Hne'. rewrite Hne'. reflexivity. }
  split; [exact Hlogin|].
  rewrite main_started by assumption.
  rewrite Hpage; cbn.
  unfold login_page, bind; cbn.
  rewrite Hbtn.
  unfold login_user, db_query, db_call; cbn.
  rewrite Hlogin. reflexivity.
Qed.

Lemma wrong_password_never_logs_in_instance :
  Db.login_user "alice" "pw2" alice_db = None
  /\ main sample_env (login_attempt "alice" "pw2") 0 visitor_world
     = (Done (PageName "Login"),
        logged (EUi StError "Invalid username or password"
                :: EDb (Db.LoginUser "alice" "pw2") :: login_form)
               (started sample_env visitor_world)).
Proof.
  apply (wrong_password_never_logs_in sample_env (login_attempt "alice" "pw2")
           0 visitor_world 1 "pw1");
    [reflexivity | reflexivity | reflexivity | reflexivity | discriminate].
Defined.

(** ** The reminder evaluator *)

(** The run of the evaluator on an index, as far as its collaborators let
    it go: the retriever is asked the clock text, and the prompt carries
    the retrieved texts joined by blank lines. *)
Lemma check_medicine_time_run env vs w :
  check_medicine_time env (VIndex vs) w
  = match env_llm_init env (evaluator_prefix env w) with
    | inl e => (Raised e, mkWorld (environ w) (session w) (db w) (evaluator_prefix env w))
    | inr _ =>
        let h := ERetrieve vs (clock_text env w) :: evaluator_prefix env w in
        match env_retrieve env h vs (clock_text env w) with
        | inl e => (Raised e, mkWorld (environ w) (session w) (db w) h)
        | inr docs =>
            let p := prompt_text (mkPromptInput (format_docs docs) (clock_text env w)) in
            match env_llm env (ELlm p :: h) p with
            | inl e => (Raised e, mkWorld (environ w) (session w) (db w) (ELlm p :: h))
            | inr reply => (Done reply, mkWorld (environ w) (session w) (db w) (ELlm p :: h))
            end
        end
    end.
Proof.
  unfold check_medicine_time, chat_model, datetime_now, observe, external, bind,
    evaluator_prefix, clock_text, logged; cbn.
  destruct (env_llm_init env _) as [e|[]]; cbn.
  - reflexivity.
  - unfold pipe, parallel, retriever, step, passthrough, prompt,
      str_output_parser, external, bind, ret; cbn.
    destruct (env_retrieve env _ vs _) as [e|docs]; cbn; [reflexivity|].
    destruct (env_llm env _ _) as [e|reply]; reflexivity.
Qed.

(** C1 (as the code has it): the evaluator asks the retriever for the
    matches of the formatted current time, the same text it substitutes
    for the time field, and the context field of the prompt is the
    retrieved chunks' text joined by blank lines. *)
Theorem evaluator_retrieves_by_clock_text env vs w docs :
  env_llm_init env (evaluator_prefix env w) = inr tt ->
  env_retrieve env (ERetrieve vs (clock_text env w) :: evaluator_prefix env w)
               vs (clock_text env w) = inr docs ->
  exists r,
    check_medicine_time env (VIndex vs) w
    = (r, logged [ELlm (prompt_text
                          (mkPromptInput (join (nl ++ nl) (map page_content docs))
                                         (clock_text env w)));
                  ERetrieve vs (clock_text env w)]
                 (mkWorld (environ w) (session w) (db w) (evaluator_prefix env w))).
Proof.
  intros Hinit Hdocs.
  rewrite check_medicine_time_run, Hinit; cbn zeta.
  rewrite Hdocs.
  unfold format_docs, logged; cbn.
  destruct (env_llm env _ _); eexists; reflexivity.
Qed.

Lemma evaluator_retrieves_by_clock_text_instance :
  exists r,
    check_medicine_time sample_env (VIndex sample_index) fresh_world
    = (r, logged [ELlm (prompt_text
                          (mkPromptInput
                             ("Aspirin 1 tablet at 09:00" ++ nl ++ nl ++ "Metformin after dinner")
                             "09:41 AM"));
                  ERetrieve sample_index "09:41 AM"]
                 (mkWorld api_key ∅ Db.empty
                          [ELlmInit "gemini-1.5-pro" 0 2048; ENow (mkTime 9 41)])).
Proof.
  exact (evaluator_retrieves_by_clock_text sample_env sample_index fresh_world
           (map mkDocument (index_chunks sample_index)) eq_refl eq_refl).
Defined.

(** C1 (as stated) fails: at 09:41 the one query the evaluator sends is
    the clock text, not the generic query. *)
Lemma evaluator_query_is_not_generic :
  retriever_queries
    (history (snd (check_medicine_time sample_env (VIndex sample_index) fresh_world)))
  = ["09:41 AM"]
  /\ retriever_queries
       (history (snd (check_medicine_time sample_env (VIndex sample_index) fresh_world)))
     <> [generic_query].
Proof.
  split; [vm_compute; reflexivity|].
  vm_compute. discriminate.
Qed.

(** ** The busy check before every utterance *)

Section Gate.

Variable env : Env.
Variable inp : Inputs.

Lemma say_gated_quiet e l : quiet e = true -> say_gated (e :: l) = say_gated l.
Proof. destruct e; cbn; congruence. Qed.

Lemma gated_ret {A} (a : A) : gated (ret a).
Proof. intros w H; exact H. Qed.

Lemma gated_raise {A} e : gated (@raise A e).
Proof. intros w H; exact H. Qed.

Lemma gated_running {A} : gated (@running A).
Proof. intros w H; exact H. Qed.

Lemma gated_bind {A B} (m : M A) (k : A -> M B) :
  gated m -> (forall a, gated (k a)) -> gated (bind m k).
Proof.
  intros Hm Hk w H. unfold bind.
  specialize (Hm w H).
  destruct (m w) as [[a|e|] w']; cbn in *; auto.
  apply Hk; assumption.
Qed.

Lemma gated_try_except {A} (m : M A) h :
  gated m -> (forall e, gated (h e)) -> gated (try_except m h).
Proof.
  intros Hm Hh w H. unfold try_except.
  specialize (Hm w H).
  destruct (m w) as [[a|e|] w']; cbn in *; auto.
  apply Hh; assumption.
Qed.

Lemma gated_emit e : quiet e = true -> gated (emit e).
Proof.
  intros Hq w H. unfold emit; cbn [snd log].
  rewrite say_gated_quiet; assumption.
Qed.

Lemma gated_st k text : gated (st k text).
Proof. apply gated_emit; reflexivity. Qed.

Lemma gated_st_form key : gated (st_form key).
Proof.
  intros w H. unfold st_form.
  destruct (existsb _ _); [exact H|].
  apply (gated_emit (EUi StForm key)); [reflexivity | exact H].
Qed.

Lemma gated_external {A} e (oracle : list Event -> exn + A) :
  quiet e = true -> gated (external e oracle).
Proof.
  intros Hq w H. unfold external.
  destruct (oracle _); cbn [snd log]; rewrite say_gated_quiet; assumption.
Qed.

Lemma gated_now : gated (datetime_now env).
Proof. intros w H; exact H. Qed.

Lemma gated_lift {A} (r : exn + A) : gated (lift r).
Proof. destruct r; intros w H; exact H. Qed.

Lemma gated_next {A} (l : list A) : gated (next l).
Proof. destruct l; intros w H; exact H. Qed.

Lemma gated_db_call {A} c (f : Db.t -> A * Db.t) : gated (db_call c f).
Proof. intros w H. unfold db_call. destruct (f (db w)); exact H. Qed.

Lemma gated_session_get key : gated (session_get key).
Proof. intros w H. unfold session_get. destruct (session w !! key); exact H. Qed.

Lemma gated_session_attr key : gated (session_attr key).
Proof. intros w H. unfold session_attr. destruct (session w !! key); exact H. Qed.

Lemma gated_session_has key : gated (session_has key).
Proof. intros w H; exact H. Qed.

Lemma gated_session_set key v : gated (session_set key v).
Proof. intros w H; exact H. Qed.

Lemma gated_for_each {A} (xs : list A) body :
  (forall x, gated (body x)) -> gated (for_each xs body).
Proof.
  intros Hb. induction xs as [|x xs IH]; cbn.
  - apply gated_ret.
  - apply gated_bind; [apply Hb | intros _; exact IH].
Qed.

(** The guarded utterance of lines 699-701 and 713-715, followed by [k]. *)
Lemma gated_speak_then {A} reminder (k : unit -> M A) :
  (forall u, gated (k u)) ->
  gated (bind (observe (env_is_busy env) EIsBusy)
              (fun busy =>
                 bind (if negb busy
                       then bind (emit (ESay reminder)) (fun _ => emit ERunAndWait)
                       else ret tt) k)).
Proof.
  intros Hk w H. unfold bind at 1. unfold observe; cbn.
  destruct (env_is_busy env (log w)); cbn.
  - apply Hk; exact H.
  - unfold bind, emit; cbn. apply Hk; cbn. exact H.
Qed.

Lemma gated_speak reminder :
  gated (bind (observe (env_is_busy env) EIsBusy)
              (fun busy =>
                 if negb busy
                 then bind (emit (ESay reminder)) (fun _ => emit ERunAndWait)
                 else ret tt)).
Proof.
  intros w H. unfold bind at 1. unfold observe; cbn.
  destruct (env_is_busy env (log w)); cbn; exact H.
Qed.

Ltac gate :=
  cbv zeta;
  repeat match goal with
    | |- gated (bind (observe (env_is_busy _) EIsBusy)
                     (fun busy => bind (if negb busy then _ else _) _)) =>
        apply gated_speak_then; intros ?
    | |- gated (bind (observe (env_is_busy _) EIsBusy) _) => apply gated_speak
    | |- gated (bind _ _) => apply gated_bind; [| intros ?]
    | |- gated (try_except _ _) => apply gated_try_except; [| intros ?]
    | |- gated (for_each _ _) => apply gated_for_each; intros ?
    | |- gated (ret _) => apply gated_ret
    | |- gated (raise _) => apply gated_raise
    | |- gated (st _ _) => apply gated_st
    | |- gated (st_form _) => apply gated_st_form
    | |- gated (datetime_now _) => apply gated_now
    | |- gated (lift _) => apply gated_lift
    | |- gated (next _) => apply gated_next
    | |- gated (db_call _ _) => apply gated_db_call
    | |- gated (session_get _) => apply gated_session_get
    | |- gated (session_attr _) => apply gated_session_attr
    | |- gated (session_has _) => apply gated_session_has
    | |- gated (session_set _ _) => apply gated_session_set
    | |- gated (emit _) => apply gated_emit; reflexivity
    | |- gated (external _ _) => apply gated_external; reflexivity
    | |- gated (if ?c then _ else _) => destruct c
    | |- gated (match ?x with _ => _ end) => destruct x
    end.

Lemma gated_check_medicine_time v : gated (check_medicine_time env v).
Proof.
  intros w H.
  assert (Hp : say_gated (evaluator_prefix env w) = true).
  { unfold evaluator_prefix. rewrite !say_gated_quiet by reflexivity. exact H. }
  destruct v as [| b | s | vs];
    try (unfold check_medicine_time, chat_model, datetime_now, observe, external,
           as_retriever, bind, raise;
         cbn [fst snd log];
         destruct (env_llm_init env _); cbn [snd log]; exact Hp).
  rewrite check_medicine_time_run.
  destruct (env_llm_init env _); [exact Hp|].
  cbv zeta.
  destruct (env_retrieve env _ vs _); cbn [snd log];
    [rewrite say_gated_quiet by reflexivity; exact Hp|].
  destruct (env_llm env _ _); cbn [snd log];
    rewrite !say_gated_quiet by reflexivity; exact Hp.
Qed.

Lemma gated_auto_check_loop fuel : gated (auto_check_loop env fuel).
Proof.
  induction fuel as [|fuel IH]; cbn [auto_check_loop].
  - apply gated_running.
  - apply gated_bind; [apply gated_session_attr | intros v].
    apply gated_bind; [apply gated_check_medicine_time | intros reminder].
    apply gated_bind; [apply gated_st | intros _].
    apply gated_speak_then; intros _.
    apply gated_bind; [apply gated_emit; reflexivity | intros _; exact IH].
Qed.

Lemma gated_check_button : gated (check_button env).
Proof.
  unfold check_button.
  apply gated_bind; [apply gated_st | intros _].
  apply gated_try_except; [| intros e; apply gated_st].
  apply gated_bind; [apply gated_session_attr | intros v].
  apply gated_bind; [apply gated_check_medicine_time | intros reminder].
  apply gated_bind; [apply gated_st | intros _].
  destruct (negb _); [apply gated_speak | apply gated_ret].
Qed.

Lemma gated_extract_pages pages text page : gated (extract_pages pages text page).
Proof.
  revert text page. induction pages as [|p pages IH]; intros text page; cbn.
  - apply gated_ret.
  - apply gated_bind; [apply gated_lift | intros s; apply IH].
Qed.

Lemma gated_upload_page fuel : gated (upload_page env inp fuel).
Proof.
  unfold upload_page, ingest.
  apply gated_bind; [apply gated_session_get | intros v].
  destruct (negb _); [gate|].
  apply gated_bind; [apply gated_st | intros _].
  apply gated_bind; [apply gated_session_has | intros b].
  apply gated_bind; [destruct (negb b); gate | intros _].
  apply gated_bind; [apply gated_st | intros _].
  apply gated_bind.
  { destruct (in_pdf inp); [|apply gated_ret].
    apply gated_bind; [apply gated_external; reflexivity | intros pages].
    apply gated_bind; [apply gated_extract_pages | intros [text page]].
    gate. }
  intros page.
  apply gated_bind; [apply gated_session_attr | intros vs].
  apply gated_bind; [| intros _; apply gated_ret].
  destruct (truthy vs); [|apply gated_ret].
  apply gated_bind; [apply gated_now | intros now].
  apply gated_bind; [apply gated_st | intros _].
  apply gated_bind; [apply gated_st | intros _].
  apply gated_bind; [destruct (in_check_button inp); [apply gated_check_button | apply gated_ret] | intros _].
  apply gated_bind; [apply gated_st | intros _].
  destruct (in_auto_check inp); [apply gated_auto_check_loop | apply gated_ret].
Qed.

Lemma gated_dispatch fuel page : gated (dispatch env inp fuel page).
Proof.
  unfold dispatch.
  repeat match goal with |- gated (if ?c then _ else _) => destruct c end.
  - unfold home_page; gate.
  - unfold dashboard_page, get_medicine_schedule, get_reminders, db_query; gate.
  - unfold login_page, login_user, db_query; gate.
  - unfold register_page, register_user; gate.
  - unfold schedule_page, schedule_item, reminder_item, get_medicine_schedule,
      get_reminders, store_medicine_schedule, update_medicine_schedule,
      delete_medicine_schedule, store_reminder, update_reminder, delete_reminder,
      db_query, db_update; gate.
  - apply gated_upload_page.
  - unfold voice_page; gate.
  - apply gated_ret.
Qed.

Lemma gated_main fuel : gated (main env inp fuel).
Proof.
  unfold main, startup, init_auth_db, db_update.
  apply gated_bind.
  { apply gated_bind; [intros w H; exact H | intros _].
    apply gated_bind; [intros w H; exact H | intros b].
    apply gated_bind.
    - destruct (negb b); [|apply gated_ret].
      apply gated_bind; [apply gated_raise | intros v w H; exact H].
    - intros _. gate. }
  intros _.
  apply gated_bind; [apply gated_st | intros _].
  apply gated_bind; [apply gated_st | intros _].
  apply gated_dispatch.
Qed.

End Gate.

(** C8: in every run of the script, whatever the page, the inputs and the
    collaborators' answers, and however far the automatic check is
    followed, each [engine.say] in the log comes right after an
    [engine.isBusy()] that answered False. *)
Theorem say_only_when_engine_free env inp fuel (e : gmap string string)
    (s : gmap string SVal) (d : Db.t) :
  say_gated (log (snd (main env inp fuel (mkWorld e s d [])))) = true.
Proof. apply gated_main. reflexivity. Qed.

(** ** Document ingestion *)

Lemma session_defaults_logged_in env w :
  logged_in w = true -> session (started env w) = session w.
Proof.
  unfold logged_in, started, session_defaults; cbn.
  destruct (session w !! "logged_in") eqn:E; [|discriminate].
  intros _. rewrite bool_decide_eq_true_2 by eauto. reflexivity.
Qed.

Lemma extract_pages_run pages text page w :
  extract_pages pages text page w
  = match concat_pages pages text with
    | inl e => (Raised e, w)
    | inr t => (Done (t, last_page pages page), w)
    end.
Proof.
  revert text page. induction pages as [|p pages IH]; intros text page; cbn.
  - reflexivity.
  - unfold bind, lift. destruct (extract_text p) as [e|s]; cbn; [reflexivity|].
    apply IH.
Qed.

(** C4: in a run that gets past initialisation, for a logged-in session,
    when the text extracted from the uploaded PDF is empty (the
    splitter making no chunk of an empty text and the index builder
    failing on no chunk, as the libraries do), ingestion ends in the
    builder's error, which leaves the page handler uncaught; the session
    holds no new index (its entry is what it was, or None when it had
    none) and no success is reported. *)
Theorem empty_pdf_fails_ingestion env inp fuel w pdf pages e :
  has_api_key env w = true ->
  in_menu inp = MenuUpload ->
  logged_in w = true ->
  in_pdf inp = Some pdf ->
  (forall h, env_pdf_reader env h pdf = inr pages) ->
  concat_pages pages "" = inr "" ->
  env_split_text env 1000 200 "" = [] ->
  (forall h, env_from_texts env h [] = inl e) ->
  main env inp fuel w
  = (Raised e,
     mkWorld (environ (started env w)) (vectorstore_default (session w)) (db w)
             (EFromTexts [] :: EPdfReader pdf :: upload_form ++ log (started env w))).
Proof.
  intros Hkey Hpage Hflag Hpdf Hread Htext Hsplit Hbuild.
  rewrite main_started by assumption.
  destruct (started_flag env w) as (v & Hv & Ht).
  rewrite Hflag in Ht.
  rewrite Hpage; cbn [menu_label dispatch String.eqb Ascii.eqb Bool.eqb].
  unfold upload_page.
  unfold bind at 1. unfold session_get. rewrite Hv, Ht. cbn [negb].
  unfold bind at 1. unfold st at 1, emit at 1.
  unfold bind at 1. unfold session_has at 1. cbn [session].
  rewrite (session_defaults_logged_in env w Hflag).
  unfold bind at 1.
  assert (Hset : forall w0 : World,
             (if negb (bool_decide (is_Some (session w !! "vectorstore")))
              then session_set "vectorstore" VNone else ret tt)
               (mkWorld (environ w0) (session w) (db w0) (log w0))
             = (Done tt, mkWorld (environ w0) (vectorstore_default (session w))
                                 (db w0) (log w0))).
  { intros w0. unfold vectorstore_default.
    destruct (bool_decide (is_Some (session w !! "vectorstore"))); reflexivity. }
  cbn [environ db log started].
  match goal with
  | |- context [(if negb _ then session_set _ _ else ret tt) ?x] =>
      change x with (mkWorld (environ x) (session w) (db x) (log x))
  end.
  rewrite Hset. cbn [environ db log].
  unfold bind at 1. unfold st at 1, emit at 1. cbn [environ session db log].
  rewrite Hpdf.
  unfold bind at 1. unfold ingest.
  unfold bind at 1. unfold external at 1. cbn [environ session db log].
  rewrite Hread.
  unfold bind at 1. rewrite extract_pages_run, Htext.
  rewrite Hsplit.
  unfold bind at 1. unfold external at 1. cbn [environ session db log].
  rewrite Hbuild.
  reflexivity.
Qed.

Lemma empty_pdf_fails_ingestion_instance :
  main sample_env (upload_visit (Some sample_pdf) false false) 0 alice_world
  = (Raised (Exc IndexError "list index out of range"),
     mkWorld api_key (<["vectorstore" := VNone]> alice_session) alice_db
             (EFromTexts [] :: EPdfReader sample_pdf
              :: upload_form ++ log (started sample_env alice_world))).
Proof.
  exact (empty_pdf_fails_ingestion sample_env (upload_visit (Some sample_pdf) false false)
           0 alice_world sample_pdf [mkPage (inr "")]
           (Exc IndexError "list index out of range")
           eq_refl eq_refl eq_refl eq_refl (fun _ => eq_refl) eq_refl eq_refl
           (fun _ => eq_refl)).
Defined.

(** ** The reminder form *)

(** Stepping a run through its first call. *)
Lemma run_st {A} k text (f : unit -> M A) w :
  bind (st k text) f w = f tt (logged [EUi k text] w).
Proof. reflexivity. Qed.

Lemma run_st_form {A} key (f : unit -> M A) w :
  existsb (String.eqb key) (forms_this_run (log w)) = false ->
  bind (st_form key) f w = f tt (logged [EUi StForm key] w).
Proof. intros H. unfold bind, st_form. rewrite H. reflexivity. Qed.

Lemma run_ret {A B} (a : A) (f : A -> M B) w : bind (ret a) f w = f a w.
Proof. reflexivity. Qed.

Lemma run_session_get {A} key v (f : SVal -> M A) w :
  session w !! key = Some v -> bind (session_get key) f w = f v w.
Proof. intros H. unfold bind, session_get. rewrite H. reflexivity. Qed.

Lemma run_get_medicine_schedule {A} owner (f : list Db.MedicineScheduleEntry -> M A) w :
  bind (get_medicine_schedule owner) f w
  = f (Db.get_medicine_schedule owner (db w)) (logged [EDb (Db.GetMedicineSchedule owner)] w).
Proof. reflexivity. Qed.

Lemma run_now {A} env (f : Time -> M A) w :
  bind (datetime_now env) f w = f (env_now env (log w)) (logged [ENow (env_now env (log w))] w).
Proof. reflexivity. Qed.

Lemma logged_logged l1 l2 w : logged l1 (logged l2 w) = logged (l1 ++ l2) w.
Proof. unfold logged; cbn. rewrite app_assoc. reflexivity. Qed.

(** The schedule page from its listing on, for an empty schedule. *)
Ltac reminder_form_stops user Hsess Huser Hempty :=
  rewrite run_st;
  rewrite (run_session_get _ user)
    by (cbn [session logged]; rewrite Hsess; exact Huser);
  rewrite run_get_medicine_schedule;
  cbn [db logged started]; rewrite Hempty; cbn [nonempty];
  rewrite run_ret, run_st;
  rewrite run_st_form by reflexivity;
  rewrite run_st, run_now, run_st;
  cbn [map List.filter next]; unfold bind at 1, raise;
  rewrite !logged_logged;
  eexists; eexists; unfold reminder_form_opening; cbn [app]; reflexivity.

(** C10: in a run that gets past initialisation, for a logged-in user
    whose schedule is empty when the page lists it (nothing stored for the
    user and no valid entry added by this submission), the Schedule &
    Reminders page ends in a StopIteration that nothing catches, raised by
    the dosage lookup while the reminder form is being built: the form's
    select box and time input are the last things rendered, and its submit
    button never is. *)
Theorem empty_schedule_raises_stop_iteration env inp fuel w user :
  has_api_key env w = true ->
  in_menu inp = MenuSchedule ->
  logged_in w = true ->
  session w !! "user" = Some user ->
  Db.get_medicine_schedule user (db w) = [] ->
  mf_submitted (in_medicine_form inp)
  && (str_truthy (mf_medicine_name (in_medicine_form inp))
      && str_truthy (mf_dosage (in_medicine_form inp))) = false ->
  exists t evs,
    main env inp fuel w
    = (Raised (Exc StopIteration ""),
       logged (reminder_form_opening t ++ evs) (started env w)).
Proof.
  intros Hkey Hpage Hflag Huser Hempty Hadd.
  rewrite main_started by assumption.
  destruct (started_flag env w) as (v & Hv & Ht).
  rewrite Hflag in Ht.
  pose proof (session_defaults_logged_in env w Hflag) as Hsess.
  rewrite Hpage; cbn [menu_label dispatch String.eqb Ascii.eqb Bool.eqb].
  unfold schedule_page.
  rewrite (run_session_get _ v) by exact Hv.
  rewrite Ht; cbn [negb]. cbv zeta.
  rewrite !run_st.
  rewrite run_st_form by reflexivity.
  rewrite !run_st.
  destruct (mf_submitted (in_medicine_form inp)); cbn [andb] in Hadd.
  - rewrite Hadd, run_st. reminder_form_stops user Hsess Huser Hempty.
  - rewrite run_ret. reminder_form_stops user Hsess Huser Hempty.
Qed.

Lemma empty_schedule_raises_stop_iteration_instance :
  exists t evs,
    main sample_env (visit MenuSchedule) 0 alice_world
    = (Raised (Exc StopIteration ""),
       logged (reminder_form_opening t ++ evs) (started sample_env alice_world)).
Proof.
  exact (empty_schedule_raises_stop_iteration sample_env (visit MenuSchedule) 0
           alice_world (VStr "alice") eq_refl eq_refl eq_refl eq_refl eq_refl eq_refl).
Defined.

(** ** The two call sites of the evaluator *)

(** The evaluator finishes or raises, and touches nothing but the log. *)
Lemma check_medicine_time_frame env v w :
  exists r l, check_medicine_time env v w = (r, mkWorld (environ w) (session w) (db w) l)
              /\ r <> Running.
Proof.
  destruct v as [| b | s | vs];
    try (unfold check_medicine_time, chat_model, datetime_now, observe, external,
           as_retriever, bind, raise;
         cbn [fst snd log environ session db];
         destruct (env_llm_init env _); do 2 eexists; split;
         [reflexivity | discriminate | reflexivity | discriminate]).
  rewrite check_medicine_time_run.
  destruct (env_llm_init env _); [do 2 eexists; split; [reflexivity|discriminate]|].
  cbv zeta.
  destruct (env_retrieve env _ vs _); [do 2 eexists; split; [reflexivity|discriminate]|].
  destruct (env_llm env _ _); do 2 eexists; split;
    [reflexivity | discriminate | reflexivity | discriminate].
Qed.

(** The one-shot check always comes back: whatever its body raised has
    been turned into an on-screen error. *)
Lemma check_button_returns env w :
  exists l, check_button env w = (Done tt, mkWorld (environ w) (session w) (db w) l).
Proof.
  unfold check_button.
  unfold bind at 1. unfold st at 1, emit at 1.
  unfold try_except.
  unfold bind at 1. unfold session_attr at 1. cbn [session].
  destruct (session w !! "vectorstore") as [v|].
  2: { eexists; reflexivity. }
  unfold bind at 1.
  match goal with
  | |- context [check_medicine_time env v ?x] =>
      destruct (check_medicine_time_frame env v x) as (r & l & Hrun & Hr);
      rewrite Hrun
  end.
  destruct r as [reminder|e|]; [| eexists; reflexivity | congruence].
  unfold bind at 1. unfold st at 1, emit at 1. cbn [environ session db log].
  destruct (negb (reminder =? no_medicines_now)%string); [| eexists; reflexivity].
  unfold bind at 1. unfold observe at 1. cbn [environ session db log].
  destruct (negb (env_is_busy env _)); eexists; reflexivity.
Qed.


Lemma bind_never_done {A B} (m : M A) (k : A -> M B) w :
  (forall a w' b, fst (k a w') <> Done b) -> forall b, fst (bind m k w) <> Done b.
Proof.
  intros Hk b. unfold bind.
  destruct (m w) as [[a|e|] w']; cbn; try discriminate.
  apply Hk.
Qed.

(** The loop has no exit: followed for any number of passes, it has not
    returned. *)
Lemma auto_check_loop_never_returns env fuel w u :
  fst (auto_check_loop env fuel w) <> Done u.
Proof.
  revert w u. induction fuel as [|fuel IH]; intros w u; cbn [auto_check_loop].
  - discriminate.
  - repeat (apply bind_never_done; intros ? ? ?).
    apply IH.
Qed.

(** While the evaluator's collaborators answer, each pass is a full one
    and the loop is still going after any number of them. *)
Lemma auto_check_loop_runs env vs fuel :
  evaluator_total env ->
  forall w, session w !! "vectorstore" = Some (VIndex vs) ->
  exists l', auto_check_loop env fuel w = (Running, mkWorld (environ w) (session w) (db w) l')
             /\ iterations vs fuel (log w) l'.
Proof.
  intros (Hinit & Hdocs & Hllm).
  induction fuel as [|fuel IH]; intros w Hvs; cbn [auto_check_loop].
  - exists (log w). split; [destruct w; reflexivity | constructor].
  - unfold bind at 1. unfold session_attr at 1. rewrite Hvs.
    unfold bind at 1. rewrite check_medicine_time_run, Hinit. cbv zeta.
    destruct (Hdocs (ERetrieve vs (clock_text env w) :: evaluator_prefix env w)
                    vs (clock_text env w)) as [docs Hd].
    rewrite Hd.
    match goal with
    | |- context [env_llm env ?h ?p] => destruct (Hllm h p) as [reply Hr]; rewrite Hr
    end.
    unfold bind at 1. unfold st at 1, emit at 1. cbn [environ session db log].
    unfold bind at 1. unfold observe at 1. cbn [environ session db log].
    match goal with
    | |- context [EIsBusy (env_is_busy env ?h)] => set (busy := env_is_busy env h)
    end.
    unfold bind at 1.
    assert (Hspeak : forall w0 : World,
               (if negb busy then bind (emit (ESay reply)) (fun _ => emit ERunAndWait)
                else ret tt) w0
               = (Done tt, mkWorld (environ w0) (session w0) (db w0)
                                   ((if busy then [] else [ERunAndWait; ESay reply])
                                    ++ log w0)%list)).
    { intros w0. destruct busy; destruct w0; reflexivity. }
    rewrite Hspeak. cbn [environ session db log].
    unfold bind at 1. unfold emit at 1. cbn [environ session db log].
    match goal with
    | |- context [auto_check_loop env fuel ?x] =>
        destruct (IH x Hvs) as (l' & Hloop & Hiter); rewrite Hloop
    end.
    exists l'. split; [reflexivity|].
    cbn [log] in Hiter.
    eapply iterations_next with (t := env_now env (log w)) (docs := docs)
                                (reply := reply) (busy := busy).
    unfold iteration_events, format_docs, clock_text, evaluator_prefix in *.
    cbn [app] in *.
    rewrite <- app_assoc. cbn [app].
    exact Hiter.
Qed.

(** With the automatic check ticked on the upload page of a logged-in
    session that holds an index, the run goes into the loop. *)
Lemma upload_enters_loop env inp fuel w vs :
  has_api_key env w = true ->
  in_menu inp = MenuUpload ->
  logged_in w = true ->
  in_pdf inp = None ->
  session w !! "vectorstore" = Some (VIndex vs) ->
  in_auto_check inp = true ->
  exists l,
    main env inp fuel w
    = bind (auto_check_loop env fuel) (fun _ => ret (PageName "Upload"))
           (mkWorld (environ (started env w)) (session w) (db w) l).
Proof.
  intros Hkey Hpage Hflag Hpdf Hvs Hauto.
  rewrite main_started by assumption.
  destruct (started_flag env w) as (v & Hv & Ht).
  rewrite Hflag in Ht.
  pose proof (session_defaults_logged_in env w Hflag) as Hsess.
  rewrite Hpage; cbn [menu_label dispatch String.eqb Ascii.eqb Bool.eqb].
  unfold upload_page.
  unfold bind at 1. unfold session_get at 1. rewrite Hv, Ht. cbn [negb].
  unfold bind at 1. unfold st at 1, emit at 1.
  unfold bind at 1. unfold session_has at 1. cbn [environ session db log].
  rewrite Hsess, Hvs.
  rewrite bool_decide_eq_true_2 by eauto. cbn [negb].
  unfold bind at 1. unfold ret at 1.
  unfold bind at 1. unfold st at 1, emit at 1. cbn [environ session db log].
  rewrite Hpdf.
  unfold bind at 1. unfold ret at 1.
  unfold bind at 1. unfold session_attr at 1. cbn [environ session db log].
  rewrite Hvs. cbn [truthy].
  rewrite Hauto.
  unfold bind at 1.
  unfold bind at 1. unfold datetime_now at 1, observe at 1. cbn [environ session db log].
  unfold bind at 1. unfold st at 1, emit at 1. cbn [environ session db log].
  unfold bind at 1. unfold st at 1, emit at 1. cbn [environ session db log].
  unfold bind at 1.
  destruct (in_check_button inp).
  - match goal with
    | |- context [check_button env ?x] =>
        destruct (check_button_returns env x) as (l & Hbtn); rewrite Hbtn
    end.
    cbn [environ session db log].
    unfold bind at 1. unfold st at 1, emit at 1. cbn [environ session db log].
    eexists. unfold bind. reflexivity.
  - unfold ret at 1.
    unfold bind at 1. unfold st at 1, emit at 1. cbn [environ session db log].
    eexists. unfold bind. reflexivity.
Qed.

(** The loop as it is written, exceptions apart: once the automatic check
    is ticked (on the upload page of a logged-in session that holds an
    index, no file in the uploader), control never comes back to the
    page handler, however long the run is followed; and as long as no
    call of the evaluator raises, the loop does not end: after any number
    of passes the run is still inside it, each pass having evaluated the
    reminder, shown it, spoken it if the engine was free, and then slept
    60 seconds. *)
Theorem auto_check_never_returns env inp w vs :
  has_api_key env w = true ->
  in_menu inp = MenuUpload ->
  logged_in w = true ->
  in_pdf inp = None ->
  session w !! "vectorstore" = Some (VIndex vs) ->
  in_auto_check inp = true ->
  forall fuel,
    (forall page, fst (main env inp fuel w) <> Done page)
    /\ (evaluator_total env ->
        exists l0 w',
          main env inp fuel w = (Running, w') /\ iterations vs fuel l0 (log w')).
Proof.
  intros Hkey Hpage Hflag Hpdf Hvs Hauto fuel.
  destruct (upload_enters_loop env inp fuel w vs Hkey Hpage Hflag Hpdf Hvs Hauto)
    as (l & Hmain).
  rewrite Hmain. split.
  - intros page. unfold bind.
    pose proof (auto_check_loop_never_returns env fuel
                  (mkWorld (environ (started env w)) (session w) (db w) l) tt) as Hnever.
    destruct (auto_check_loop env fuel _) as [[[]|e|] w']; cbn in *;
      [congruence | discriminate | discriminate].
  - intros Htotal.
    destruct (auto_check_loop_runs env vs fuel Htotal
                (mkWorld (environ (started env w)) (session w) (db w) l) Hvs)
      as (l' & Hloop & Hiter).
    unfold bind. rewrite Hloop.
    exists l. eexists. split; [reflexivity | exact Hiter].
Qed.

Lemma sample_env_total : evaluator_total sample_env.
Proof.
  repeat split; intros; eexists; reflexivity.
Qed.

Lemma auto_check_never_returns_instance :
  (forall page,
      fst (main sample_env (upload_visit None false true) 3 indexed_world) <> Done page)
  /\ exists l0 w',
       main sample_env (upload_visit None false true) 3 indexed_world = (Running, w')
       /\ iterations sample_index 3 l0 (log w').
Proof.
  destruct (auto_check_never_returns sample_env (upload_visit None false true)
              indexed_world sample_index eq_refl eq_refl eq_refl eq_refl eq_refl eq_refl 3)
    as [Hnever Hruns].
  split; [exact Hnever | exact (Hruns sample_env_total)].
Defined.

(** C5: the loop does not go on whatever happens: with the automatic
    check ticked and the hosted model out of reach, the run, however long
    it is followed, has ended in the first pass, in the model's error and
    before any sleep.  The loop's body has no handler around the
    evaluator, unlike the button's (the defect of C2). *)
Theorem auto_check_ends_when_model_fails (fuel : nat) :
  main (outage_env quota_error) (upload_visit None false true) (S fuel) indexed_world
  = (Raised quota_error,
     logged [ELlm (prompt_text
                     (mkPromptInput
                        ("Aspirin 1 tablet at 09:00" ++ nl ++ nl ++ "Metformin after dinner")
                        "09:41 AM"));
             ERetrieve sample_index "09:41 AM";
             ELlmInit "gemini-1.5-pro" 0 2048;
             ENow (mkTime 9 41);
             EUi StCheckbox "Enable automatic checking (every minute)";
             EUi StButton "Check Medicine Schedule";
             EUi StSubheader "Current Time: 09:41 AM";
             ENow (mkTime 9 41);
             EUi StFileUploader "Upload prescription PDF";
             EUi StHeader "Upload Prescription (Experimental)"]
            (started (outage_env quota_error) indexed_world)).
Proof. vm_compute. reflexivity. Qed.

(** C2 (the loop's call site): when the evaluator raises inside the
    automatic check, the exception leaves the page handler as it is;
    nothing is caught and no error message is shown. *)
Theorem auto_check_lets_evaluator_error_out (e : exn) (fuel : nat) :
  fst (main (outage_env e) (upload_visit None false true) (S fuel) indexed_world) = Raised e
  /\ shown_errors
       (snd (main (outage_env e) (upload_visit None false true) (S fuel) indexed_world))
     = [].
Proof. split; vm_compute; reflexivity. Qed.

(** The same failure under the button is caught and shown. *)
Lemma check_button_catches_evaluator_error (e : exn) (fuel : nat) :
  fst (main (outage_env e) (upload_visit None true false) fuel indexed_world)
  = Done (PageName "Upload")
  /\ shown_errors
       (snd (main (outage_env e) (upload_visit None true false) fuel indexed_world))
     = ["Error: " ++ exc_msg e].
Proof. split; vm_compute; reflexivity. Qed.

(** * Invariants of whole runs *)

(** An invariant of the world together with what a computation may do
    without breaking it: the events it may log and the session entries
    it may assign.  Changes to the stores and to the environment are
    allowed as such. *)
Record Invariant := mkInvariant {
  inv : World -> Prop;
  ok : Event -> bool;
  ok_set : string -> SVal -> bool;
  inv_log : forall e w,
      ok e = true -> inv w -> inv (mkWorld (environ w) (session w) (db w) (e :: log w));
  inv_set : forall k v w,
      ok_set k v = true -> inv w ->
      inv (mkWorld (environ w) (<[k := v]> (session w)) (db w) (log w));
  inv_db : forall d w, inv w -> inv (mkWorld (environ w) (session w) d (log w));
  inv_environ : forall en w, inv w -> inv (mkWorld en (session w) (db w) (log w))
}.

(** A computation keeps the invariant, however it ends. *)
Definition keeps (V : Invariant) {A} (m : M A) : Prop :=
  forall w, inv V w -> inv V (snd (m w)).

(** The events of the upload page below its gate. *)
Definition upload_side (e : Event) : bool :=
  match e with
  | EUi _ _ | ENow _ | ELlmInit _ _ _ | ERetrieve _ _ | ELlm _
  | EIsBusy _ | ESay _ | ERunAndWait | ESleep _
  | EPdfReader _ | EFromTexts _ => true
  | _ => false
  end.

Section Keeps.

Variable V : Invariant.
Variable env : Env.
Variable inp : Inputs.

Lemma keeps_ret {A} (a : A) : keeps V (ret a).
Proof. intros w H; exact H. Qed.

Lemma keeps_raise {A} e : keeps V (@raise A e).
Proof. intros w H; exact H. Qed.

Lemma keeps_running {A} : keeps V (@running A).
Proof. intros w H; exact H. Qed.

Lemma keeps_bind {A B} (m : M A) (k : A -> M B) :
  keeps V m -> (forall a, keeps V (k a)) -> keeps V (bind m k).
Proof.
  intros Hm Hk w H. unfold bind.
  specialize (Hm w H).
  destruct (m w) as [[a|e|] w']; cbn in *; auto.
  apply Hk; assumption.
Qed.

Lemma keeps_try_except {A} (m : M A) h :
  keeps V m -> (forall e, keeps V (h e)) -> keeps V (try_except m h).
Proof.
  intros Hm Hh w H. unfold try_except.
  specialize (Hm w H).
  destruct (m w) as [[a|e|] w']; cbn in *; auto.
  apply Hh; assumption.
Qed.

Lemma keeps_emit e : ok V e = true -> keeps V (emit e).
Proof. intros He w H. unfold emit; cbn [snd]. apply inv_log; assumption. Qed.

Lemma keeps_st k text : ok V (EUi k text) = true -> keeps V (st k text).
Proof. apply keeps_emit. Qed.

Lemma keeps_st_form key : ok V (EUi StForm key) = true -> keeps V (st_form key).
Proof.
  intros Hk w H. unfold st_form.
  destruct (existsb _ _); [exact H|].
  apply keeps_emit; assumption.
Qed.

Lemma keeps_external {A} e (oracle : list Event -> exn + A) :
  ok V e = true -> keeps V (external e oracle).
Proof.
  intros He w H. unfold external.
  destruct (oracle _); cbn [snd]; apply inv_log; assumption.
Qed.

Lemma keeps_observe {A} (oracle : list Event -> A) (e : A -> Event) :
  (forall a, ok V (e a) = true) -> keeps V (observe oracle e).
Proof. intros He w H. unfold observe; cbn [snd]. apply inv_log; auto. Qed.

Lemma keeps_now : (forall t, ok V (ENow t) = true) -> keeps V (datetime_now env).
Proof. apply keeps_observe. Qed.

Lemma keeps_lift {A} (r : exn + A) : keeps V (lift r).
Proof. destruct r; intros w H; exact H. Qed.

Lemma keeps_next {A} (l : list A) : keeps V (next l).
Proof. destruct l; intros w H; exact H. Qed.

Lemma keeps_db_call {A} c (f : Db.t -> A * Db.t) :
  ok V (EDb c) = true -> keeps V (db_call c f).
Proof.
  intros Hc w H. unfold db_call.
  destruct (f (db w)) as [a d]; cbn [snd].
  apply (inv_log V (EDb c) (mkWorld (environ w) (session w) d (log w)) Hc).
  apply inv_db; exact H.
Qed.

Lemma keeps_session_get key : keeps V (session_get key).
Proof. intros w H. unfold session_get. destruct (session w !! key); exact H. Qed.

Lemma keeps_session_attr key : keeps V (session_attr key).
Proof. intros w H. unfold session_attr. destruct (session w !! key); exact H. Qed.

Lemma keeps_session_has key : keeps V (session_has key).
Proof. intros w H; exact H. Qed.

Lemma keeps_session_set key v : ok_set V key v = true -> keeps V (session_set key v).
Proof. intros Hk w H. unfold session_set; cbn [snd]. apply inv_set; assumption. Qed.

Lemma keeps_for_each {A} (xs : list A) body :
  (forall x, keeps V (body x)) -> keeps V (for_each xs body).
Proof.
  intros Hb. induction xs as [|x xs IH]; cbn.
  - apply keeps_ret.
  - apply keeps_bind; [apply Hb | intros _; exact IH].
Qed.

Lemma keeps_extract_pages pages text page : keeps V (extract_pages pages text page).
Proof.
  revert text page. induction pages as [|p pages IH]; intros text page; cbn.
  - apply keeps_ret.
  - apply keeps_bind; [apply keeps_lift | intros s; apply IH].
Qed.

(** The evaluator logs its clock read, the model's construction, a
    retrieval and a model call, and nothing else. *)
Lemma keeps_check_medicine_time v :
  (forall e, upload_side e = true -> ok V e = true) ->
  keeps V (check_medicine_time env v).
Proof.
  intros Hok w H.
  assert (Hp : inv V (mkWorld (environ w) (session w) (db w) (evaluator_prefix env w))).
  { unfold evaluator_prefix.
    apply (inv_log V (ELlmInit "gemini-1.5-pro" 0 2048)
             (mkWorld (environ w) (session w) (db w) (ENow (env_now env (log w)) :: log w)));
      [apply Hok; reflexivity|].
    apply inv_log; [apply Hok; reflexivity | exact H]. }
  destruct v as [| b | s | vs];
    try (unfold check_medicine_time, chat_model, datetime_now, observe, external,
           as_retriever, bind, raise;
         cbn [fst snd log environ session db];
         destruct (env_llm_init env _); cbn [snd]; exact Hp).
  rewrite check_medicine_time_run.
  destruct (env_llm_init env _); [exact Hp|].
  cbv zeta.
  assert (Hq : inv V (mkWorld (environ w) (session w) (db w)
                              (ERetrieve vs (clock_text env w) :: evaluator_prefix env w))).
  { apply (inv_log V (ERetrieve vs (clock_text env w))
             (mkWorld (environ w) (session w) (db w) (evaluator_prefix env w)));
      [apply Hok; reflexivity | exact Hp]. }
  destruct (env_retrieve env _ vs _); cbn [snd]; [exact Hq|].
  match goal with
  | |- context [env_llm env (ELlm ?p :: ?h) ?p] =>
      assert (Hr : inv V (mkWorld (environ w) (session w) (db w) (ELlm p :: h)))
        by (apply (inv_log V (ELlm p) (mkWorld (environ w) (session w) (db w) h));
            [apply Hok; reflexivity | exact Hq])
  end.
  destruct (env_llm env _ _); cbn [snd]; exact Hr.
Qed.

End Keeps.

(** Proves [keeps V m] along the structure of [m]; [side] proves that the
    events and session entries met on the way are allowed by [V]. *)
Ltac keep_with side :=
  cbv zeta; unfold db_query, db_update;
  repeat match goal with
    | |- keeps _ (bind _ _) => apply keeps_bind; [| intros ?]
    | |- keeps _ (try_except _ _) => apply keeps_try_except; [| intros ?]
    | |- keeps _ (for_each _ _) => apply keeps_for_each; intros ?
    | |- keeps _ (ret _) => apply keeps_ret
    | |- keeps _ (raise _) => apply keeps_raise
    | |- keeps _ (running) => apply keeps_running
    | |- keeps _ (st _ _) => apply keeps_st; side
    | |- keeps _ (st_form _) => apply keeps_st_form; side
    | |- keeps _ (emit _) => apply keeps_emit; side
    | |- keeps _ (external _ _) => apply keeps_external; side
    | |- keeps _ (observe _ _) => apply keeps_observe; intros ?; side
    | |- keeps _ (datetime_now _) => apply keeps_now; intros ?; side
    | |- keeps _ (lift _) => apply keeps_lift
    | |- keeps _ (next _) => apply keeps_next
    | |- keeps _ (db_call _ _) => apply keeps_db_call; side
    | |- keeps _ (session_get _) => apply keeps_session_get
    | |- keeps _ (session_attr _) => apply keeps_session_attr
    | |- keeps _ (session_has _) => apply keeps_session_has
    | |- keeps _ (session_set _ _) => apply keeps_session_set; side
    | |- keeps _ (extract_pages _ _ _) => apply keeps_extract_pages
    | |- keeps _ (check_medicine_time _ _) => apply keeps_check_medicine_time; side
    | |- keeps _ (if ?c then _ else _) => destruct c eqn:?
    | |- keeps _ (match ?x with _ => _ end) => destruct x eqn:?
    end.

Ltac keep := keep_with ltac:(reflexivity).

(** *** The upload page and the whole chain under an invariant *)

Section KeepsPages.

Variable V : Invariant.
Variable env : Env.
Variable inp : Inputs.

Hypothesis upload_events_ok : forall e, upload_side e = true -> ok V e = true.
Hypothesis index_entry_ok : forall v, ok_set V "vectorstore" v = true.

Ltac upload_ok :=
  first [ apply index_entry_ok
        | apply upload_events_ok; reflexivity
        | exact upload_events_ok ].

Lemma keeps_auto_check_loop fuel : keeps V (auto_check_loop env fuel).
Proof.
  induction fuel as [|fuel IH]; cbn [auto_check_loop].
  - apply keeps_running.
  - keep_with upload_ok. exact IH.
Qed.

Lemma keeps_check_button : keeps V (check_button env).
Proof. unfold check_button. keep_with upload_ok. Qed.

Lemma keeps_upload_page fuel : keeps V (upload_page env inp fuel).
Proof.
  unfold upload_page, ingest.
  keep_with ltac:(first [ upload_ok | apply keeps_check_button
                        | apply keeps_auto_check_loop ]).
  all: first [ apply keeps_check_button | apply keeps_auto_check_loop ].
Qed.

End KeepsPages.

(** *** Three invariants *)

(** Every logged event satisfies [P]. *)
Lemma confined_log (P : Event -> bool) e (w : World) :
  P e = true -> forallb P (log w) = true ->
  forallb P (log (mkWorld (environ w) (session w) (db w) (e :: log w))) = true.
Proof. intros He H; cbn. rewrite He, H. reflexivity. Qed.

Definition confined (P : Event -> bool) : Invariant :=
  mkInvariant (fun w => forallb P (log w) = true) P (fun _ _ => true)
              (confined_log P) (fun _ _ _ _ H => H) (fun _ _ H => H) (fun _ _ H => H).

(** The assignments that cannot unset the logged-in flag. *)
Definition keeps_flag (k : string) (v : SVal) : bool :=
  negb (String.eqb k "logged_in") || truthy v.

Lemma logged_in_set k v (w : World) :
  keeps_flag k v = true -> logged_in w = true ->
  logged_in (mkWorld (environ w) (<[k := v]> (session w)) (db w) (log w)) = true.
Proof.
  unfold keeps_flag, logged_in; cbn [session]. intros Hk H.
  destruct (String.eqb k "logged_in") eqn:E.
  - apply String.eqb_eq in E; subst k. rewrite lookup_insert_eq. exact Hk.
  - apply String.eqb_neq in E. rewrite lookup_insert_ne by exact E. exact H.
Qed.

Definition flag_invariant : Invariant :=
  mkInvariant (fun w => logged_in w = true) (fun _ => true) keeps_flag
              (fun _ _ _ H => H) logged_in_set (fun _ _ H => H) (fun _ _ H => H).

(** The event [e0] has been logged. *)
Definition has_logged (e0 : Event) : Invariant :=
  mkInvariant (fun w => In e0 (log w)) (fun _ => true) (fun _ _ => true)
              (fun e w _ H => or_intror H) (fun _ _ _ _ H => H)
              (fun _ _ H => H) (fun _ _ H => H).

(** Without the credential the run stops in the fallback of line 26. *)
Lemma main_stops_without_key env inp fuel w :
  has_api_key env w = false ->
  main env inp fuel w
  = (Raised (Exc TypeError not_callable),
     mkWorld (env_load_dotenv env (environ w)) (session w) (db w) (log w)).
Proof.
  unfold has_api_key; intros H.
  unfold main, startup, bind, load_dotenv, environ_has; cbn.
  rewrite H; reflexivity.
Qed.

(** The page chain under an invariant that allows every event, the
    login's two assignments and any index entry. *)
Lemma keeps_dispatch_any (V : Invariant) env inp fuel page :
  (forall e, ok V e = true) ->
  ok_set V "logged_in" (VBool true) = true ->
  (forall s, ok_set V "user" (VStr s) = true) ->
  (forall v, ok_set V "vectorstore" v = true) ->
  keeps V (dispatch env inp fuel page).
Proof.
  intros Hok Hflag Huser Hindex.
  unfold dispatch.
  repeat match goal with |- keeps _ (if ?c then _ else _) => destruct c end.
  - unfold home_page; keep_with ltac:(apply Hok).
  - unfold dashboard_page, get_medicine_schedule, get_reminders;
      keep_with ltac:(apply Hok).
  - unfold login_page, login_user;
      keep_with ltac:(first [apply Hok | exact Hflag | apply Huser]).
  - unfold register_page, register_user; keep_with ltac:(apply Hok).
  - unfold schedule_page, schedule_item, reminder_item, get_medicine_schedule,
      get_reminders, store_medicine_schedule, update_medicine_schedule,
      delete_medicine_schedule, store_reminder, update_reminder, delete_reminder;
      keep_with ltac:(apply Hok).
  - apply keeps_upload_page; [intros e _; apply Hok | exact Hindex].
  - unfold voice_page; keep_with ltac:(apply Hok).
  - apply keeps_ret.
Qed.

(** ** Session and access *)

(** X1: no run ever clears the logged-in flag: whatever the page, the
    inputs and the collaborators' answers, a session that is logged in
    before a run is logged in after it (the script has no logout). *)
Theorem logged_in_is_never_cleared env inp fuel w :
  logged_in w = true -> logged_in (snd (main env inp fuel w)) = true.
Proof.
  intros Hflag.
  destruct (has_api_key env w) eqn:Hkey.
  - rewrite main_started by exact Hkey.
    apply (keeps_dispatch_any flag_invariant); try reflexivity.
    unfold flag_invariant, inv, logged_in.
    rewrite (session_defaults_logged_in env w Hflag). exact Hflag.
  - rewrite main_stops_without_key by exact Hkey. exact Hflag.
Qed.

Lemma logged_in_is_never_cleared_instance :
  logged_in (snd (main sample_env (upload_visit (Some sample_pdf) true true) 2 indexed_world))
  = true.
Proof.
  exact (logged_in_is_never_cleared sample_env (upload_visit (Some sample_pdf) true true)
           2 indexed_world eq_refl).
Defined.

(** Rendering, the engine's start-up and the calls into the credential
    table: what a run may do for a visitor who is not logged in. *)
Definition credential_or_ui (e : Event) : bool :=
  match e with
  | EUi _ _ | EEngineInit => true
  | EDb Db.InitAuthDb | EDb (Db.RegisterUser _ _) | EDb (Db.LoginUser _ _) => true
  | _ => false
  end.

(** Everything but the language model, the index, the PDF reader, the
    speech engine and sleeping. *)
Definition off_evaluator (e : Event) : bool :=
  match e with
  | ELlmInit _ _ _ | ERetrieve _ _ | ELlm _ | EIsBusy _ | ESay _ | ERunAndWait
  | ESleep _ | EPdfReader _ | EFromTexts _ => false
  | _ => true
  end.

(** Everything but the store calls that write. *)
Definition read_only (e : Event) : bool :=
  match e with
  | EDb (Db.RegisterUser _ _) | EDb (Db.StoreMedicineSchedule _ _)
  | EDb (Db.UpdateMedicineSchedule _ _ _) | EDb (Db.DeleteMedicineSchedule _ _)
  | EDb (Db.StoreReminder _ _ _ _) | EDb (Db.UpdateReminder _ _ _ _)
  | EDb (Db.DeleteReminder _ _) => false
  | _ => true
  end.

(** Everything but the storing of a schedule entry. *)
Definition not_store_medicine (e : Event) : bool :=
  match e with
  | EDb (Db.StoreMedicineSchedule _ _) => false
  | _ => true
  end.

(** No button of the registration and schedule pages is pressed. *)
Definition nothing_submitted (inp : Inputs) : Prop :=
  in_register_button inp = false
  /\ mf_submitted (in_medicine_form inp) = false
  /\ (forall n, ef_update_submitted (in_edit_form inp n) = false)
  /\ (forall n, ef_delete_submitted (in_edit_form inp n) = false)
  /\ rf_submitted (in_reminder_form inp) = false
  /\ (forall i, re_update_submitted (in_reminder_edit inp i) = false)
  /\ (forall i, re_delete_submitted (in_reminder_edit inp i) = false).

(** Opens the pages other than the upload page. *)
Ltac open_pages :=
  cbv delta [home_page dashboard_page login_page register_page schedule_page
             schedule_item reminder_item voice_page
             init_auth_db register_user login_user
             get_medicine_schedule get_reminders store_medicine_schedule
             update_medicine_schedule delete_medicine_schedule store_reminder
             update_reminder delete_reminder];
  cbv beta.

Lemma started_log_confined (P : Event -> bool) env e s d :
  P EEngineInit = true -> P (EDb Db.InitAuthDb) = true ->
  (forall k text, P (EUi k text) = true) ->
  inv (confined P) (started env (mkWorld e s d [])).
Proof.
  intros H1 H2 H3. unfold confined, inv, started; cbn.
  rewrite H1, H2, !H3. reflexivity.
Qed.

(** X2: a run in a session that is not logged in does nothing but render,
    start the speech engine and call the credential table
    (initialisation, [register_user], [login_user]): it reaches neither
    the schedule and reminder stores nor the PDF reader, the index, the
    language model or the microphone, and it neither speaks nor sleeps,
    on any page and with any inputs. *)
Theorem visitor_reaches_credentials_only env inp fuel
    (e : gmap string string) (s : gmap string SVal) (d : Db.t) :
  logged_in (mkWorld e s d []) = false ->
  forallb credential_or_ui (log (snd (main env inp fuel (mkWorld e s d [])))) = true.
Proof.
  intros Hflag.
  destruct (has_api_key env (mkWorld e s d [])) eqn:Hkey.
  2: { rewrite main_stops_without_key by exact Hkey. reflexivity. }
  rewrite main_started by exact Hkey.
  destruct (started_flag env (mkWorld e s d [])) as (v & Hv & Ht).
  rewrite Hflag in Ht.
  assert (Hstart : inv (confined credential_or_ui) (started env (mkWorld e s d [])))
    by (apply started_log_confined; reflexivity).
  destruct (in_menu inp); cbn [menu_label dispatch String.eqb Ascii.eqb Bool.eqb].
  1-3: revert Hstart;
       match goal with
       | |- _ -> forallb _ (log (snd (?m ?w))) = true =>
           apply (fun H : keeps (confined credential_or_ui) m => H w)
       end; open_pages; keep.
  all: unfold dashboard_page, schedule_page, upload_page, voice_page, bind, session_get;
       rewrite Hv, Ht; reflexivity.
Qed.

Lemma visitor_reaches_credentials_only_instance :
  forallb credential_or_ui
          (log (snd (main sample_env (login_attempt "alice" "pw1") 0 visitor_world)))
  = true.
Proof.
  exact (visitor_reaches_credentials_only sample_env (login_attempt "alice" "pw1") 0
           api_key ∅ alice_db eq_refl).
Defined.

(** X3: only the upload page reaches the PDF reader, the index and the
    language model, asks the speech engine whether it is busy or makes
    it speak, and sleeps: a run on any other page does none of these,
    whoever is logged in (the engine is started by every run, and that
    is all). *)
Theorem evaluator_is_reached_from_upload_only env inp fuel
    (e : gmap string string) (s : gmap string SVal) (d : Db.t) :
  in_menu inp <> MenuUpload ->
  forallb off_evaluator (log (snd (main env inp fuel (mkWorld e s d [])))) = true.
Proof.
  intros Hpage.
  destruct (has_api_key env (mkWorld e s d [])) eqn:Hkey.
  2: { rewrite main_stops_without_key by exact Hkey. reflexivity. }
  rewrite main_started by exact Hkey.
  assert (Hstart : inv (confined off_evaluator) (started env (mkWorld e s d [])))
    by (apply started_log_confined; reflexivity).
  revert Hstart.
  match goal with
  | |- _ -> forallb _ (log (snd (?m ?w))) = true =>
      apply (fun H : keeps (confined off_evaluator) m => H w)
  end.
  destruct (in_menu inp); try congruence;
    cbn [menu_label dispatch String.eqb Ascii.eqb Bool.eqb];
    open_pages; keep.
Qed.

Lemma evaluator_is_reached_from_upload_only_instance :
  forallb off_evaluator
          (log (snd (main sample_env (visit MenuSchedule) 0 indexed_world)))
  = true.
Proof.
  apply (evaluator_is_reached_from_upload_only sample_env (visit MenuSchedule) 0
           api_key (<["vectorstore" := VIndex sample_index]> alice_session) alice_db).
  discriminate.
Defined.

Lemma upload_side_read_only e : upload_side e = true -> read_only e = true.
Proof. destruct e; cbn; congruence. Qed.

Lemma upload_side_not_store e : upload_side e = true -> not_store_medicine e = true.
Proof. destruct e; cbn; congruence. Qed.

(** X4: a run in which no button of the registration and schedule pages
    is pressed writes to no store: it calls none of [register_user],
    [store_medicine_schedule], [update_medicine_schedule],
    [delete_medicine_schedule], [store_reminder], [update_reminder],
    [delete_reminder], whatever page is shown. *)
Theorem viewing_writes_nothing env inp fuel
    (e : gmap string string) (s : gmap string SVal) (d : Db.t) :
  nothing_submitted inp ->
  forallb read_only (log (snd (main env inp fuel (mkWorld e s d [])))) = true.
Proof.
  intros (Hreg & Hadd & Hupd & Hdel & Hrem & Hrupd & Hrdel).
  destruct (has_api_key env (mkWorld e s d [])) eqn:Hkey.
  2: { rewrite main_stops_without_key by exact Hkey. reflexivity. }
  rewrite main_started by exact Hkey.
  assert (Hstart : inv (confined read_only) (started env (mkWorld e s d [])))
    by (apply started_log_confined; reflexivity).
  revert Hstart.
  match goal with
  | |- _ -> forallb _ (log (snd (?m ?w))) = true =>
      apply (fun H : keeps (confined read_only) m => H w)
  end.
  destruct (in_menu inp); cbn [menu_label dispatch String.eqb Ascii.eqb Bool.eqb];
    lazymatch goal with
    | |- keeps _ (upload_page _ _ _) =>
        apply keeps_upload_page; [exact upload_side_read_only | reflexivity]
    | _ => open_pages; cbv zeta; rewrite ?Hreg, ?Hadd, ?Hrem; keep
    end.
  all: repeat match goal with
         | E : ef_update_submitted _ = true |- _ => rewrite Hupd in E
         | E : ef_delete_submitted _ = true |- _ => rewrite Hdel in E
         | E : re_update_submitted _ = true |- _ => rewrite Hrupd in E
         | E : re_delete_submitted _ = true |- _ => rewrite Hrdel in E
         end; discriminate.
Qed.

Lemma viewing_writes_nothing_instance :
  forallb read_only (log (snd (main sample_env (visit MenuSchedule) 0 alice_world))) = true.
Proof.
  apply (viewing_writes_nothing sample_env (visit MenuSchedule) 0
           api_key alice_session alice_db).
  repeat split; reflexivity.
Defined.

(** X5: a schedule entry is stored only from a submitted form that has
    both a medicine name and a dosage: when the add form is not
    submitted, or is submitted with either field empty, the run does not
    call [store_medicine_schedule]. *)
Theorem incomplete_medicine_form_stores_nothing env inp fuel
    (e : gmap string string) (s : gmap string SVal) (d : Db.t) :
  mf_submitted (in_medicine_form inp)
  && (str_truthy (mf_medicine_name (in_medicine_form inp))
      && str_truthy (mf_dosage (in_medicine_form inp))) = false ->
  forallb not_store_medicine (log (snd (main env inp fuel (mkWorld e s d [])))) = true.
Proof.
  intros Hadd.
  destruct (has_api_key env (mkWorld e s d [])) eqn:Hkey.
  2: { rewrite main_stops_without_key by exact Hkey. reflexivity. }
  rewrite main_started by exact Hkey.
  assert (Hstart : inv (confined not_store_medicine) (started env (mkWorld e s d [])))
    by (apply started_log_confined; reflexivity).
  revert Hstart.
  match goal with
  | |- _ -> forallb _ (log (snd (?m ?w))) = true =>
      apply (fun H : keeps (confined not_store_medicine) m => H w)
  end.
  destruct (in_menu inp); cbn [menu_label dispatch String.eqb Ascii.eqb Bool.eqb];
    lazymatch goal with
    | |- keeps _ (upload_page _ _ _) =>
        apply keeps_upload_page; [exact upload_side_not_store | reflexivity]
    | _ => open_pages; keep
    end.
  all: discriminate Hadd.
Qed.

Lemma incomplete_medicine_form_stores_nothing_instance :
  forallb not_store_medicine
          (log (snd (main sample_env (medicine_submission "Aspirin" "") 0 alice_world)))
  = true.
Proof.
  exact (incomplete_medicine_form_stores_nothing sample_env
           (medicine_submission "Aspirin" "") 0 api_key alice_session alice_db eq_refl).
Defined.

(** ** The evaluator and its one-shot call site *)

Lemma string_app_assoc (a b c : string) : (a ++ b) ++ c = a ++ b ++ c.
Proof.
  induction a as [|x a IH]; [reflexivity|].
  change (String x ((a ++ b) ++ c) = String x (a ++ b ++ c)).
  rewrite IH. reflexivity.
Qed.

Lemma join_app sep xs ys :
  xs <> [] -> ys <> [] ->
  join sep (xs ++ ys)%list = join sep xs ++ sep ++ join sep ys.
Proof.
  intros Hx Hy. induction xs as [|x xs IH]; [congruence|].
  destruct xs as [|x' xs].
  - cbn. destruct ys; [congruence | reflexivity].
  - change (join sep ((x :: x' :: xs) ++ ys)%list)
      with (x ++ sep ++ join sep ((x' :: xs) ++ ys)%list).
    rewrite IH by discriminate.
    change (join sep (x :: x' :: xs)) with (x ++ sep ++ join sep (x' :: xs)).
    rewrite !string_app_assoc. reflexivity.
Qed.

(** X6: the context text of two non-empty batches of documents is the two
    context texts with one blank line between them: [format_docs] puts
    the separator between documents only, never before the first or
    after the last. *)
Theorem format_docs_app (xs ys : list Document) :
  xs <> [] -> ys <> [] ->
  format_docs (xs ++ ys) = format_docs xs ++ (nl ++ nl) ++ format_docs ys.
Proof.
  intros Hx Hy. unfold format_docs. rewrite map_app.
  apply join_app.
  - destruct xs; [congruence | discriminate].
  - destruct ys; [congruence | discriminate].
Qed.

Lemma format_docs_app_instance :
  format_docs ([mkDocument "Aspirin 09:00"] ++ [mkDocument "Metformin 20:00"])
  = format_docs [mkDocument "Aspirin 09:00"] ++ (nl ++ nl)
    ++ format_docs [mkDocument "Metformin 20:00"].
Proof.
  apply (format_docs_app [mkDocument "Aspirin 09:00"] [mkDocument "Metformin 20:00"]);
    discriminate.
Defined.

(** X7: one evaluation reads the clock and constructs the model, then
    makes at most one retrieval and at most one model call, in this
    order, and stops at the first of them that fails: the model is
    called only after a retrieval that succeeded, with no retry; and it
    touches neither the session nor the stores. *)
Theorem evaluator_stops_at_first_failure env v w :
  exists r evs,
    check_medicine_time env v w
    = (r, logged evs (mkWorld (environ w) (session w) (db w) (evaluator_prefix env w)))
    /\ ((evs = [] /\ exists e, r = Raised e)
        \/ (exists vs e,
               v = VIndex vs /\ evs = [ERetrieve vs (clock_text env w)] /\ r = Raised e)
        \/ (exists vs docs,
               v = VIndex vs
               /\ env_retrieve env (ERetrieve vs (clock_text env w) :: evaluator_prefix env w)
                               vs (clock_text env w) = inr docs
               /\ evs = [ELlm (prompt_text (mkPromptInput (format_docs docs)
                                                          (clock_text env w)));
                         ERetrieve vs (clock_text env w)]
               /\ r <> Running)).
Proof.
  destruct v as [| b | s | vs];
    try (unfold check_medicine_time, chat_model, datetime_now, observe, external,
           as_retriever, bind, raise, evaluator_prefix;
         cbn [fst snd log environ session db];
         destruct (env_llm_init env _); eexists (Raised _), []; split;
         [reflexivity | left; split; [reflexivity | eexists; reflexivity]
         |reflexivity | left; split; [reflexivity | eexists; reflexivity]]).
  rewrite check_medicine_time_run.
  destruct (env_llm_init env _) as [e|u].
  { exists (Raised e), []. split; [reflexivity|].
    left; split; [reflexivity | eexists; reflexivity]. }
  cbv zeta.
  destruct (env_retrieve env _ vs _) as [e|docs] eqn:Hdocs.
  { exists (Raised e), [ERetrieve vs (clock_text env w)]. split; [reflexivity|].
    right; left. exists vs, e. repeat split. }
  destruct (env_llm env _ _) as [e|reply].
  - exists (Raised e),
      [ELlm (prompt_text (mkPromptInput (format_docs docs) (clock_text env w)));
       ERetrieve vs (clock_text env w)].
    split; [reflexivity|].
    right; right. exists vs, docs.
    split; [reflexivity|]. split; [exact Hdocs|]. split; [reflexivity | discriminate].
  - exists (Done reply),
      [ELlm (prompt_text (mkPromptInput (format_docs docs) (clock_text env w)));
       ERetrieve vs (clock_text env w)].
    split; [reflexivity|].
    right; right. exists vs, docs.
    split; [reflexivity|]. split; [exact Hdocs|]. split; [reflexivity | discriminate].
Qed.

(** Stepping a run through its first call, continued. *)
Lemma run_emit {A} e (f : unit -> M A) w : bind (emit e) f w = f tt (logged [e] w).
Proof. reflexivity. Qed.

Lemma run_bind {A B C} (m : M A) (f : A -> M B) (g : B -> M C) w :
  bind (bind m f) g w = bind m (fun x => bind (f x) g) w.
Proof. unfold bind. destruct (m w) as [[a|e|] w']; reflexivity. Qed.

Lemma run_observe {A B} (oracle : list Event -> A) (e : A -> Event) (f : A -> M B) w :
  bind (observe oracle e) f w = f (oracle (log w)) (logged [e (oracle (log w))] w).
Proof. reflexivity. Qed.

Lemma run_session_attr {A} key v (f : SVal -> M A) w :
  session w !! key = Some v -> bind (session_attr key) f w = f v w.
Proof. intros H. unfold bind, session_attr. rewrite H. reflexivity. Qed.

Lemma run_session_has {A} key (f : bool -> M A) w :
  bind (session_has key) f w = f (bool_decide (is_Some (session w !! key))) w.
Proof. reflexivity. Qed.

Lemma run_external_ok {A B} e (oracle : list Event -> exn + A) a (f : A -> M B) w :
  oracle (e :: log w) = inr a -> bind (external e oracle) f w = f a (logged [e] w).
Proof. intros H. unfold bind, external; cbn [log]. rewrite H. reflexivity. Qed.

Lemma run_external_raises {A B} e (oracle : list Event -> exn + A) x (f : A -> M B) w :
  oracle (e :: log w) = inl x -> bind (external e oracle) f w = (Raised x, logged [e] w).
Proof. intros H. unfold bind, external; cbn [log]. rewrite H. reflexivity. Qed.

Lemma st_run k text w : st k text w = (Done tt, logged [EUi k text] w).
Proof. reflexivity. Qed.

Lemma emit_run e w : emit e w = (Done tt, logged [e] w).
Proof. reflexivity. Qed.

(** The evaluator only puts events on the log. *)
Lemma check_medicine_time_extends env v w :
  exists r evs, check_medicine_time env v w = (r, logged evs w) /\ r <> Running.
Proof.
  destruct v as [| b | s | vs];
    try (unfold check_medicine_time, chat_model, datetime_now, observe, external,
           as_retriever, bind, raise;
         cbn [fst snd log environ session db];
         destruct (env_llm_init env _); eexists _, [_; _]; split;
         [reflexivity | discriminate | reflexivity | discriminate]).
  rewrite check_medicine_time_run. unfold evaluator_prefix.
  destruct (env_llm_init env _);
    [eexists _, [_; _]; split; [reflexivity|discriminate]|].
  cbv zeta.
  destruct (env_retrieve env _ vs _);
    [eexists _, [_; _; _]; split; [reflexivity|discriminate]|].
  destruct (env_llm env _ _); eexists _, [_; _; _; _]; split;
    [reflexivity | discriminate | reflexivity | discriminate].
Qed.

(** The check under the button comes back to the page and only adds to
    the log. *)
Lemma check_button_extends env w :
  exists evs, check_button env w = (Done tt, logged evs w).
Proof.
  unfold check_button. rewrite run_st. unfold try_except.
  destruct (session w !! "vectorstore") as [v|] eqn:Hv.
  2: { unfold bind at 1, session_attr. cbn [session logged]. rewrite Hv.
       rewrite st_run, logged_logged. eexists; reflexivity. }
  rewrite (run_session_attr _ v) by exact Hv.
  destruct (check_medicine_time_extends env v
              (logged [EUi StSpinner "Checking schedule..."] w))
    as (r & evs & Hr & Hrun).
  unfold bind at 1. rewrite Hr.
  destruct r as [reply|e|]; [| | congruence].
  - rewrite run_st.
    destruct (negb (reply =? no_medicines_now)%string).
    + rewrite run_observe.
      destruct (negb (env_is_busy env _)).
      * rewrite run_emit, emit_run, !logged_logged. eexists; reflexivity.
      * unfold ret. rewrite !logged_logged. eexists; reflexivity.
    + unfold ret. rewrite !logged_logged. eexists; reflexivity.
  - rewrite st_run, !logged_logged. eexists; reflexivity.
Qed.


(** X9: when the evaluator returns a reply under the button, the reply
    is shown first; it is spoken only if it is not the "No medicines
    scheduled for now." answer and the engine is free, and when it is
    that answer the engine is not even asked. *)
Theorem check_button_speaks_a_due_reminder_only env w v reply w' :
  session w !! "vectorstore" = Some v ->
  check_medicine_time env v (logged [EUi StSpinner "Checking schedule..."] w)
  = (Done reply, w') ->
  check_button env w
  = (Done tt,
     logged ((if String.eqb reply no_medicines_now then []
              else if env_is_busy env (EUi StWrite reply :: log w') then [EIsBusy true]
                   else [ERunAndWait; ESay reply; EIsBusy false])
             ++ [EUi StWrite reply]) w').
Proof.
  intros Hv Hrun.
  unfold check_button. rewrite run_st. unfold try_except.
  rewrite (run_session_attr _ v) by exact Hv.
  unfold bind at 1. rewrite Hrun.
  rewrite run_st.
  destruct (reply =? no_medicines_now)%string; cbn [negb].
  - reflexivity.
  - rewrite run_observe. cbn [log logged app].
    destruct (env_is_busy env _); cbn [negb].
    + unfold ret. rewrite logged_logged. reflexivity.
    + rewrite run_emit, emit_run, !logged_logged. reflexivity.
Qed.

Lemma check_button_speaks_a_due_reminder_only_instance :
  check_button sample_env indexed_world
  = (Done tt,
     logged [ERunAndWait; ESay "Time to take Aspirin: 1 tablet."; EIsBusy false;
             EUi StWrite "Time to take Aspirin: 1 tablet."]
            (snd (check_medicine_time sample_env (VIndex sample_index)
                    (logged [EUi StSpinner "Checking schedule..."] indexed_world)))).
Proof.
  exact (check_button_speaks_a_due_reminder_only sample_env indexed_world
           (VIndex sample_index) "Time to take Aspirin: 1 tablet." _ eq_refl eq_refl).
Defined.

(** ** Upload *)

(** The session holds an index (a truthy [vectorstore] entry). *)
Definition has_index (w : World) : bool :=
  match session w !! "vectorstore" with
  | Some v => truthy v
  | None => false
  end.

(** What the upload page renders of the check once an index is there;
    [t] is the clock read for the subheader. *)
Definition check_controls (t : Time) : list Event :=
  [EUi StCheckbox "Enable automatic checking (every minute)";
   EUi StButton "Check Medicine Schedule";
   EUi StSubheader ("Current Time: " ++ strftime_I_M_p t);
   ENow t].

Lemma run_session_set {A} key v (f : unit -> M A) w :
  bind (session_set key v) f w
  = f tt (mkWorld (environ w) (<[key := v]> (session w)) (db w) (log w)).
Proof. reflexivity. Qed.

Lemma run_vectorstore_default {A} (f : unit -> M A) w :
  bind (if negb (bool_decide (is_Some (session w !! "vectorstore")))
        then session_set "vectorstore" VNone else ret tt) f w
  = f tt (mkWorld (environ w) (vectorstore_default (session w)) (db w) (log w)).
Proof.
  unfold vectorstore_default.
  destruct (bool_decide (is_Some (session w !! "vectorstore"))); cbn [negb];
    [destruct w|]; reflexivity.
Qed.

Lemma vectorstore_default_lookup (s : gmap string SVal) :
  vectorstore_default s !! "vectorstore"
  = Some (match s !! "vectorstore" with Some v => v | None => VNone end).
Proof.
  unfold vectorstore_default.
  destruct (s !! "vectorstore") as [v|] eqn:E.
  - rewrite bool_decide_eq_true_2 by eauto. exact E.
  - rewrite bool_decide_eq_false_2 by (intros [? ?]; discriminate).
    apply lookup_insert_eq.
Qed.

(** The upload page of a logged-in session up to the file uploader. *)
Lemma upload_page_opens env inp fuel w :
  has_api_key env w = true ->
  in_menu inp = MenuUpload ->
  logged_in w = true ->
  main env inp fuel w
  = bind (match in_pdf inp with
          | Some pdf => ingest env pdf (PageName "Upload")
          | None => ret (PageName "Upload")
          end)
         (fun page =>
            bind (session_attr "vectorstore")
                 (fun vectorstore =>
                    bind (if truthy vectorstore
                          then
                            bind (datetime_now env)
                                 (fun now =>
                                    bind (st StSubheader ("Current Time: " ++ strftime_I_M_p now))
                                         (fun _ =>
                                            bind (st StButton "Check Medicine Schedule")
                                                 (fun _ =>
                                                    bind (if in_check_button inp
                                                          then check_button env else ret tt)
                                                         (fun _ =>
                                                            bind (st StCheckbox
                                                                    "Enable automatic checking (every minute)")
                                                                 (fun _ =>
                                                                    if in_auto_check inp
                                                                    then auto_check_loop env fuel
                                                                    else ret tt)))))
                          else ret tt)
                         (fun _ => ret page)))
         (mkWorld (environ (started env w)) (vectorstore_default (session w)) (db w)
                  (upload_form ++ log (started env w))).
Proof.
  intros Hkey Hpage Hflag.
  rewrite main_started by assumption.
  destruct (started_flag env w) as (v & Hv & Ht).
  rewrite Hflag in Ht.
  rewrite Hpage; cbn [menu_label dispatch String.eqb Ascii.eqb Bool.eqb].
  unfold upload_page.
  rewrite (run_session_get _ v) by exact Hv.
  rewrite Ht; cbn [negb].
  rewrite run_st, run_session_has, run_vectorstore_default, run_st.
  unfold logged; cbn [environ session db log app].
  rewrite (session_defaults_logged_in env w Hflag).
  reflexivity.
Qed.

(** Computations that only put events on the log. *)
Definition extends {A} (m : M A) : Prop :=
  forall w, exists r evs, m w = (r, logged evs w).

Lemma logged_nil w : logged [] w = w.
Proof. destruct w; reflexivity. Qed.

Lemma extends_bind {A B} (m : M A) (k : A -> M B) :
  extends m -> (forall a, extends (k a)) -> extends (bind m k).
Proof.
  intros Hm Hk w. destruct (Hm w) as (r & evs & Hr).
  unfold bind. rewrite Hr.
  destruct r as [a|e|].
  - destruct (Hk a (logged evs w)) as (r' & evs' & Hr').
    rewrite Hr', logged_logged. eexists _, _; reflexivity.
  - eexists _, _; reflexivity.
  - eexists _, _; reflexivity.
Qed.

Lemma extends_ret {A} (a : A) : extends (ret a).
Proof. intros w. exists (Done a), []. rewrite logged_nil. reflexivity. Qed.

Lemma extends_emit e : extends (emit e).
Proof. intros w. exists (Done tt), [e]. reflexivity. Qed.

Lemma extends_session_attr key : extends (session_attr key).
Proof.
  intros w. unfold session_attr.
  destruct (session w !! key); eexists _, []; rewrite logged_nil; reflexivity.
Qed.

Lemma extends_auto_check_loop env fuel : extends (auto_check_loop env fuel).
Proof.
  induction fuel as [|fuel IH]; cbn [auto_check_loop].
  - intros w. exists Running, []. rewrite logged_nil. reflexivity.
  - apply extends_bind; [apply extends_session_attr | intros v].
    apply extends_bind.
    { intros w. destruct (check_medicine_time_extends env v w) as (r & evs & Hr & _).
      eexists _, _; exact Hr. }
    intros reminder.
    apply extends_bind; [apply extends_emit | intros _].
    apply extends_bind.
    { intros w. eexists _, [_]; reflexivity. }
    intros busy.
    apply extends_bind.
    { destruct (negb busy); [| apply extends_ret].
      apply extends_bind; [apply extends_emit | intros _; apply extends_emit]. }
    intros _.
    apply extends_bind; [apply extends_emit | intros _; exact IH].
Qed.

(** X10: a PDF whose text is extracted and indexed without error puts
    the new index in the session, in place of whatever was there,
    reports success and, in the same run and whatever the values of the
    button and of the checkbox, shows the current time, the check button
    and the checkbox.  What the pressed button does comes between the
    button and the checkbox, what the ticked checkbox starts comes after
    the checkbox, and neither touches the session or the stores.  With
    the checkbox not ticked the run ends normally, the name [page] bound
    to the last page of the PDF. *)
Theorem ingestion_stores_the_index env inp fuel w pdf pages text vs :
  has_api_key env w = true ->
  in_menu inp = MenuUpload ->
  logged_in w = true ->
  in_pdf inp = Some pdf ->
  (forall h, env_pdf_reader env h pdf = inr pages) ->
  concat_pages pages "" = inr text ->
  (forall h, env_from_texts env h (env_split_text env 1000 200 text) = inr vs) ->
  exists r t pressed ticked,
    main env inp fuel w
    = (r,
       mkWorld (environ (started env w))
               (<["vectorstore" := VIndex vs]> (vectorstore_default (session w))) (db w)
               (ticked
                ++ [EUi StCheckbox "Enable automatic checking (every minute)"]
                ++ pressed
                ++ [EUi StButton "Check Medicine Schedule";
                    EUi StSubheader ("Current Time: " ++ strftime_I_M_p t);
                    ENow t;
                    EUi StSuccess "PDF uploaded and processed successfully!";
                    EFromTexts (env_split_text env 1000 200 text); EPdfReader pdf]
                ++ upload_form ++ log (started env w)))
    /\ (in_check_button inp = false -> pressed = [])
    /\ (in_auto_check inp = false ->
        ticked = [] /\ r = Done (last_page pages (PageName "Upload"))).
Proof.
  intros Hkey Hpage Hflag Hpdf Hread Htext Hbuild.
  rewrite upload_page_opens by assumption.
  rewrite Hpdf. unfold bind at 1. unfold ingest.
  rewrite (run_external_ok _ _ pages) by apply Hread.
  unfold bind at 1. rewrite extract_pages_run, Htext.
  rewrite (run_external_ok _ _ vs) by apply Hbuild.
  rewrite run_session_set, run_st. unfold ret at 1.
  rewrite (run_session_attr _ (VIndex vs)) by apply lookup_insert_eq.
  cbn [truthy].
  rewrite run_bind, run_now, run_bind, run_st, run_bind, run_st, run_bind.
  unfold logged; cbn [environ session db log app].
  match goal with
  | |- context [ENow ?t0] => set (t := t0)
  end.
  match goal with
  | |- context [bind (if in_check_button inp then _ else _) _ ?W0] => set (W := W0)
  end.
  assert (Hpressed : exists pressed,
                 (if in_check_button inp then check_button env else ret tt) W
                 = (Done tt, logged pressed W)
                 /\ (in_check_button inp = false -> pressed = [])).
  { destruct (in_check_button inp).
    - destruct (check_button_extends env W) as (evs & Hb).
      exists evs. split; [exact Hb | discriminate].
    - exists []. split; [rewrite logged_nil; reflexivity | reflexivity]. }
  destruct Hpressed as (pressed & Hb & Hnone).
  unfold bind at 1. rewrite Hb.
  rewrite run_bind, run_st.
  rewrite logged_logged.
  assert (Hticked : exists r ticked,
                 (if in_auto_check inp then auto_check_loop env fuel else ret tt)
                   (logged ([EUi StCheckbox "Enable automatic checking (every minute)"] ++ pressed) W)
                 = (r, logged ticked (logged ([EUi StCheckbox "Enable automatic checking (every minute)"] ++ pressed) W))
                 /\ (in_auto_check inp = false -> ticked = [] /\ r = Done tt)).
  { destruct (in_auto_check inp).
    - destruct (extends_auto_check_loop env fuel (logged ([EUi StCheckbox "Enable automatic checking (every minute)"] ++ pressed) W)) as (r & evs & Hl).
      exists r, evs. split; [exact Hl | discriminate].
    - exists (Done tt), []. split; [rewrite logged_nil; reflexivity | split; reflexivity]. }
  destruct Hticked as (r & ticked & Hl & Hoff).
  unfold bind at 1. rewrite Hl.
  exists (match r with Done _ => Done (last_page pages (PageName "Upload"))
                  | Raised e => Raised e | Running => Running end).
  exists t, pressed, ticked.
  split; [| split; [exact Hnone|]].
  - rewrite logged_logged. subst W. unfold logged, ret; cbn [environ session db log].
    rewrite <- !app_assoc. cbn [app].
    destruct r as [[]|e|]; reflexivity.
  - intros Hauto. destruct (Hoff Hauto) as [-> ->]. split; reflexivity.
Qed.

(** A prescription with one page of text, read and indexed without
    error. *)
Definition typed_pdf : UploadedFile := mkUpload "typed.pdf" "%PDF-1.7".

Definition reading_env : Env :=
  mkEnv (fun e => e) (fun _ => mkTime 9 41) (fun _ => inr tt)
        (fun _ vs _ => inr (map mkDocument (index_chunks vs)))
        (fun _ _ => inr "Time to take Aspirin: 1 tablet.")
        (fun _ => false)
        (fun _ _ => inr [mkPage (inr "Aspirin 1 tablet at 09:00")])
        sample_split (fun _ => sample_from_texts)
        (fun _ => inr tt) (fun _ => inr (mkAudio [])) (fun _ _ => inr "refill my medicine").

Lemma ingestion_stores_the_index_instance :
  exists r t pressed ticked,
    main reading_env (upload_visit (Some typed_pdf) true false) 0 alice_world
    = (r,
       mkWorld api_key
               (<["vectorstore" := VIndex (mkIndex ["Aspirin 1 tablet at 09:00"])]>
                  (<["vectorstore" := VNone]> alice_session))
               alice_db
               (ticked
                ++ [EUi StCheckbox "Enable automatic checking (every minute)"]
                ++ pressed
                ++ [EUi StButton "Check Medicine Schedule";
                    EUi StSubheader ("Current Time: " ++ strftime_I_M_p t);
                    ENow t;
                    EUi StSuccess "PDF uploaded and processed successfully!";
                    EFromTexts ["Aspirin 1 tablet at 09:00"]; EPdfReader typed_pdf]
                ++ upload_form ++ log (started reading_env alice_world)))
    /\ (in_check_button (upload_visit (Some typed_pdf) true false) = false -> pressed = [])
    /\ (in_auto_check (upload_visit (Some typed_pdf) true false) = false ->
        ticked = [] /\ r = Done (PageOfPdf (mkPage (inr "Aspirin 1 tablet at 09:00")))).
Proof.
  exact (ingestion_stores_the_index reading_env (upload_visit (Some typed_pdf) true false)
           0 alice_world typed_pdf [mkPage (inr "Aspirin 1 tablet at 09:00")]
           "Aspirin 1 tablet at 09:00" (mkIndex ["Aspirin 1 tablet at 09:00"])
           eq_refl eq_refl eq_refl eq_refl (fun _ => eq_refl) eq_refl (fun _ => eq_refl)).
Defined.

(** X11: without an index in the session and without an upload, the
    upload page offers the uploader and nothing else: no check button,
    no automatic check and no call of the evaluator, whatever the values
    of those two controls; the session's [vectorstore] entry is None if
    it had none. *)
Theorem no_index_no_check env inp fuel w :
  has_api_key env w = true ->
  in_menu inp = MenuUpload ->
  logged_in w = true ->
  in_pdf inp = None ->
  has_index w = false ->
  main env inp fuel w
  = (Done (PageName "Upload"),
     mkWorld (environ (started env w)) (vectorstore_default (session w)) (db w)
             (upload_form ++ log (started env w))).
Proof.
  intros Hkey Hpage Hflag Hpdf Hindex.
  rewrite upload_page_opens by assumption.
  rewrite Hpdf, run_ret.
  rewrite (run_session_attr _ _) by apply vectorstore_default_lookup.
  unfold has_index in Hindex.
  destruct (session w !! "vectorstore") as [v|]; cbn [truthy]; [rewrite Hindex|];
    reflexivity.
Qed.

Lemma no_index_no_check_instance :
  main sample_env (upload_visit None true true) 4 alice_world
  = (Done (PageName "Upload"),
     mkWorld api_key (<["vectorstore" := VNone]> alice_session) alice_db
             (upload_form ++ log (started sample_env alice_world))).
Proof.
  exact (no_index_no_check sample_env (upload_visit None true true) 4 alice_world
           eq_refl eq_refl eq_refl eq_refl eq_refl).
Defined.

(** ** Login and registration *)

(** X12: when [login_user] returns a row, the login page sets the
    session's flag, records the row's user name ([user[1]]) as the
    session user, and greets with the name that was typed; [page] is
    rebound to the Home label, but the run ends there without rendering
    the Home page. *)
Theorem successful_login_opens_the_session env inp fuel w row :
  has_api_key env w = true ->
  in_menu inp = MenuLogin ->
  in_login_button inp = true ->
  Db.login_user (in_login_username inp) (in_login_password inp) (db w) = Some row ->
  main env inp fuel w
  = (Done (PageName "Home"),
     mkWorld (environ (started env w))
             (<["user" := VStr (Db.username row)]>
                (<["logged_in" := VBool true]> (session (started env w))))
             (db w)
             (EUi StSuccess ("Welcome " ++ in_login_username inp ++ "!")
              :: EDb (Db.LoginUser (in_login_username inp) (in_login_password inp))
              :: login_form ++ log (started env w))).
Proof.
  intros Hkey Hpage Hbtn Hrow.
  rewrite main_started by assumption.
  rewrite Hpage; cbn [menu_label dispatch String.eqb Ascii.eqb Bool.eqb].
  unfold login_page. cbv zeta.
  rewrite !run_st. rewrite Hbtn.
  unfold bind at 1. unfold login_user, db_query, db_call. cbn [db logged started].
  rewrite Hrow.
  rewrite !run_session_set, run_st.
  reflexivity.
Qed.

Lemma successful_login_opens_the_session_instance :
  main sample_env (login_attempt "alice" "pw1") 0 visitor_world
  = (Done (PageName "Home"),
     mkWorld api_key
             (<["user" := VStr "alice"]>
                (<["logged_in" := VBool true]> (session (started sample_env visitor_world))))
             alice_db
             (EUi StSuccess "Welcome alice!" :: EDb (Db.LoginUser "alice" "pw1")
              :: login_form ++ log (started sample_env visitor_world))).
Proof.
  exact (successful_login_opens_the_session sample_env (login_attempt "alice" "pw1") 0
           visitor_world (Db.mkUser 1 "alice" "pw1") eq_refl eq_refl eq_refl eq_refl).
Defined.

(** X13: a registration whose two passwords agree calls [register_user]
    once, with the user name and the password typed, and reports what it
    answered: success, or that the user name already exists; the session
    is not touched (registering does not log in). *)
Theorem matching_passwords_call_register_user env inp fuel w :
  has_api_key env w = true ->
  in_menu inp = MenuRegister ->
  in_register_button inp = true ->
  in_password inp = in_confirm_password inp ->
  main env inp fuel w
  = (Done (PageName "Register"),
     mkWorld (environ (started env w)) (session (started env w))
             (snd (Db.register_user (in_username inp) (in_password inp) (db w)))
             ((if fst (Db.register_user (in_username inp) (in_password inp) (db w))
               then EUi StSuccess ("User " ++ in_username inp ++ " registered successfully!")
               else EUi StError "Username already exists!")
              :: EDb (Db.RegisterUser (in_username inp) (in_password inp))
              :: register_form ++ log (started env w))).
Proof.
  intros Hkey Hpage Hbtn Hsame.
  rewrite main_started by assumption.
  rewrite Hpage; cbn [menu_label dispatch String.eqb Ascii.eqb Bool.eqb].
  unfold register_page. cbv zeta.
  rewrite !run_st. rewrite Hbtn, <- Hsame, String.eqb_refl. cbn [negb].
  unfold bind, register_user, db_call. cbn [db logged started].
  destruct (Db.register_user (in_username inp) (in_password inp) (db w)) as [[|] d'];
    reflexivity.
Qed.

Lemma matching_passwords_call_register_user_instance :
  main sample_env (registration "alice" "pw2" "pw2") 0 visitor_world
  = (Done (PageName "Register"),
     mkWorld api_key (session (started sample_env visitor_world)) alice_db
             (EUi StError "Username already exists!"
              :: EDb (Db.RegisterUser "alice" "pw2")
              :: register_form ++ log (started sample_env visitor_world))).
Proof.
  exact (matching_passwords_call_register_user sample_env (registration "alice" "pw2" "pw2")
           0 visitor_world eq_refl eq_refl eq_refl eq_refl).
Defined.

(** ** Dashboard *)

(** The times of day an entry is scheduled for. *)
Definition doses_per_day (item : Db.MedicineScheduleEntry) : nat :=
  Nat.b2n (Db.morning item) + Nat.b2n (Db.afternoon item) + Nat.b2n (Db.night item).

(** The entry has the time of day [t] ticked. *)
Definition ticked (t : string) (item : Db.MedicineScheduleEntry) : bool :=
  (String.eqb t "Morning" && Db.morning item)
  || (String.eqb t "Afternoon" && Db.afternoon item)
  || (String.eqb t "Night" && Db.night item).

(** The entry is named [n], has dosage [d] and has [t] ticked. *)
Definition charted (n t d : string) (item : Db.MedicineScheduleEntry) : bool :=
  String.eqb (Db.medicine_name item) n && String.eqb (Db.dosage item) d && ticked t item.

(** The row is [(n, t, d)]. *)
Definition is_row (n t d : string) (row : string * string * string) : bool :=
  let '(n', t', d') := row in
  String.eqb n' n && String.eqb d' d && String.eqb t t'.

(** X14: the chart's data has one row per ticked time of day of each
    entry: the rows number the ticked times of the schedule; a row
    [(n, t, d)] occurs as many times as there are entries named [n] with
    dosage [d] and time [t] ticked, so each row is credited to its own
    entry and time; an entry with no time of day ticked contributes no
    row; and the rows follow the order of the entries. *)
Theorem chart_rows_count schedule :
  length (chart_rows schedule) = list_sum (map doses_per_day schedule)
  /\ (forall n t d,
        length (List.filter (is_row n t d) (chart_rows schedule))
        = length (List.filter (charted n t d) schedule))
  /\ (forall xs item ys,
        doses_per_day item = 0 ->
        chart_rows (xs ++ item :: ys) = chart_rows (xs ++ ys))
  /\ (forall xs ys, chart_rows (xs ++ ys) = (chart_rows xs ++ chart_rows ys)%list).
Proof.
  split; [| split; [| split]].
  - unfold chart_rows.
    induction schedule as [|item rest IH]; [reflexivity|].
    cbn [flat_map map list_sum].
    rewrite length_app, IH. f_equal.
    unfold doses_per_day.
    destruct (Db.morning item), (Db.afternoon item), (Db.night item); reflexivity.
  - intros n t d. unfold chart_rows.
    induction schedule as [|item rest IH]; [reflexivity|].
    cbn [flat_map List.filter].
    rewrite List.filter_app, length_app, IH.
    assert (Hitem : forall k,
               length (List.filter (is_row n t d)
                  ((if Db.morning item
                    then [(Db.medicine_name item, "Morning", Db.dosage item)] else [])
                   ++ (if Db.afternoon item
                       then [(Db.medicine_name item, "Afternoon", Db.dosage item)] else [])
                   ++ (if Db.night item
                       then [(Db.medicine_name item, "Night", Db.dosage item)] else []))%list)
               + k
               = length (if charted n t d item then item :: @nil Db.MedicineScheduleEntry else []) + k).
    { intros k. f_equal.
      assert (Ht : t = "Morning" \/ t = "Afternoon" \/ t = "Night"
                   \/ (String.eqb t "Morning" = false /\ String.eqb t "Afternoon" = false
                       /\ String.eqb t "Night" = false)).
      { destruct (String.eqb_spec t "Morning"); [tauto|].
        destruct (String.eqb_spec t "Afternoon"); [tauto|].
        destruct (String.eqb_spec t "Night"); tauto. }
      unfold charted, ticked, is_row.
      destruct (Db.morning item), (Db.afternoon item), (Db.night item);
        cbn [app List.filter];
        destruct (String.eqb (Db.medicine_name item) n), (String.eqb (Db.dosage item) d);
        destruct Ht as [-> | [-> | [-> | (Hm & Ha & Hn)]]];
        rewrite ?Hm, ?Ha, ?Hn; reflexivity. }
    rewrite Hitem.
    destruct (charted n t d item); reflexivity.
  - intros xs item ys Hzero. unfold chart_rows.
    rewrite !flat_map_app. cbn [flat_map].
    unfold doses_per_day in Hzero.
    destruct (Db.morning item), (Db.afternoon item), (Db.night item);
      try discriminate Hzero.
    reflexivity.
  - intros xs ys. unfold chart_rows. apply flat_map_app.
Qed.

(** What the dashboard renders above the schedule overview, for the
    given counts. *)
Definition dashboard_metrics (total_medicines active_reminders : nat) (user : SVal)
    : list Event :=
  [EUi StSubheader "Medication Schedule Overview";
   EUi StMarkdown "</div>";
   EUi StMarkdown "<div class='metric-label'>Active Reminders</div>";
   EUi StMarkdown (metric_value active_reminders
                     "https://img.icons8.com/ios-filled/50/FF5722/alarm.png");
   EUi StMarkdown "</div>";
   EUi StMarkdown "<div class='metric-label'>Total Medicines</div>";
   EUi StMarkdown (metric_value total_medicines
                     "https://img.icons8.com/ios-filled/50/FFEB3B/pill.png");
   EUi StColumns "2";
   EDb (Db.GetReminders user);
   EDb (Db.GetMedicineSchedule user);
   EUi StMarkdown dashboard_css;
   EUi StSubheader "Quick Overview";
   EUi StMarkdown dashboard_header].

Lemma run_get_reminders {A} owner (f : list Db.ReminderRow -> M A) w :
  bind (get_reminders owner) f w
  = f (Db.get_reminders owner (db w)) (logged [EDb (Db.GetReminders owner)] w).
Proof. reflexivity. Qed.

(** X15: for a logged-in user with an empty schedule the dashboard
    completes: it shows a medicine count of 0 and the count of the
    user's reminders, draws no chart, lists no schedule, and shows the
    "No medication schedule available yet" note twice, once in the
    overview and once in place of the schedule list. *)
Theorem dashboard_of_an_empty_schedule env inp fuel w user :
  has_api_key env w = true ->
  in_menu inp = MenuDashboard ->
  logged_in w = true ->
  session w !! "user" = Some user ->
  Db.get_medicine_schedule user (db w) = [] ->
  main env inp fuel w
  = (Done (PageName "Dashboard"),
     logged ([EUi StInfo no_schedule_yet;
              EUi StWrite "**Explore your reminders and medication schedule to stay on top of your health!**";
              EUi StInfo no_schedule_yet;
              EDb (Db.GetMedicineSchedule user)]
             ++ dashboard_metrics 0 (length (Db.get_reminders user (db w))) user)
            (started env w)).
Proof.
  intros Hkey Hpage Hflag Huser Hempty.
  rewrite main_started by assumption.
  destruct (started_flag env w) as (v & Hv & Ht).
  rewrite Hflag in Ht.
  pose proof (session_defaults_logged_in env w Hflag) as Hsess.
  assert (Hu : forall evs, session (logged evs (started env w)) !! "user" = Some user)
    by (intros evs; cbn [session logged]; rewrite Hsess; exact Huser).
  rewrite Hpage; cbn [menu_label dispatch String.eqb Ascii.eqb Bool.eqb].
  unfold dashboard_page. cbv zeta.
  rewrite (run_session_get _ v) by exact Hv.
  rewrite Ht; cbn [negb].
  rewrite !run_st, !logged_logged.
  rewrite (run_session_get _ user) by apply Hu.
  rewrite run_get_medicine_schedule, logged_logged.
  rewrite (run_session_get _ user) by apply Hu.
  rewrite run_get_reminders, logged_logged.
  cbn [db logged started]. rewrite Hempty. cbn [length].
  rewrite !run_st, !logged_logged.
  rewrite (run_session_get _ user) by apply Hu.
  rewrite run_get_medicine_schedule, logged_logged.
  cbn [db logged started]. rewrite Hempty. cbn [nonempty negb].
  rewrite !run_st, !logged_logged.
  reflexivity.
Qed.

Lemma dashboard_of_an_empty_schedule_instance :
  main sample_env (visit MenuDashboard) 0 alice_world
  = (Done (PageName "Dashboard"),
     logged ([EUi StInfo no_schedule_yet;
              EUi StWrite "**Explore your reminders and medication schedule to stay on top of your health!**";
              EUi StInfo no_schedule_yet;
              EDb (Db.GetMedicineSchedule (VStr "alice"))]
             ++ dashboard_metrics 0 0 (VStr "alice"))
            (started sample_env alice_world)).
Proof.
  exact (dashboard_of_an_empty_schedule sample_env (visit MenuDashboard) 0 alice_world
           (VStr "alice") eq_refl eq_refl eq_refl eq_refl eq_refl).
Defined.

(** ** Voice recognition *)

(** What the voice page has logged when it starts to listen. *)
Definition recording_opening : list Event :=
  [EListen 3; EUi StWrite "Say something!"; EAdjustForAmbientNoise;
   EUi StWrite "Adjusting for ambient noise..."; EMicrophone;
   EUi StButton "Start Recording"; EUi StHeader "Voice Recognition (Experimental)"].

(** The voice page of a logged-in session with the recording started,
    up to the call of [listen]. *)
Lemma voice_page_listens env inp fuel w :
  has_api_key env w = true ->
  in_menu inp = MenuVoice ->
  logged_in w = true ->
  in_start_recording inp = true ->
  (forall h, env_microphone env h = inr tt) ->
  main env inp fuel w
  = match env_listen env (recording_opening ++ log (started env w)) with
    | inl e => (Raised e, logged recording_opening (started env w))
    | inr audio =>
        bind (try_except
                (bind (st StWrite "Recognizing speech...")
                   (fun _ =>
                      bind (external (ERecognizeGoogle audio)
                                     (fun h => env_recognize_google env h audio))
                        (fun text =>
                           bind (st StWrite ("You said: " ++ text))
                             (fun _ =>
                                bind (emit (EFileWrite "recognized_speech.txt" text))
                                  (fun _ =>
                                     bind (st StSuccess
                                             "Recognized text has been saved to 'recognized_speech.txt'.")
                                       (fun _ =>
                                          if contains "medicine" (lower text)
                                          then
                                            bind (st StWrite
                                                    "You mentioned a medicine. Would you like to search or set a reminder?")
                                              (fun _ =>
                                                 bind (st StButton "Set Reminder for Mentioned Medicine")
                                                   (fun _ =>
                                                      if in_set_reminder_button inp
                                                      then st StWrite ("Setting a reminder for "
                                                                       ++ text ++ "... (Demo)")
                                                      else ret tt))
                                          else ret tt))))))
                (fun e =>
                   match exc_class e with
                   | UnknownValueError =>
                       st StError "Google Speech Recognition could not understand the audio."
                   | RequestError =>
                       st StError ("Could not request results from Google Speech Recognition; "
                                   ++ exc_msg e)
                   | _ => raise e
                   end))
             (fun _ => ret (PageName "Voice Recognition"))
             (logged recording_opening (started env w))
    end.
Proof.
  intros Hkey Hpage Hflag Hrec Hmic.
  rewrite main_started by assumption.
  destruct (started_flag env w) as (v & Hv & Ht).
  rewrite Hflag in Ht.
  rewrite Hpage; cbn [menu_label dispatch String.eqb Ascii.eqb Bool.eqb].
  unfold voice_page.
  rewrite (run_session_get _ v) by exact Hv.
  rewrite Ht; cbn [negb].
  rewrite !run_st, Hrec.
  rewrite run_bind, (run_external_ok _ _ tt) by apply Hmic.
  rewrite run_bind, run_st, run_bind, run_emit, run_bind, run_st.
  rewrite !logged_logged. cbn [app].
  rewrite run_bind.
  unfold bind at 1, external. cbn [log logged environ session db].
  unfold recording_opening. cbn [app].
  destruct (env_listen env _); reflexivity.
Qed.

(** X16: an exception of [listen] (no speech within its three seconds,
    say) is not handled: it is raised outside the [try] and leaves the
    page handler, with no error message and nothing recognised or
    written. *)
Theorem listen_failure_escapes env inp fuel w e :
  has_api_key env w = true ->
  in_menu inp = MenuVoice ->
  logged_in w = true ->
  in_start_recording inp = true ->
  (forall h, env_microphone env h = inr tt) ->
  (forall h, env_listen env h = inl e) ->
  main env inp fuel w = (Raised e, logged recording_opening (started env w)).
Proof.
  intros Hkey Hpage Hflag Hrec Hmic Hlisten.
  rewrite voice_page_listens by assumption.
  rewrite Hlisten. reflexivity.
Qed.

(** Nobody speaks within the timeout. *)
Definition silent_env : Env :=
  mkEnv (fun e => e) (fun _ => mkTime 9 41) (fun _ => inr tt)
        (fun _ vs _ => inr (map mkDocument (index_chunks vs)))
        (fun _ _ => inr "Time to take Aspirin: 1 tablet.")
        (fun _ => false) (fun _ _ => inr [mkPage (inr "")])
        sample_split (fun _ => sample_from_texts)
        (fun _ => inr tt)
        (fun _ => inl (Exc WaitTimeoutError "listening timed out"))
        (fun _ _ => inr "refill my medicine").

(** The voice page with the recording started. *)
Definition recording : Inputs :=
  mkInputs MenuVoice "" "" false "" "" "" false
           (mkMedicineForm "" false false false "" false) (fun _ => no_edit)
           (mkReminderForm 0 (mkTime 8 0) false) (fun _ => no_reminder_edit)
           None false false true false.

Lemma listen_failure_escapes_instance :
  main silent_env recording 0 alice_world
  = (Raised (Exc WaitTimeoutError "listening timed out"),
     logged recording_opening (started silent_env alice_world)).
Proof.
  exact (listen_failure_escapes silent_env recording 0 alice_world
           (Exc WaitTimeoutError "listening timed out")
           eq_refl eq_refl eq_refl eq_refl (fun _ => eq_refl) (fun _ => eq_refl)).
Defined.

(** X17: when the recognition service raises, the page shows an error
    and completes if the exception is an UnknownValueError or a
    RequestError (whose message it appends); an exception of any other
    class leaves the page handler.  In no case is anything written to
    the file. *)
Theorem recognition_failure_is_shown_by_class env inp fuel w audio e :
  has_api_key env w = true ->
  in_menu inp = MenuVoice ->
  logged_in w = true ->
  in_start_recording inp = true ->
  (forall h, env_microphone env h = inr tt) ->
  (forall h, env_listen env h = inr audio) ->
  (forall h, env_recognize_google env h audio = inl e) ->
  main env inp fuel w
  = (match exc_class e with
     | UnknownValueError | RequestError => Done (PageName "Voice Recognition")
     | _ => Raised e
     end,
     logged ((match exc_class e with
              | UnknownValueError =>
                  [EUi StError "Google Speech Recognition could not understand the audio."]
              | RequestError =>
                  [EUi StError ("Could not request results from Google Speech Recognition; "
                                ++ exc_msg e)]
              | _ => []
              end)
             ++ [ERecognizeGoogle audio; EUi StWrite "Recognizing speech..."]
             ++ recording_opening)
            (started env w)).
Proof.
  intros Hkey Hpage Hflag Hrec Hmic Hlisten Hrecog.
  rewrite voice_page_listens by assumption.
  rewrite Hlisten.
  unfold bind at 1, try_except.
  rewrite run_st.
  rewrite (run_external_raises _ _ e) by apply Hrecog.
  rewrite !logged_logged.
  destruct (exc_class e); reflexivity.
Qed.

(** The recognition service cannot be reached. *)
Definition offline_env : Env :=
  mkEnv (fun e => e) (fun _ => mkTime 9 41) (fun _ => inr tt)
        (fun _ vs _ => inr (map mkDocument (index_chunks vs)))
        (fun _ _ => inr "Time to take Aspirin: 1 tablet.")
        (fun _ => false) (fun _ _ => inr [mkPage (inr "")])
        sample_split (fun _ => sample_from_texts)
        (fun _ => inr tt)
        (fun _ => inr (mkAudio [3; 1; 4]))
        (fun _ _ => inl (Exc RequestError "recognition connection failed")).

Lemma recognition_failure_is_shown_by_class_instance :
  main offline_env recording 0 alice_world
  = (Done (PageName "Voice Recognition"),
     logged ([EUi StError
                "Could not request results from Google Speech Recognition; recognition connection failed"]
             ++ [ERecognizeGoogle (mkAudio [3; 1; 4]); EUi StWrite "Recognizing speech..."]
             ++ recording_opening)
            (started offline_env alice_world)).
Proof.
  exact (recognition_failure_is_shown_by_class offline_env recording 0 alice_world
           (mkAudio [3; 1; 4]) (Exc RequestError "recognition connection failed")
           eq_refl eq_refl eq_refl eq_refl
           (fun _ => eq_refl) (fun _ => eq_refl) (fun _ => eq_refl)).
Defined.

(** ** Schedule and reminders *)

Lemma run_db_call {A B} c (g : Db.t -> A * Db.t) (f : A -> M B) w :
  bind (db_call c g) f w
  = f (fst (g (db w)))
      (mkWorld (environ w) (session w) (snd (g (db w))) (EDb c :: log w)).
Proof. unfold bind, db_call. destruct (g (db w)); reflexivity. Qed.

Lemma db_call_run {A} c (g : Db.t -> A * Db.t) w :
  db_call c g w
  = (Done (fst (g (db w))),
     mkWorld (environ w) (session w) (snd (g (db w))) (EDb c :: log w)).
Proof. unfold db_call. destruct (g (db w)); reflexivity. Qed.

Lemma filter_find {A} (f : A -> bool) l x :
  List.find f l = Some x -> exists rest, List.filter f l = x :: rest.
Proof.
  induction l as [|y l IH]; cbn; [discriminate|].
  destruct (f y) eqn:E.
  - intros H; inversion H; subst. eexists; reflexivity.
  - exact IH.
Qed.

(** Reduces "the event is in the final log" to: it is in the log now, and
    the rest of the run only adds to the log. *)
Ltac stays_logged :=
  match goal with
  | |- In ?e (log (snd (?m ?w))) =>
      refine ((_ : keeps (has_logged e) m) w _);
      [ cbv delta [schedule_item reminder_item get_medicine_schedule get_reminders
                   store_medicine_schedule update_medicine_schedule
                   delete_medicine_schedule store_reminder update_reminder
                   delete_reminder];
        cbv beta; keep
      | cbn; auto ]
  end.

(** X18: a submitted add form that has both a medicine name and a dosage
    is stored once the form is read: [store_medicine_schedule] is called
    for the session's user with exactly the name, the three time-of-day
    boxes and the dosage of the form, and the success message is shown,
    however the rest of the page goes. *)
Theorem complete_medicine_form_is_stored env inp fuel w user :
  has_api_key env w = true ->
  in_menu inp = MenuSchedule ->
  logged_in w = true ->
  session w !! "user" = Some user ->
  mf_submitted (in_medicine_form inp) = true ->
  str_truthy (mf_medicine_name (in_medicine_form inp)) = true ->
  str_truthy (mf_dosage (in_medicine_form inp)) = true ->
  In (EDb (Db.StoreMedicineSchedule user
             (Db.mkEntry (mf_medicine_name (in_medicine_form inp))
                         (mf_morning (in_medicine_form inp))
                         (mf_afternoon (in_medicine_form inp))
                         (mf_night (in_medicine_form inp))
                         (mf_dosage (in_medicine_form inp)))))
     (log (snd (main env inp fuel w)))
  /\ In (EUi StSuccess ("Medicine '" ++ mf_medicine_name (in_medicine_form inp)
                        ++ "' schedule added successfully!"))
        (log (snd (main env inp fuel w))).
Proof.
  intros Hkey Hpage Hflag Huser Hsub Hname Hdose.
  remember (main env inp fuel w) as r eqn:Hr.
  rewrite main_started in Hr by assumption.
  destruct (started_flag env w) as (v & Hv & Ht).
  rewrite Hflag in Ht.
  pose proof (session_defaults_logged_in env w Hflag) as Hsess.
  rewrite Hpage in Hr; cbn [menu_label dispatch String.eqb Ascii.eqb Bool.eqb] in Hr.
  unfold schedule_page in Hr.
  rewrite (run_session_get _ v) in Hr by exact Hv.
  rewrite Ht in Hr; cbn [negb] in Hr. cbv zeta in Hr.
  rewrite !run_st in Hr.
  rewrite run_st_form in Hr by reflexivity.
  rewrite !run_st, !logged_logged in Hr.
  rewrite Hsub, Hname, Hdose in Hr. cbn [andb] in Hr.
  rewrite run_bind, (run_session_get _ user) in Hr
    by (cbn [session logged]; rewrite Hsess; exact Huser).
  unfold store_medicine_schedule at 1, db_update at 1 in Hr.
  rewrite run_bind, run_db_call in Hr. cbv beta in Hr.
  rewrite run_st in Hr.
  subst r. split; stays_logged.
Qed.

Lemma complete_medicine_form_is_stored_instance :
  In (EDb (Db.StoreMedicineSchedule (VStr "alice")
             (Db.mkEntry "Aspirin" true false false "1 tablet")))
     (log (snd (main sample_env (medicine_submission "Aspirin" "1 tablet") 0 alice_world)))
  /\ In (EUi StSuccess "Medicine 'Aspirin' schedule added successfully!")
        (log (snd (main sample_env (medicine_submission "Aspirin" "1 tablet") 0 alice_world))).
Proof.
  exact (complete_medicine_form_is_stored sample_env
           (medicine_submission "Aspirin" "1 tablet") 0 alice_world (VStr "alice")
           eq_refl eq_refl eq_refl eq_refl eq_refl eq_refl eq_refl).
Defined.

(** *** The listing and the reminder form *)

(** The form keys of the entries listed so far, latest first. *)
Definition item_forms (names : list string) : list string :=
  flat_map (fun n => ["delete_form_" ++ n; "edit_form_" ++ n]) names.

(** The forms of the run when the entries named [seen] have been listed
    under the add form. *)
Definition listing (seen : list string) (w : World) : Prop :=
  forms_this_run (log w) = (item_forms seen ++ ["medicine_form"])%list.

Lemma item_forms_cons n seen :
  (item_forms (n :: seen) ++ ["medicine_form"])%list
  = ("delete_form_" ++ n) :: ("edit_form_" ++ n) :: (item_forms seen ++ ["medicine_form"])%list.
Proof. reflexivity. Qed.

Lemma edit_form_listed name seen :
  existsb (String.eqb ("edit_form_" ++ name)) (item_forms seen ++ ["medicine_form"])
  = existsb (String.eqb name) seen.
Proof.
  induction seen as [|n seen IH]; [reflexivity|].
  rewrite item_forms_cons. cbn [existsb]. rewrite IH.
  change (String.eqb ("edit_form_" ++ name) ("delete_form_" ++ n)) with false.
  change (String.eqb ("edit_form_" ++ name) ("edit_form_" ++ n)) with (String.eqb name n).
  reflexivity.
Qed.

Lemma delete_form_listed name seen :
  existsb (String.eqb ("delete_form_" ++ name)) (item_forms seen ++ ["medicine_form"])
  = existsb (String.eqb name) seen.
Proof.
  induction seen as [|n seen IH]; [reflexivity|].
  rewrite item_forms_cons. cbn [existsb]. rewrite IH.
  change (String.eqb ("delete_form_" ++ name) ("edit_form_" ++ n)) with false.
  change (String.eqb ("delete_form_" ++ name) ("delete_form_" ++ n)) with (String.eqb name n).
  reflexivity.
Qed.

Lemma reminder_form_not_listed seen :
  existsb (String.eqb "reminder_form") (item_forms seen ++ ["medicine_form"]) = false.
Proof.
  induction seen as [|n seen IH]; [reflexivity|].
  rewrite item_forms_cons. cbn [existsb]. rewrite IH. reflexivity.
Qed.

Lemma existsb_eqb_in name seen :
  existsb (String.eqb name) seen = true <-> In name seen.
Proof.
  rewrite existsb_exists. split.
  - intros (x & Hin & Heq). apply String.eqb_eq in Heq. subst. exact Hin.
  - intros Hin. exists name. split; [exact Hin | apply String.eqb_refl].
Qed.

Lemma existsb_eqb_fresh name seen :
  ~ In name seen -> existsb (String.eqb name) seen = false.
Proof.
  intros H. destruct (existsb (String.eqb name) seen) eqn:E; [|reflexivity].
  apply existsb_eqb_in in E. contradiction.
Qed.

(** One entry's expander, with its edit and delete forms, comes back and
    leaves the session alone when the entry's name has not been listed
    before. *)
Lemma schedule_item_returns inp item w user seen :
  session w !! "user" = Some user ->
  listing seen w ->
  ~ In (Db.medicine_name item) seen ->
  exists w', schedule_item inp item w = (Done tt, w')
             /\ session w' = session w
             /\ listing (Db.medicine_name item :: seen) w'.
Proof.
  intros Hu Hforms Hfresh.
  apply existsb_eqb_fresh in Hfresh.
  unfold listing in *.
  unfold schedule_item. cbv zeta.
  rewrite !run_st, !logged_logged.
  rewrite run_st_form
    by (cbn [log logged app forms_this_run]; rewrite Hforms, edit_form_listed; exact Hfresh).
  rewrite !run_st, !logged_logged.
  assert (Hdelete : forall l d,
             forms_this_run l = ("edit_form_" ++ Db.medicine_name item)
                                :: (item_forms seen ++ ["medicine_form"])%list ->
             exists w',
               bind (st_form ("delete_form_" ++ Db.medicine_name item))
                    (fun _ =>
                       bind (st StFormSubmitButton "Delete")
                            (fun _ =>
                               if ef_delete_submitted (in_edit_form inp (Db.medicine_name item))
                               then
                                 bind (session_get "user")
                                      (fun user0 =>
                                         bind (delete_medicine_schedule user0
                                                 (Db.medicine_name item))
                                              (fun _ =>
                                                 st StSuccess
                                                    ("Medicine '" ++ Db.medicine_name item
                                                     ++ "' deleted successfully!")))
                               else ret tt))
                    (mkWorld (environ w) (session w) d l)
               = (Done tt, w')
               /\ session w' = session w
               /\ forms_this_run (log w')
                  = (item_forms (Db.medicine_name item :: seen) ++ ["medicine_form"])%list).
  { intros l d Hl.
    rewrite run_st_form.
    2: { cbn [log]. rewrite Hl. cbn [existsb].
         change (String.eqb ("delete_form_" ++ Db.medicine_name item)
                            ("edit_form_" ++ Db.medicine_name item)) with false.
         rewrite delete_form_listed. exact Hfresh. }
    rewrite run_st.
    destruct (ef_delete_submitted _).
    - rewrite (run_session_get _ user) by exact Hu.
      unfold delete_medicine_schedule, db_update.
      rewrite run_db_call, st_run.
      eexists. split; [reflexivity|]. split; [reflexivity|].
      cbn [log logged app forms_this_run]. rewrite Hl. reflexivity.
    - eexists. split; [reflexivity|]. split; [reflexivity|].
      cbn [log logged app forms_this_run]. rewrite Hl. reflexivity. }
  destruct (ef_update_submitted _).
  - rewrite run_bind, (run_session_get _ user) by exact Hu.
    unfold update_medicine_schedule, db_update.
    rewrite run_bind, run_db_call, run_st.
    apply Hdelete.
    cbn [log logged app forms_this_run]. rewrite Hforms. reflexivity.
  - rewrite run_ret.
    apply Hdelete.
    cbn [log logged app forms_this_run]. rewrite Hforms. reflexivity.
Qed.

Lemma schedule_items_return inp schedule : forall w user seen,
  session w !! "user" = Some user ->
  listing seen w ->
  List.NoDup (map Db.medicine_name schedule) ->
  (forall n, In n (map Db.medicine_name schedule) -> ~ In n seen) ->
  exists w', for_each schedule (schedule_item inp) w = (Done tt, w')
             /\ session w' = session w
             /\ listing (rev (map Db.medicine_name schedule) ++ seen) w'.
Proof.
  induction schedule as [|item rest IH]; intros w user seen Hu Hforms Hnodup Hfresh.
  - exists w. repeat split. exact Hforms.
  - cbn [for_each]. unfold bind.
    cbn [map] in Hnodup, Hfresh. apply List.NoDup_cons_iff in Hnodup as [Hhead Hrest].
    destruct (schedule_item_returns inp item w user seen Hu Hforms) as (w1 & Hrun & Hs & Hf).
    { apply Hfresh. left. reflexivity. }
    rewrite Hrun.
    destruct (IH w1 user (Db.medicine_name item :: seen)) as (w2 & Hloop & Hs2 & Hf2).
    + rewrite Hs. exact Hu.
    + exact Hf.
    + exact Hrest.
    + intros n Hn [<- | Hseen]; [exact (Hhead Hn)|].
      exact (Hfresh n (or_intror Hn) Hseen).
    + exists w2. split; [exact Hloop|]. split; [congruence|].
      cbn [map rev]. rewrite <- app_assoc. exact Hf2.
Qed.

(** The schedule the page lists: the stored one, after what the add form
    of the same run has stored. *)
Definition listed_schedule (inp : Inputs) (user : SVal) (d : Db.t)
    : list Db.MedicineScheduleEntry :=
  let f := in_medicine_form inp in
  Db.get_medicine_schedule user
    (if mf_submitted f && (str_truthy (mf_medicine_name f) && str_truthy (mf_dosage f))
     then Db.store_medicine_schedule user
            (Db.mkEntry (mf_medicine_name f) (mf_morning f) (mf_afternoon f) (mf_night f)
                        (mf_dosage f)) d
     else d).

(** The schedule page from the reminder form on (lines 604-657), for the
    schedule listed above it. *)
Definition reminders_part (env : Env) (inp : Inputs)
    (schedule : list Db.MedicineScheduleEntry) : M PageVar :=
  st StSubheader "Set Reminder for Medicines" ;;
  st_form "reminder_form" ;;
  st StSelectbox "Select medicine" ;;
  let reminder_medicine_name :=
    selectbox (map Db.medicine_name schedule) (rf_choice (in_reminder_form inp)) in
  _ <- datetime_now env ;;
  st StTimeInput "Reminder Time" ;;
  let reminder_time := rf_time (in_reminder_form inp) in
  dosage <- next (map Db.dosage (List.filter (name_is reminder_medicine_name) schedule)) ;;
  st StFormSubmitButton "Set Reminder" ;;
  let reminder_submitted := rf_submitted (in_reminder_form inp) in
  (if reminder_submitted then
     user <- session_get "user" ;;
     store_reminder user (selected_name reminder_medicine_name)
                    (strftime_H_M reminder_time) dosage ;;
     st StSuccess ("Reminder for '" ++ selected_name reminder_medicine_name
                   ++ "' set for " ++ strftime_H_M reminder_time)
   else ret tt) ;;
  st StSubheader "Your Reminders" ;;
  user <- session_get "user" ;;
  reminders <- get_reminders user ;;
  (if nonempty reminders then for_each reminders (reminder_item inp)
   else st StWrite "No reminders set. Add reminders above.") ;;
  ret (PageName "Schedule & Reminders").

(** Everything but the storing of a reminder. *)
Definition not_store_reminder (e : Event) : bool :=
  match e with
  | EDb (Db.StoreReminder _ _ _ _) => false
  | _ => true
  end.

Lemma added_only_log (P : Event -> bool) (l0 : list Event) e (w : World) :
  P e = true ->
  (exists evs, log w = (evs ++ l0)%list /\ forallb P evs = true) ->
  exists evs,
    log (mkWorld (environ w) (session w) (db w) (e :: log w)) = (evs ++ l0)%list
    /\ forallb P evs = true.
Proof.
  intros He (evs & Hlog & Hevs). exists (e :: evs). cbn [log].
  rewrite Hlog. split; [reflexivity|]. cbn [forallb]. rewrite He, Hevs. reflexivity.
Qed.

(** The log is [l0] with events allowed by [P] put on it. *)
Definition added_only (P : Event -> bool) (l0 : list Event) : Invariant :=
  mkInvariant (fun w => exists evs, log w = (evs ++ l0)%list /\ forallb P evs = true)
              P (fun _ _ => true) (added_only_log P l0)
              (fun _ _ _ _ H => H) (fun _ _ H => H) (fun _ _ H => H).

Lemma added_nil (P : Event -> bool) l0 :
  exists evs, l0 = (evs ++ l0)%list /\ forallb P evs = true.
Proof. exists []. split; reflexivity. Qed.

Lemma added_cons (P : Event -> bool) l0 e l :
  (exists evs, l = (evs ++ l0)%list /\ forallb P evs = true) ->
  P e = true ->
  exists evs, e :: l = (evs ++ l0)%list /\ forallb P evs = true.
Proof.
  intros (evs & -> & Hevs) He. exists (e :: evs).
  split; [reflexivity|]. cbn [forallb]. rewrite He, Hevs. reflexivity.
Qed.

(** Closes [inv (added_only P l0) w] for a world whose log is [l0] under
    explicit events. *)
Ltac added :=
  cbn [inv added_only log logged app started];
  repeat (apply added_cons; [| reflexivity]); apply added_nil.

Lemma for_each_nonempty {A} (l : list A) body :
  (if nonempty l then for_each l body else ret tt) = for_each l body.
Proof. destruct l; reflexivity. Qed.

(** The schedule page of a logged-in session up to the listing: the add
    form is the only form so far, and no reminder has been stored. *)
Lemma schedule_page_lists env inp fuel w user :
  has_api_key env w = true ->
  in_menu inp = MenuSchedule ->
  logged_in w = true ->
  session w !! "user" = Some user ->
  exists W,
    main env inp fuel w
    = bind (for_each (listed_schedule inp user (db w)) (schedule_item inp))
           (fun _ => reminders_part env inp (listed_schedule inp user (db w))) W
    /\ session W = session w
    /\ listing [] W
    /\ inv (added_only not_store_reminder (log w)) W.
Proof.
  intros Hkey Hpage Hflag Huser.
  rewrite main_started by assumption.
  destruct (started_flag env w) as (v & Hv & Ht).
  rewrite Hflag in Ht.
  pose proof (session_defaults_logged_in env w Hflag) as Hsess.
  rewrite Hpage; cbn [menu_label dispatch String.eqb Ascii.eqb Bool.eqb].
  unfold schedule_page.
  rewrite (run_session_get _ v) by exact Hv.
  rewrite Ht; cbn [negb]. cbv zeta.
  rewrite !run_st.
  rewrite run_st_form by reflexivity.
  rewrite !run_st, !logged_logged.
  unfold listed_schedule; cbv zeta.
  destruct (mf_submitted (in_medicine_form inp));
    [destruct (str_truthy (mf_medicine_name (in_medicine_form inp))
               && str_truthy (mf_dosage (in_medicine_form inp)))|];
    cbn [andb].
  - rewrite run_bind, (run_session_get _ user)
      by (cbn [session logged]; rewrite Hsess; exact Huser).
    unfold store_medicine_schedule at 1, db_update at 1.
    rewrite run_bind, run_db_call. cbv beta.
    rewrite !run_st.
    rewrite (run_session_get _ user)
      by (cbn [session logged]; rewrite Hsess; exact Huser).
    rewrite run_get_medicine_schedule, for_each_nonempty.
    eexists. split; [reflexivity|].
    split; [cbn [session logged]; exact Hsess|].
    split; [reflexivity|].
    added.
  - rewrite !run_st.
    rewrite (run_session_get _ user)
      by (cbn [session logged]; rewrite Hsess; exact Huser).
    rewrite run_get_medicine_schedule, for_each_nonempty.
    eexists. split; [reflexivity|].
    split; [cbn [session logged]; exact Hsess|].
    split; [reflexivity|].
    added.
  - rewrite run_ret, !run_st.
    rewrite (run_session_get _ user)
      by (cbn [session logged]; rewrite Hsess; exact Huser).
    rewrite run_get_medicine_schedule, for_each_nonempty.
    eexists. split; [reflexivity|].
    split; [cbn [session logged]; exact Hsess|].
    split; [reflexivity|].
    added.
Qed.

Lemma for_each_app {A} (xs ys : list A) body w :
  for_each (xs ++ ys) body w = bind (for_each xs body) (fun _ => for_each ys body) w.
Proof.
  revert w. induction xs as [|x xs IH]; intros w; [reflexivity|].
  cbn [app for_each]. rewrite run_bind. unfold bind at 1 2.
  destruct (body x w) as [[[]|e|] w']; [apply IH | reflexivity | reflexivity].
Qed.

(** An entry whose name has been listed already stops at its edit form. *)
Lemma schedule_item_repeats inp item w seen :
  listing seen w ->
  In (Db.medicine_name item) seen ->
  schedule_item inp item w
  = (Raised (Exc StreamlitAPIException
                 (duplicate_form_message ("edit_form_" ++ Db.medicine_name item))),
     logged [EUi StWrite ("Dosage: " ++ Db.dosage item);
             EUi StWrite ("Night: " ++ yes_no (Db.night item));
             EUi StWrite ("Afternoon: " ++ yes_no (Db.afternoon item));
             EUi StWrite ("Morning: " ++ yes_no (Db.morning item));
             EUi StExpander ("Medicine: " ++ Db.medicine_name item)] w).
Proof.
  intros Hforms Hseen. apply existsb_eqb_in in Hseen.
  unfold listing in Hforms.
  unfold schedule_item. cbv zeta.
  rewrite !run_st, !logged_logged.
  unfold bind at 1, st_form.
  cbn [log logged app forms_this_run]. rewrite Hforms, edit_form_listed, Hseen.
  reflexivity.
Qed.

(** X19: when no medicine name occurs twice in the schedule the page
    lists (the stored one, after what the add form of the same run has
    stored), a submitted reminder form stores a reminder for the
    session's user with the selected medicine, the chosen time as HH:MM
    and the dosage of the listed entry that bears the selected name,
    whatever the add form and the entries' edit and delete forms do in
    the same run. *)
Theorem reminder_takes_the_listed_dosage env inp fuel w user name item :
  has_api_key env w = true ->
  in_menu inp = MenuSchedule ->
  logged_in w = true ->
  session w !! "user" = Some user ->
  List.NoDup (map Db.medicine_name (listed_schedule inp user (db w))) ->
  selectbox (map Db.medicine_name (listed_schedule inp user (db w)))
            (rf_choice (in_reminder_form inp)) = Some name ->
  List.find (fun it => String.eqb (Db.medicine_name it) name)
            (listed_schedule inp user (db w)) = Some item ->
  rf_submitted (in_reminder_form inp) = true ->
  In (EDb (Db.StoreReminder user name (strftime_H_M (rf_time (in_reminder_form inp)))
                            (Db.dosage item)))
     (log (snd (main env inp fuel w))).
Proof.
  intros Hkey Hpage Hflag Huser Hnodup Hsel Hfind Hrf.
  destruct (schedule_page_lists env inp fuel w user Hkey Hpage Hflag Huser)
    as (W & Hrun & HsW & Hlist & _).
  rewrite Hrun.
  destruct (schedule_items_return inp (listed_schedule inp user (db w)) W user [])
    as (w1 & Hloop & Hs1 & Hl1).
  { rewrite HsW. exact Huser. }
  { exact Hlist. }
  { exact Hnodup. }
  { intros n _ []. }
  unfold bind at 1. rewrite Hloop.
  unfold reminders_part. cbv zeta.
  rewrite run_st.
  rewrite run_st_form
    by (cbn [log logged app forms_this_run]; rewrite Hl1; apply reminder_form_not_listed).
  rewrite run_st, run_now, run_st.
  rewrite Hsel.
  destruct (filter_find _ _ _ Hfind) as (rest & Hfilter).
  change (name_is (Some name)) with (fun it => String.eqb (Db.medicine_name it) name).
  rewrite Hfilter. cbn [map next].
  rewrite run_ret, run_st, !logged_logged.
  rewrite Hrf.
  rewrite run_bind, (run_session_get _ user)
    by (cbn [session logged]; rewrite Hs1, HsW; exact Huser).
  unfold store_reminder at 1, db_update at 1.
  rewrite run_bind, run_db_call. cbv beta. cbn [selected_name].
  stays_logged.
Qed.

(** Checks that no string occurs twice. *)
Fixpoint distinct (l : list string) : bool :=
  match l with
  | [] => true
  | x :: rest => negb (existsb (String.eqb x) rest) && distinct rest
  end.

Lemma distinct_NoDup l : distinct l = true -> List.NoDup l.
Proof.
  induction l as [|x l IH]; cbn [distinct]; intros H; constructor.
  - apply andb_prop in H as [H _]. intros Hin.
    apply existsb_eqb_in in Hin. rewrite Hin in H. discriminate H.
  - apply IH. apply andb_prop in H as [_ H]. exact H.
Qed.

(** alice's schedule with two medicines, and with Aspirin listed twice
    under different dosages. *)
Definition scheduled_db : Db.t :=
  Db.store_medicine_schedule (VStr "alice")
     (Db.mkEntry "Metformin" false false true "500 mg")
     (Db.store_medicine_schedule (VStr "alice")
        (Db.mkEntry "Aspirin" true false false "1 tablet") alice_db).

Definition scheduled_world : World := mkWorld api_key alice_session scheduled_db [].

Definition twice_listed_db : Db.t :=
  Db.store_medicine_schedule (VStr "alice")
     (Db.mkEntry "Aspirin" false false true "2 tablets")
     (Db.store_medicine_schedule (VStr "alice")
        (Db.mkEntry "Aspirin" true false false "1 tablet") alice_db).

Definition twice_listed_world : World := mkWorld api_key alice_session twice_listed_db [].

(** The schedule page with the reminder form submitted for the option
    at the given index, at 08:00. *)
Definition reminder_submission (choice : nat) : Inputs :=
  mkInputs MenuSchedule "" "" false "" "" "" false
           (mkMedicineForm "" false false false "" false) (fun _ => no_edit)
           (mkReminderForm choice (mkTime 8 0) true) (fun _ => no_reminder_edit)
           None false false false false.

Lemma reminder_takes_the_listed_dosage_instance :
  In (EDb (Db.StoreReminder (VStr "alice") "Metformin" "08:00" "500 mg"))
     (log (snd (main sample_env (reminder_submission 1) 0 scheduled_world))).
Proof.
  exact (reminder_takes_the_listed_dosage sample_env (reminder_submission 1) 0
           scheduled_world (VStr "alice") "Metformin"
           (Db.mkEntry "Metformin" false false true "500 mg")
           eq_refl eq_refl eq_refl eq_refl (distinct_NoDup ["Aspirin"; "Metformin"] eq_refl)
           eq_refl eq_refl eq_refl).
Defined.

(** X20: when the schedule the page lists bears a medicine name a second
    time, the page stops at that entry: its expander texts are rendered,
    then [st.form] refuses the repeated key of its edit form and the run
    ends in the framework's API exception; the entries after it, the
    reminder form and the reminders are not reached, and the run has
    stored no reminder, even with the reminder form submitted. *)
Theorem repeated_name_stops_the_page env inp fuel w user pre item post :
  has_api_key env w = true ->
  in_menu inp = MenuSchedule ->
  logged_in w = true ->
  session w !! "user" = Some user ->
  listed_schedule inp user (db w) = (pre ++ item :: post)%list ->
  List.NoDup (map Db.medicine_name pre) ->
  In (Db.medicine_name item) (map Db.medicine_name pre) ->
  fst (main env inp fuel w)
  = Raised (Exc StreamlitAPIException
                (duplicate_form_message ("edit_form_" ++ Db.medicine_name item)))
  /\ exists evs,
       log (snd (main env inp fuel w))
       = ([EUi StWrite ("Dosage: " ++ Db.dosage item);
           EUi StWrite ("Night: " ++ yes_no (Db.night item));
           EUi StWrite ("Afternoon: " ++ yes_no (Db.afternoon item));
           EUi StWrite ("Morning: " ++ yes_no (Db.morning item));
           EUi StExpander ("Medicine: " ++ Db.medicine_name item)] ++ evs ++ log w)%list
       /\ forallb not_store_reminder evs = true.
Proof.
  intros Hkey Hpage Hflag Huser Hlisted Hnodup Hrep.
  destruct (schedule_page_lists env inp fuel w user Hkey Hpage Hflag Huser)
    as (W & Hrun & HsW & Hlist & Hadded).
  destruct (schedule_items_return inp pre W user [])
    as (w1 & Hloop & Hs1 & Hl1).
  { rewrite HsW. exact Huser. }
  { exact Hlist. }
  { exact Hnodup. }
  { intros n _ []. }
  assert (Hkeeps : keeps (added_only not_store_reminder (log w))
                         (for_each pre (schedule_item inp))).
  { apply keeps_for_each. intros x. unfold schedule_item.
    cbv delta [update_medicine_schedule delete_medicine_schedule]; cbv beta. keep. }
  specialize (Hkeeps W Hadded). rewrite Hloop in Hkeeps. cbn [snd] in Hkeeps.
  destruct Hkeeps as (evs & Hlog & Hevs).
  assert (Hmain : main env inp fuel w
                  = (Raised (Exc StreamlitAPIException
                               (duplicate_form_message
                                  ("edit_form_" ++ Db.medicine_name item))),
                     logged [EUi StWrite ("Dosage: " ++ Db.dosage item);
                             EUi StWrite ("Night: " ++ yes_no (Db.night item));
                             EUi StWrite ("Afternoon: " ++ yes_no (Db.afternoon item));
                             EUi StWrite ("Morning: " ++ yes_no (Db.morning item));
                             EUi StExpander ("Medicine: " ++ Db.medicine_name item)] w1)).
  { rewrite Hrun, Hlisted.
    unfold bind at 1. rewrite for_each_app. unfold bind at 1. rewrite Hloop.
    cbn [for_each]. unfold bind at 1.
    rewrite (schedule_item_repeats inp item w1 (rev (map Db.medicine_name pre) ++ []));
      [reflexivity | exact Hl1 |].
    rewrite app_nil_r. apply in_rev in Hrep. exact Hrep. }
  rewrite Hmain. split; [reflexivity|].
  exists evs. cbn [snd log logged]. rewrite Hlog. split; [reflexivity | exact Hevs].
Qed.

Lemma repeated_name_stops_the_page_instance :
  fst (main sample_env (reminder_submission 0) 0 twice_listed_world)
  = Raised (Exc StreamlitAPIException (duplicate_form_message "edit_form_Aspirin"))
  /\ exists evs,
       log (snd (main sample_env (reminder_submission 0) 0 twice_listed_world))
       = ([EUi StWrite "Dosage: 2 tablets"; EUi StWrite "Night: Yes";
           EUi StWrite "Afternoon: No"; EUi StWrite "Morning: No";
           EUi StExpander "Medicine: Aspirin"] ++ evs ++ [])%list
       /\ forallb not_store_reminder evs = true.
Proof.
  exact (repeated_name_stops_the_page sample_env (reminder_submission 0) 0
           twice_listed_world (VStr "alice")
           [Db.mkEntry "Aspirin" true false false "1 tablet"]
           (Db.mkEntry "Aspirin" false false true "2 tablets") []
           eq_refl eq_refl eq_refl eq_refl eq_refl (distinct_NoDup ["Aspirin"] eq_refl)
           (or_introl eq_refl)).
Defined.
